(** * medtracker2: the client-side store, its remote client and the day grid

    A shallow embedding of the state-management code of the health tracker
    (src/index.tsx and the split-out modules under src/components and
    src/unnamed), followed by the properties of the specification.

    Conventions of the embedding.
    - A JavaScript string is a [string]; its characters stand for code units
      and are compared by their code, as [Array.prototype.sort] does.
    - A plain object used as a dictionary ([Record<string, T>]) is the
      [gmap string T] of its own properties, which is what [Object.entries],
      [Object.keys], [Object.values], the spread and [JSON.stringify] see.
      Its prototype is [Object.prototype]: a read [o[k]] that finds no own
      property finds the members of [Object.prototype] ([read]), and an
      assignment [o[k] = v] with the key [__proto__] creates no property
      ([assign]).
    - [number | null] is [option Z].
    - React state cells are fields of a record; a setter call is a record
      update; the effect that mirrors the cells into the refs has run by the
      time a timer callback reads them. *)

From Stdlib Require Import ZArith DecimalString.
From stdpp Require Import gmap strings list fin_maps sorting.

Set Warnings "-register-all".

(** ** JavaScript built-ins used by the program *)

(** [Number.prototype.toString] on a non-negative integer. *)
Definition toString (n : nat) : string :=
  NilZero.string_of_uint (Nat.to_uint n).

(** The first [k] characters of [fill] repeated for ever, [cur] being what is
    left of the current copy. *)
Fixpoint pad_prefix (k : nat) (cur fill : string) : string :=
  match k with
  | O => ""
  | S k' =>
      match cur with
      | String c rest => String c (pad_prefix k' rest fill)
      | EmptyString =>
          match fill with
          | String c rest => String c (pad_prefix k' rest fill)
          | EmptyString => ""
          end
      end
  end.

(** [String.prototype.padStart]. *)
Definition padStart (targetLength : nat) (fill : string) (s : string) : string :=
  pad_prefix (targetLength - String.length s) fill fill +:+ s.

(** The default comparison of [Array.prototype.sort] on strings. *)
Definition str_le (s1 s2 : string) : Prop := String.leb s1 s2 = true.

Global Instance str_le_dec : RelDecision str_le.
Proof. intros s1 s2. unfold str_le. apply _. Defined.

(** [Array.prototype.sort] with the default comparison: the stable sorted
    rearrangement of the array. *)
Definition Array_sort (l : list string) : list string := merge_sort str_le l.

(** [Array.prototype.includes] on strings. *)
Definition includes (l : list string) (x : string) : bool :=
  bool_decide (x ∈ l).

(** [Array.from(new Set(l))]: a set keeps the first occurrence of every
    element, in insertion order. [Set_add] is [Set.prototype.add] on the
    insertion-ordered contents. *)
Definition Set_add (acc : list string) (x : string) : list string :=
  if includes acc x then acc else acc ++ [x].

Definition Set_add_all (acc : list string) (l : list string) : list string :=
  foldl Set_add acc l.

Definition Array_from_Set (l : list string) : list string := Set_add_all [] l.

(** ** constants.ts *)

(** The body of [for (let h = 8; h < 24; h++)]: the loop stops on its
    condition; [fuel] only bounds the recursion. *)
Fixpoint TIME_SLOTS_loop (fuel h : nat) (acc : list string) : list string :=
  match fuel with
  | O => acc
  | S fuel' =>
      if (h <? 24)%nat then
        let acc1 := acc ++ [padStart 2 "0" (toString h) +:+ ":00"] in
        let acc2 :=
          if (h <? 23)%nat
          then acc1 ++ [padStart 2 "0" (toString h) +:+ ":30"]
          else acc1 in
        TIME_SLOTS_loop fuel' (S h) acc2
      else acc
  end.

Definition TIME_SLOTS : list string := TIME_SLOTS_loop 24 8 [].

(** ** types.ts *)

Module Slot.
Record t : Type := mk {
  value : option Z;
  medications : list string;
  comments : string
}.
End Slot.

Abbreviation TimeSlotData := Slot.t.
Abbreviation DailyData := (gmap string Slot.t).
Abbreviation HealthData := (gmap string (gmap string Slot.t)).
Abbreviation StandardPattern := (gmap string (list string)).

Record UserDataBundle : Type := mkBundle {
  healthData : HealthData;
  medications : list string;
  standardPattern : StandardPattern
}.

(** [Object.entries(o).reduce(f, init)]: a left fold over the own entries. *)
Definition entries_reduce {A B} (f : B → string * A → B) (init : B)
    (o : gmap string A) : B :=
  foldl f init (map_to_list o).

(** ** Objects and [Object.prototype] *)

(** The names that every object inherits from [Object.prototype]: its
    methods and the accessor [__proto__]. Read from an object that has no own
    property of that name, each of them gives a function, and [__proto__] the
    prototype itself: a truthy value with no enumerable property of its own
    and none of the fields of the program's data. *)
Definition Object_prototype : list string :=
  ["constructor"; "hasOwnProperty"; "isPrototypeOf"; "propertyIsEnumerable";
   "toLocaleString"; "toString"; "valueOf"; "__proto__";
   "__defineGetter__"; "__defineSetter__";
   "__lookupGetter__"; "__lookupSetter__"].

Definition inherited (name : string) : bool := includes Object_prototype name.

(** What [o[name]] finds. *)
Inductive Property (T : Type) : Type :=
  | Own (v : T)
  | Inherited
  | Undefined.
Arguments Own {T}.
Arguments Inherited {T}.
Arguments Undefined {T}.

(** [o[name]] on an object whose prototype is [Object.prototype]. *)
Definition read {T} (o : gmap string T) (name : string) : Property T :=
  match o !! name with
  | Some v => Own v
  | None => if inherited name then Inherited else Undefined
  end.

(** [o[name] = v]. With the name [__proto__], and unless [o] has an own
    property of that name, the assignment runs the setter that
    [Object.prototype] has for it: [v] becomes the prototype of [o] and no
    property is created. The prototype so installed is not kept here; no
    enumeration of [o] sees it. *)
Definition assign {T} (name : string) (v : T) (o : gmap string T)
    : gmap string T :=
  if decide (name = "__proto__") then
    match o !! name with
    | Some _ => <[name := v]> o
    | None => o
    end
  else <[name := v]> o.

(** The object that a [reduce] builds when it starts from [{}] and assigns
    one by one the entries of an object: all of them but the one under
    [__proto__]. *)
Definition assigned {T} (o : gmap string T) : gmap string T :=
  delete "__proto__" o.

(** A computation that returns or throws an [Error] with a message. *)
Inductive Exn (A : Type) : Type :=
  | Return (a : A)
  | Throw (message : string).
Arguments Return {A}.
Arguments Throw {A}.

(** One computation after another: a throw ends both. *)
Definition Exn_bind {A B} (x : Exn A) (f : A → Exn B) : Exn B :=
  match x with
  | Return a => f a
  | Throw message => Throw message
  end.

(** ** The browser's timers *)

(** [clock] is the time in milliseconds; [active] lists the handles that
    [setTimeout] gave out and that have neither fired nor been cleared, each
    with the time from which it may fire. Handles are positive numbers. *)
Record Timers : Type := mkTimers {
  clock : Z;
  active : list (positive * Z);
  nextHandle : positive
}.

Definition setTimeout (delay : Z) (w : Timers) : positive * Timers :=
  (nextHandle w,
   {| clock := clock w;
      active := active w ++ [(nextHandle w, (clock w + delay)%Z)];
      nextHandle := Pos.succ (nextHandle w) |}).

Definition clearTimeout (h : positive) (w : Timers) : Timers :=
  {| clock := clock w;
     active := filter (λ p, p.1 ≠ h) (active w);
     nextHandle := nextHandle w |}.

(** ** context/AppContext: the store *)

Definition defaultHealthData : HealthData := ∅.
Definition defaultMedications : list string := ["Medicina A"; "Medicina B"].
Definition defaultStandardPattern : StandardPattern := ∅.
Definition defaultUserDataBundle : UserDataBundle :=
  {| healthData := defaultHealthData;
     medications := defaultMedications;
     standardPattern := defaultStandardPattern |}.

(** The provider's state. [data] holds the three state cells (and, through
    the mirroring effect, [dataRef.current]); [D] is the type of what the
    cells hold: [UserDataBundle] for the typed program, raw JSON values for
    what [JSON.parse] hands to the import. [requests] records every PUT
    issued, with its time and body. *)
Record Store (D : Type) : Type := mkStore {
  isAuthenticated : bool;
  data : D;
  isSaving : bool;
  saveDataTimeout : option positive;
  window : Timers;
  requests : list (Z * D)
}.
Arguments mkStore {D}.
Arguments isAuthenticated {D}.
Arguments data {D}.
Arguments isSaving {D}.
Arguments saveDataTimeout {D}.
Arguments window {D}.
Arguments requests {D}.

Definition setData {D} (f : D → D) (st : Store D) : Store D :=
  mkStore (isAuthenticated st) (f (data st)) (isSaving st)
          (saveDataTimeout st) (window st) (requests st).

Definition setHealthData (f : HealthData → HealthData) :
    Store UserDataBundle → Store UserDataBundle :=
  setData (λ d, mkBundle (f (healthData d)) (medications d) (standardPattern d)).

Definition setMedications (f : list string → list string) :
    Store UserDataBundle → Store UserDataBundle :=
  setData (λ d, mkBundle (healthData d) (f (medications d)) (standardPattern d)).

Definition setStandardPattern (f : StandardPattern → StandardPattern) :
    Store UserDataBundle → Store UserDataBundle :=
  setData (λ d, mkBundle (healthData d) (medications d) (f (standardPattern d))).

(** [saveDataToJsonbin]: clear the pending timer, if any, and start a new one
    of two seconds. *)
Definition saveDataToJsonbin {D} (st : Store D) : Store D :=
  let w1 := match saveDataTimeout st with
            | Some h => clearTimeout h (window st)
            | None => window st
            end in
  let '(h, w2) := setTimeout 2000 w1 in
  mkStore (isAuthenticated st) (data st) (isSaving st) (Some h) w2 (requests st).

(** The callback given to [setTimeout]: when still authenticated, snapshot
    the cells and issue the PUT. *)
Definition saveCallback {D} (st : Store D) : Store D :=
  if negb (isAuthenticated st) then st
  else mkStore (isAuthenticated st) (data st) true (saveDataTimeout st)
               (window st) (requests st ++ [(clock (window st), data st)]).

Definition logout (st : Store UserDataBundle) : Store UserDataBundle :=
  mkStore false defaultUserDataBundle (isSaving st) (saveDataTimeout st)
          (window st) (requests st).

Definition updateHealthData (date : string) (day : DailyData)
    (st : Store UserDataBundle) : Store UserDataBundle :=
  saveDataToJsonbin (setHealthData (λ prev, <[date := day]> prev) st).

Definition addMedication (med : string)
    (st : Store UserDataBundle) : Store UserDataBundle :=
  if negb (includes (medications (data st)) med)
  then saveDataToJsonbin (setMedications (λ prev, Array_sort (prev ++ [med])) st)
  else st.

(** [m => m === oldMed ? newMed : m] *)
Definition rename (oldMed newMed : string) (m : string) : string :=
  if decide (m = oldMed) then newMed else m.

Definition renameSlot (oldMed newMed : string) (slot : Slot.t) : Slot.t :=
  Slot.mk (Slot.value slot)
          (rename oldMed newMed <$> Slot.medications slot)
          (Slot.comments slot).

Definition editMedication (oldMed newMed : string)
    (st : Store UserDataBundle) : Store UserDataBundle :=
  let st1 := setHealthData (λ prev,
    entries_reduce (λ acc '(date, daily),
      assign date (entries_reduce (λ dAcc '(time, slot),
                     assign time (renameSlot oldMed newMed slot) dAcc) ∅ daily)
             acc)
      ∅ prev) st in
  let st2 := setStandardPattern (λ prev,
    entries_reduce (λ acc '(time, meds),
      assign time (rename oldMed newMed <$> meds) acc) ∅ prev) st1 in
  let st3 := setMedications (λ prev,
    Array_sort (rename oldMed newMed <$> prev)) st2 in
  saveDataToJsonbin st3.

(** [meds.filter(m => m !== medToDelete)] *)
Definition without (medToDelete : string) (meds : list string) : list string :=
  filter (λ m, m ≠ medToDelete) meds.

Definition withoutSlot (medToDelete : string) (slot : Slot.t) : Slot.t :=
  Slot.mk (Slot.value slot)
          (without medToDelete (Slot.medications slot))
          (Slot.comments slot).

Definition deleteMedication (medToDelete : string)
    (st : Store UserDataBundle) : Store UserDataBundle :=
  let st1 := setHealthData (λ prev,
    entries_reduce (λ acc '(date, daily),
      assign date (entries_reduce (λ dAcc '(time, slot),
                     assign time (withoutSlot medToDelete slot) dAcc) ∅ daily)
             acc)
      ∅ prev) st in
  let st2 := setStandardPattern (λ prev,
    entries_reduce (λ acc '(time, meds),
      let filtered := without medToDelete meds in
      if (0 <? length filtered)%nat then assign time filtered acc else acc)
      ∅ prev) st1 in
  let st3 := setMedications (λ prev, without medToDelete prev) st2 in
  saveDataToJsonbin st3.

Definition updateStandardPattern (pattern : StandardPattern)
    (st : Store UserDataBundle) : Store UserDataBundle :=
  saveDataToJsonbin (setStandardPattern (λ _, pattern) st).

(** [loadUserDataBundle] on a well-typed bundle: its three fields are objects
    and arrays, which are truthy, so the test passes and the bundle is
    installed (the test itself is [loadUserDataBundle] below, on raw JSON). *)
Definition importBundle (bundle : UserDataBundle)
    (st : Store UserDataBundle) : Store UserDataBundle :=
  saveDataToJsonbin (setData (λ _, bundle) st).

(** The six store operations that the user interface calls to change the
    data. *)
Inductive mutation : Type :=
  | UpdateHealthData (date : string) (day : DailyData)
  | AddMedication (med : string)
  | EditMedication (oldMed newMed : string)
  | DeleteMedication (med : string)
  | UpdateStandardPattern (pattern : StandardPattern)
  | LoadUserDataBundle (bundle : UserDataBundle).

Definition call (m : mutation) : Store UserDataBundle → Store UserDataBundle :=
  match m with
  | UpdateHealthData date day => updateHealthData date day
  | AddMedication med => addMedication med
  | EditMedication oldMed newMed => editMedication oldMed newMed
  | DeleteMedication med => deleteMedication med
  | UpdateStandardPattern pattern => updateStandardPattern pattern
  | LoadUserDataBundle bundle => importBundle bundle
  end.

(** A call is a no-op only for [addMedication] of a name already listed;
    every other call changes the cells and reaches [saveDataToJsonbin]. *)
Definition schedules (m : mutation) (st : Store UserDataBundle) : bool :=
  match m with
  | AddMedication med => negb (includes (medications (data st)) med)
  | _ => true
  end.

(** [login] of src/index.tsx. *)
Definition APP_PASSWORD : string := "password123".

Definition login (password : string)
    (st : Store UserDataBundle) : Store UserDataBundle :=
  if decide (password = APP_PASSWORD)
  then mkStore true (data st) (isSaving st) (saveDataTimeout st)
               (window st) (requests st)
  else st.

(** The end of [loadInitialUserData] when the document read is well typed:
    its fields are truthy, so each [x || default] is [x], and the three
    setters install them; no save is scheduled. *)
Definition loadInitialUserData (bundle : UserDataBundle)
    (st : Store UserDataBundle) : Store UserDataBundle :=
  setData (λ _, bundle) st.

(** ** The event loop *)

(** What happens to the store: the user interface calls an operation, the
    document fetched after a login arrives, the browser runs the callback of
    a timer that is due, or a PUT is answered (the [finally] of the
    callback). Every event carries its time. *)
Inductive event : Type :=
  | Call (t : Z) (m : mutation)
  | Login (t : Z) (password : string)
  | Loaded (t : Z) (bundle : UserDataBundle)
  | Logout (t : Z)
  | Fires (t : Z) (h : positive)
  | Settles (t : Z).

Definition time_of (e : event) : Z :=
  match e with
  | Call t _ | Login t _ | Loaded t _ | Logout t
  | Fires t _ | Settles t => t
  end.

Definition tick {D} (t : Z) (st : Store D) : Store D :=
  mkStore (isAuthenticated st) (data st) (isSaving st) (saveDataTimeout st)
          (mkTimers t (active (window st)) (nextHandle (window st)))
          (requests st).

(** A timer may fire at any time from its deadline on. *)
Definition due (t : Z) (h : positive) (w : Timers) : bool :=
  existsb (λ p, bool_decide (p.1 = h) && (p.2 <=? t)%Z) (active w).

Definition expire {D} (h : positive) (st : Store D) : Store D :=
  mkStore (isAuthenticated st) (data st) (isSaving st) (saveDataTimeout st)
          (clearTimeout h (window st)) (requests st).

Definition settle {D} (st : Store D) : Store D :=
  mkStore (isAuthenticated st) (data st) false (saveDataTimeout st)
          (window st) (requests st).

(** One event; [None] when the event cannot happen in this state (time does
    not run backwards, and only a due timer fires). *)
Definition step (e : event) (st : Store UserDataBundle)
    : option (Store UserDataBundle) :=
  if (clock (window st) <=? time_of e)%Z then
    let st := tick (time_of e) st in
    match e with
    | Call _ m => Some (call m st)
    | Login _ password => Some (login password st)
    | Loaded _ bundle => Some (loadInitialUserData bundle st)
    | Logout _ => Some (logout st)
    | Fires t h => if due t h (window st)
                   then Some (saveCallback (expire h st)) else None
    | Settles _ => Some (settle st)
    end
  else None.

Fixpoint run (trace : list event) (st : Store UserDataBundle)
    : option (Store UserDataBundle) :=
  match trace with
  | [] => Some st
  | e :: trace' =>
      match step e st with
      | Some st' => run trace' st'
      | None => None
      end
  end.

(** The events that are not calls of the user interface. *)
Definition background (e : event) : bool :=
  match e with
  | Fires _ _ | Settles _ => true
  | _ => false
  end.

(** The event is a timer callback. *)
Definition fires (e : event) : bool :=
  match e with
  | Fires _ _ => true
  | _ => false
  end.

Definition initialStore : Store UserDataBundle :=
  mkStore false defaultUserDataBundle false None (mkTimers 0 [] 1) [].

Definition reachable (st : Store UserDataBundle) : Prop :=
  ∃ trace, run trace initialStore = Some st.

(** The save timer is the only timer: whatever is active has the handle kept
    in [saveDataTimeout]. *)
Definition timers_ok {D} (st : Store D) : Prop :=
  ∀ h d, (h, d) ∈ active (window st) → saveDataTimeout st = Some h.

(** ** components/calendar/Calendar *)

(** [d.value != null || d.medications.length > 0 || d.comments] *)
Definition slotHasData (d : Slot.t) : bool :=
  match Slot.value d with Some _ => true | None => false end
  || (0 <? length (Slot.medications d))%nat
  || negb (String.eqb (Slot.comments d) "").

(** [dayData && Object.values(dayData).some(...)] *)
Definition hasData (healthData : HealthData) (dayFormatted : string) : bool :=
  match healthData !! dayFormatted with
  | Some dayData => existsb slotHasData (map_to_list dayData).*2
  | None => false
  end.

(** ** components/input/DataInputForm *)

(** A slot after the pattern's medications were merged into it:
    [{...slot, medications: Array.from(new Set([...slot.medications,
    ...patternMeds]))}]. *)
Definition combined (patternMeds : list string) (slot : Slot.t) : Slot.t :=
  Slot.mk (Slot.value slot)
          (Array_from_Set (Slot.medications slot ++ patternMeds))
          (Slot.comments slot).

(** One turn of the [forEach] of [applyStandardPattern] in src/index.tsx.
    The test [if (newData[time])] reads through the prototype: at a key that
    the grid lacks and [Object.prototype] has, it finds a function (or the
    prototype), [newData[time].medications] is [undefined], and spreading it
    throws a [TypeError] (the text of its message depends on the engine). *)
Definition applyStandardPattern_step (result : Exn DailyData)
    (entry : string * list string) : Exn DailyData :=
  let '(time, patternMeds) := entry in
  Exn_bind result (λ newData,
    match read newData time with
    | Own slot => Return (assign time (combined patternMeds slot) newData)
    | Inherited => Throw "TypeError"
    | Undefined => Return newData
    end).

(** [applyStandardPattern] of src/index.tsx, as the function given to
    [setDailyData]. [Object.keys(standardPattern).forEach] visits every own
    key [time] with [standardPattern[time]], that is every entry. *)
Definition applyStandardPattern (standardPattern : StandardPattern)
    (prev : DailyData) : Exn DailyData :=
  foldl applyStandardPattern_step (Return prev) (map_to_list standardPattern).

(** What the grid of the form component can hold after its action: a slot,
    the object [{medications}] that the action writes where it found a member
    of [Object.prototype], or the object [{...items, medications}] that it
    writes where it found an array. *)
Inductive FormSlot : Type :=
  | FullSlot (slot : Slot.t)
  | MedicationsOnly (medications : list string)
  | ArrayAnd (items : list string) (medications : list string).

(** [v.medications] for what the grid holds. *)
Definition FormSlot_medications (v : FormSlot) : list string :=
  match v with
  | FullSlot slot => Slot.medications slot
  | MedicationsOnly medications => medications
  | ArrayAnd _ medications => medications
  end.

(** [{...v, medications}] *)
Definition FormSlot_with (v : FormSlot) (medications : list string) : FormSlot :=
  match v with
  | FullSlot slot => FullSlot (Slot.mk (Slot.value slot) medications (Slot.comments slot))
  | MedicationsOnly _ => MedicationsOnly medications
  | ArrayAnd items _ => ArrayAnd items medications
  end.

(** One turn of the [forEach] of the action in
    src/components/input/DataInputForm.tsx. The state is the own properties
    of [newData] and, once [newData.__proto__] was assigned, the field
    [medications] of the object that became its prototype. A set is built
    from [newData[time].medications], the pattern's medications are added,
    and [{...newData[time], medications}] is assigned to [newData[time]]:
    - at an own property, its medications are merged;
    - at [__proto__], [new Set(undefined)] is empty, and the assignment
      installs [{medications}] as the prototype;
    - at [medications] after that, [newData[time]] is the array of the
      prototype, whose spread gives its items;
    - at another member of [Object.prototype], a function is found, whose
      spread gives nothing: a property [{medications}] is created. *)
Definition applyStandardPattern_form_step
    (state : gmap string FormSlot * option (list string))
    (entry : string * list string)
    : gmap string FormSlot * option (list string) :=
  let '(newData, proto) := state in
  let '(time, patternMeds) := entry in
  match newData !! time with
  | Some v =>
      (<[time := FormSlot_with v
                   (Set_add_all (Array_from_Set (FormSlot_medications v))
                                patternMeds)]> newData,
       proto)
  | None =>
      if decide (time = "__proto__") then
        (newData,
         Some (Set_add_all (Array_from_Set (default [] proto)) patternMeds))
      else
        match proto with
        | Some items =>
            if decide (time = "medications") then
              (<[time := ArrayAnd items (Array_from_Set patternMeds)]> newData,
               proto)
            else if inherited time then
              (<[time := MedicationsOnly (Array_from_Set patternMeds)]> newData,
               proto)
            else (newData, proto)
        | None =>
            if inherited time then
              (<[time := MedicationsOnly (Array_from_Set patternMeds)]> newData,
               proto)
            else (newData, proto)
        end
  end.

(** The action of the form component on a well-typed grid: the own
    properties of the grid it returns. *)
Definition applyStandardPattern_form (standardPattern : StandardPattern)
    (prevData : DailyData) : gmap string FormSlot :=
  fst (foldl applyStandardPattern_form_step
             (FullSlot <$> prevData, None) (map_to_list standardPattern)).

(** ** Values read from a file or from the network *)

(** What [JSON.parse] returns. Numbers are integers here; an object keeps its
    members as written, and the last of several equal keys is the one that
    counts. *)
Inductive JSON : Type :=
  | JNull
  | JBool (b : bool)
  | JNumber (n : Z)
  | JString (s : string)
  | JArray (items : list JSON)
  | JObject (members : list (string * JSON)).

(** A JavaScript value here is a JSON value or [undefined]. *)
Abbreviation JSValue := (option JSON).

Fixpoint member (name : string) (members : list (string * JSON)) : JSValue :=
  match members with
  | [] => None
  | (k, v) :: rest =>
      match member name rest with
      | Some v' => Some v'
      | None => if decide (k = name) then Some v else None
      end
  end.

(** [v.name] for one of the names [healthData], [medications],
    [standardPattern]: no array, string, number or boolean has such a
    property. *)
Definition get (v : JSON) (name : string) : JSValue :=
  match v with
  | JObject members => member name members
  | _ => None
  end.

(** Truthiness, as tested by [if] and [&&]. *)
Definition truthy (v : JSValue) : bool :=
  match v with
  | None => false
  | Some JNull => false
  | Some (JBool b) => b
  | Some (JNumber n) => negb (n =? 0)%Z
  | Some (JString s) => negb (String.eqb s "")
  | Some (JArray _) => true
  | Some (JObject _) => true
  end.

(** The three cells when they hold what an import put there. *)
Record RawBundle : Type := mkRaw {
  rawHealthData : JSValue;
  rawMedications : JSValue;
  rawStandardPattern : JSValue
}.

(** [loadUserDataBundle] of src/index.tsx, on the value that
    [JSON.parse] produced. *)
Definition loadUserDataBundle (bundle : JSON)
    (st : Store RawBundle) : Exn (Store RawBundle) :=
  if truthy (Some bundle)
     && truthy (get bundle "healthData")
     && truthy (get bundle "medications")
     && truthy (get bundle "standardPattern")
  then
    Return (saveDataToJsonbin
              (setData (λ _, mkRaw (get bundle "healthData")
                                   (get bundle "medications")
                                   (get bundle "standardPattern")) st))
  else Throw "Invalid data structure in JSON file.".

(** [JSON.stringify] followed by [JSON.parse] on well-typed data: how the
    typed cells look as raw values. *)
Definition encodeMeds (meds : list string) : JSON := JArray (JString <$> meds).

Definition encodeSlot (slot : Slot.t) : JSON :=
  JObject [("value", match Slot.value slot with
                     | Some n => JNumber n
                     | None => JNull
                     end);
           ("medications", encodeMeds (Slot.medications slot));
           ("comments", JString (Slot.comments slot))].

Definition encodeDay (day : DailyData) : JSON :=
  JObject (prod_map id encodeSlot <$> map_to_list day).

Definition encodeHealthData (h : HealthData) : JSON :=
  JObject (prod_map id encodeDay <$> map_to_list h).

Definition encodePattern (p : StandardPattern) : JSON :=
  JObject (prod_map id encodeMeds <$> map_to_list p).

Definition encodeBundle (b : UserDataBundle) : JSON :=
  JObject [("healthData", encodeHealthData (healthData b));
           ("medications", encodeMeds (medications b));
           ("standardPattern", encodePattern (standardPattern b))].

Definition rawOf (b : UserDataBundle) : RawBundle :=
  mkRaw (Some (encodeHealthData (healthData b)))
        (Some (encodeMeds (medications b)))
        (Some (encodePattern (standardPattern b))).

(** The typed store seen with raw cells. *)
Definition rawStore (st : Store UserDataBundle) : Store RawBundle :=
  mkStore (isAuthenticated st) (rawOf (data st)) (isSaving st)
          (saveDataTimeout st) (window st)
          ((λ p, (p.1, rawOf p.2)) <$> requests st).

(** ** services/jsonbinService *)

(** What [fetch] and the reading of the body can do: the request fails in
    transport, or a response arrives with a status, a status text and a
    body, whose reading may fail too. *)
Record Response : Type := mkResponse {
  status : Z;
  statusText : string;
  text : Exn string
}.

Inductive FetchOutcome : Type :=
  | NetworkError (message : string)
  | Responded (response : Response).

(** [response.ok] *)
Definition ok (response : Response) : bool :=
  (200 <=? status response)%Z && (status response <=? 299)%Z.

Section jsonbinService.
Context {D : Type}.
(** [JSON.parse], which throws a [SyntaxError] on a malformed text. *)
Variable JSON_parse : string → Exn D.

(** The [try] block of [loadDataFromBin]. *)
Definition loadDataFromBin_try (outcome : FetchOutcome) (defaultData : D)
    : Exn D :=
  match outcome with
  | NetworkError message => Throw message
  | Responded response =>
      if negb (ok response) then
        if (status response =? 404)%Z then Return defaultData
        else Throw ("Failed to load: " +:+ statusText response)
      else
        match text response with
        | Throw message => Throw message
        | Return responseText =>
            if negb (String.eqb responseText "")
            then JSON_parse responseText
            else Return defaultData
        end
  end.

(** [loadDataFromBin]: the [try] block under its [catch], which logs and
    returns the default. The result is what the promise settles to, with the
    lines written to the console. *)
Definition loadDataFromBin (outcome : FetchOutcome) (defaultData : D)
    : list string * Exn D :=
  match loadDataFromBin_try outcome defaultData with
  | Return d => ([], Return d)
  | Throw message =>
      (["Error loading from jsonbin.io: " +:+ message], Return defaultData)
  end.

(** [loadData] of the service module (src/unnamed/part_001): the same
    function with other messages and a line logged on 404. The [try] block
    comes with the lines it writes. *)
Definition loadData_try (outcome : FetchOutcome) (defaultData : D)
    : list string * Exn D :=
  match outcome with
  | NetworkError message => ([], Throw message)
  | Responded response =>
      if negb (ok response) then
        if (status response =? 404)%Z then
          (["jsonbin.io: Bin not found or empty. Using default data."],
           Return defaultData)
        else
          ([], Throw ("Failed to load data from jsonbin.io: "
                      +:+ statusText response))
      else
        match text response with
        | Throw message => ([], Throw message)
        | Return responseText =>
            if negb (negb (String.eqb responseText ""))
            then ([], Return defaultData)
            else ([], JSON_parse responseText)
        end
  end.

Definition loadData (outcome : FetchOutcome) (defaultData : D)
    : list string * Exn D :=
  match loadData_try outcome defaultData with
  | (lines, Return d) => (lines, Return d)
  | (lines, Throw message) =>
      (lines ++ ["Error loading data from jsonbin.io, returning default. "
                 +:+ message],
       Return defaultData)
  end.

(** The [try] block of [saveDataToBin]. *)
Definition saveDataToBin_try (outcome : FetchOutcome) : Exn unit :=
  match outcome with
  | NetworkError message => Throw message
  | Responded response =>
      if negb (ok response)
      then Throw ("Failed to save: " +:+ statusText response)
      else Return ()
  end.

(** [saveDataToBin]: its [catch] logs and throws again. *)
Definition saveDataToBin (outcome : FetchOutcome) : list string * Exn unit :=
  match saveDataToBin_try outcome with
  | Return u => ([], Return u)
  | Throw message => (["Error saving to jsonbin.io: " +:+ message], Throw message)
  end.

End jsonbinService.

(** ** Notions of the specification *)

(** The label [HH:mm] of a time of day given in minutes after midnight. *)
Definition label_of_minutes (m : nat) : string :=
  padStart 2 "0" (toString (m / 60)) +:+ ":" +:+ padStart 2 "0" (toString (m mod 60)).

(** A slot that shows on the calendar: a value, a medication or a comment. *)
Definition slot_filled (slot : Slot.t) : Prop :=
  Slot.value slot ≠ None ∨ Slot.medications slot ≠ [] ∨ Slot.comments slot ≠ "".

(** What [filtered.length > 0 ? keep : drop] makes of a pattern entry. *)
Definition pruned (medToDelete : string) (meds : list string)
    : option (list string) :=
  if (0 <? length (without medToDelete meds))%nat
  then Some (without medToDelete meds) else None.

(** Every medication name written somewhere in the cells: the catalog, the
    slots of the day records, the standard pattern. *)
Definition day_names (day : DailyData) : list string :=
  mjoin (Slot.medications <$> (map_to_list day).*2).

Definition all_names (d : UserDataBundle) : list string :=
  medications d
  ++ mjoin (day_names <$> (map_to_list (healthData d)).*2)
  ++ mjoin (map_to_list (standardPattern d)).*2.

Definition occurs (m : string) (d : UserDataBundle) : Prop := m ∈ all_names d.

Global Instance occurs_dec m d : Decision (occurs m d).
Proof. unfold occurs. apply _. Defined.

(** The grid that the action builds when it does not throw: every slot
    whose label the pattern has, merged with the pattern's medications. *)
Definition merged (standardPattern : StandardPattern) (prev : DailyData)
    : DailyData :=
  map_imap (λ time slot,
    Some (match standardPattern !! time with
          | Some patternMeds => combined patternMeds slot
          | None => slot
          end)) prev.

(** A key that the grid lacks and [Object.prototype] has. *)
Definition stray (prev : DailyData) (time : string) : bool :=
  match prev !! time with
  | Some _ => false
  | None => inherited time
  end.

(** No key of the pattern is one that the grid lacks and [Object.prototype]
    has. *)
Definition noStrayKey (standardPattern : StandardPattern) (prev : DailyData)
    : Prop :=
  ∀ time, is_Some (standardPattern !! time) → stray prev time = false.

(** No entry of the object is stored under a member of
    [Object.prototype]. *)
Definition plainKeys {T} (o : gmap string T) : Prop :=
  ∀ name, is_Some (o !! name) → inherited name = false.

(** No day record, no slot and no entry of the pattern is stored under the
    key [__proto__]. *)
Definition noProtoKey (d : UserDataBundle) : Prop :=
  healthData d !! "__proto__" = None
  ∧ (∀ day dayData, healthData d !! day = Some dayData →
       dayData !! "__proto__" = None)
  ∧ standardPattern d !! "__proto__" = None.

(** The store once a call has returned or thrown: a call that throws
    before its first setter leaves the store as it was. *)
Definition store_after {D} (result : Exn (Store D)) (st : Store D) : Store D :=
  match result with
  | Return st' => st'
  | Throw _ => st
  end.

(** The three fields that a bundle must have. *)
Definition bundleFields : list string :=
  ["healthData"; "medications"; "standardPattern"].

(** ** Example states *)

Definition readyStore : Store UserDataBundle := login APP_PASSWORD initialStore.

Definition exampleDay : DailyData :=
  {[ "08:00" := Slot.mk (Some 7%Z) ["Medicina A"] "headache" ]}.

Definition exampleStore : Store UserDataBundle :=
  updateStandardPattern {[ "08:00" := ["Medicina A"]; "21:00" := ["Medicina B"] ]}
    (updateHealthData "2024-06-01" exampleDay readyStore).

(** A bundle as a file may hold it: the catalog is not in order. *)
Definition unsortedBundle : UserDataBundle :=
  {| healthData := ∅; medications := ["B"; "A"]; standardPattern := ∅ |}.

(** A bundle whose day record names a medication that the catalog lacks. *)
Definition staleBundle : UserDataBundle :=
  {| healthData := {[ "2024-06-01" := {[ "08:00" := Slot.mk None ["B"] "" ]} ]};
     medications := ["A"];
     standardPattern := ∅ |}.

(** A bundle with a day record stored under the key [__proto__], as
    [JSON.parse] reads it from a file that has such a key. *)
Definition protoBundle : UserDataBundle :=
  {| healthData := {[ "__proto__" := {[ "08:00" := Slot.mk (Some 5%Z) [] "" ]} ]};
     medications := ["A"];
     standardPattern := ∅ |}.

(** The cells hold the defaults, seen as raw values. *)
Definition rawReadyStore : Store RawBundle :=
  mkStore true (rawOf defaultUserDataBundle) false None (mkTimers 0 [] 1) [].

(** A file with all three fields, one of them [null]. *)
Definition nullFieldBundle : JSON :=
  JObject [("healthData", JNull);
           ("medications", JArray []);
           ("standardPattern", JObject [])].

(** A file with all three fields, nested further than the types say. *)
Definition deepBundle : JSON :=
  JObject [("healthData", JObject [("x", JObject [("y", JArray [JNumber 1])])]);
           ("medications", JArray [JArray [JString "a"]]);
           ("standardPattern", JString "none")].

(** A pattern in which every entry names at least one medication. *)
Definition no_empty (p : StandardPattern) : Prop :=
  ∀ time meds, p !! time = Some meds → meds ≠ [].

(** The catalog after [addMedication]. *)
Definition catalog_add (med : string) (catalog : list string) : list string :=
  if decide (med ∈ catalog) then catalog else Array_sort (catalog ++ [med]).

(** ** components/input/DataInputForm: the grid and its handlers *)

Definition defaultTimeSlotData : Slot.t := Slot.mk None [] "".

(** [createInitialData]: a slot [{...defaultTimeSlotData, medications: []}]
    under every label of [TIME_SLOTS]. *)
Definition createInitialData : DailyData :=
  foldl (λ (acc : DailyData) time,
    <[time := Slot.mk (Slot.value defaultTimeSlotData) []
                      (Slot.comments defaultTimeSlotData)]> acc)
    ∅ TIME_SLOTS.

(** Truthiness of the field [name] of a slot. *)
Definition Slot_truthy (slot : Slot.t) (name : string) : bool :=
  if decide (name = "value") then
    match Slot.value slot with
    | Some n => negb (n =? 0)%Z
    | None => false
    end
  else if decide (name = "medications") then true
  else if decide (name = "comments") then negb (String.eqb (Slot.comments slot) "")
  else false.

(** One turn of the [forEach] of the effect that fills the grid:
    [if (fullData[time]) fullData[time] = {...defaultTimeSlotData,
    ...existingData[time]}], where the object assigned is the recorded slot,
    which has all three fields. The state is the own properties of
    [fullData] and, once [fullData.__proto__] was assigned, the slot that
    became its prototype. The test reads through the prototype:
    - an own property is a slot, which is truthy;
    - [__proto__] reads as the prototype, which is truthy, and the
      assignment installs the recorded slot as the prototype;
    - after that, the fields of that slot are found on the way to
      [Object.prototype];
    - the other members of [Object.prototype] are functions, which are
      truthy. *)
Definition loadDay_step (state : DailyData * option Slot.t)
    (entry : string * Slot.t) : DailyData * option Slot.t :=
  let '(fullData, proto) := state in
  let '(time, slot) := entry in
  match fullData !! time with
  | Some _ => (<[time := slot]> fullData, proto)
  | None =>
      if decide (time = "__proto__") then (fullData, Some slot)
      else if inherited time
              || match proto with
                 | Some inheritedSlot => Slot_truthy inheritedSlot time
                 | None => false
                 end
      then (<[time := slot]> fullData, proto)
      else (fullData, proto)
  end.

(** The effect that fills the grid when the date or the archive changes:
    the own properties of the grid it sets. A date without a record of its
    own leaves the grid as created: what [healthData[selectedDate]] finds in
    [Object.prototype] has no own enumerable keys. *)
Definition loadDay (healthData : HealthData) (selectedDate : string) : DailyData :=
  let fullData := createInitialData in
  match healthData !! selectedDate with
  | Some existingData =>
      fst (foldl loadDay_step (fullData, None) (map_to_list existingData))
  | None => fullData
  end.

(** The fields that the grid edits through [handleValueChange]. *)
Inductive slotField : Type :=
  | FieldValue (value : option Z)
  | FieldComments (comments : string).

Definition setField (f : slotField) (slot : Slot.t) : Slot.t :=
  match f with
  | FieldValue value => Slot.mk value (Slot.medications slot) (Slot.comments slot)
  | FieldComments comments => Slot.mk (Slot.value slot) (Slot.medications slot) comments
  end.

(** [handleValueChange]: [{...p, [time]: {...p[time], [field]: value}}].
    With no slot at [time] the spread would give an object with the one
    field only, which is no [TimeSlotData]: that case is [None]. *)
Definition handleValueChange (time : string) (f : slotField) (p : DailyData)
    : option DailyData :=
  match p !! time with
  | Some slot => Some (<[time := setField f slot]> p)
  | None => None
  end.

(** [handleMedicationChange] of the form, likewise. *)
Definition handleMedicationChange (time : string) (selectedMeds : list string)
    (p : DailyData) : option DailyData :=
  match p !! time with
  | Some slot =>
      Some (<[time := Slot.mk (Slot.value slot) selectedMeds (Slot.comments slot)]> p)
  | None => None
  end.

(** [handleSave] of the form, as far as the store is concerned. *)
Definition handleSave (selectedDate : string) (dailyData : DailyData)
    (st : Store UserDataBundle) : Store UserDataBundle :=
  updateHealthData selectedDate dailyData st.

(** ** components/pattern/StandardPatternManager *)

(** [handleMedicationChange] of the pattern editor. *)
Definition patternSelect (time : string) (selectedMeds : list string)
    (p : StandardPattern) : StandardPattern :=
  <[time := selectedMeds]> p.

(** [cleanedPattern] of its [handleSave]. *)
Definition cleanedPattern (pattern : StandardPattern) : StandardPattern :=
  entries_reduce (λ acc '(time, meds),
    if (0 <? length meds)%nat then assign time meds acc else acc) ∅ pattern.

Definition savePattern (pattern : StandardPattern)
    (st : Store UserDataBundle) : Store UserDataBundle :=
  updateStandardPattern (cleanedPattern pattern) st.

(** ** components/medications/MedicationManager *)

(** The white space that [String.prototype.trim] strips, among the code
    units below 256: tab, line feed, vertical tab, form feed, carriage
    return, space and no-break space. *)
Definition isWhiteSpace (c : Ascii.ascii) : bool :=
  let n := Ascii.nat_of_ascii c in
  ((9 <=? n)%nat && (n <=? 13)%nat) || (n =? 32)%nat || (n =? 160)%nat.

Fixpoint trimStart (s : string) : string :=
  match s with
  | String c rest => if isWhiteSpace c then trimStart rest else s
  | EmptyString => ""
  end.

Fixpoint trimEnd (s : string) : string :=
  match s with
  | EmptyString => ""
  | String c rest =>
      match trimEnd rest with
      | EmptyString => if isWhiteSpace c then "" else String c ""
      | rest' => String c rest'
      end
  end.

Definition trim (s : string) : string := trimEnd (trimStart s).

(** [handleAdd], [handleEdit] and [handleDelete], as far as the store is
    concerned. *)
Definition handleAdd (newMed : string)
    (st : Store UserDataBundle) : Store UserDataBundle :=
  if negb (String.eqb (trim newMed) "")
     && negb (includes (medications (data st)) (trim newMed))
  then addMedication (trim newMed) st
  else st.

Definition handleEdit (med editText : string)
    (st : Store UserDataBundle) : Store UserDataBundle :=
  if negb (String.eqb (trim editText) "")
     && negb (String.eqb (trim editText) med)
  then editMedication med (trim editText) st
  else st.

Definition handleDelete (med : string)
    (st : Store UserDataBundle) : Store UserDataBundle :=
  deleteMedication med st.

(** ** DataDisplay of src/index.tsx *)





(** ** components/calendar/Calendar: the first column *)

(** [(getDay(startDate) + 6) % 7], for [getDay] from 0 (Sunday) to 6. *)
Definition startingDayIndex (getDay : nat) : nat := (getDay + 6) mod 7.

(** ** The end of [loadInitialUserData] on any document *)

(** [x || dflt] *)
Definition orDefault (x : JSValue) (dflt : JSON) : JSValue :=
  if truthy x then x else Some dflt.

(** [loadInitialUserData] from the point where [loadDataFromBin] has given
    its document: the three setters, each with the field of the document or
    the default; on [null] the first property access throws, the [catch]
    logs, and no setter runs. The result comes with the lines logged. *)
Definition loadInitialUserData_raw (data : JSON) (st : Store RawBundle)
    : list string * Store RawBundle :=
  match data with
  | JNull => (["Failed to load user data: TypeError"], st)
  | _ =>
      ([], setData (λ _,
             mkRaw (orDefault (get data "healthData")
                              (encodeHealthData defaultHealthData))
                   (orDefault (get data "medications")
                              (encodeMeds defaultMedications))
                   (orDefault (get data "standardPattern")
                              (encodePattern defaultStandardPattern))) st)
  end.

(** ** hooks/useLocalStorage *)

Section useLocalStorage.
Context {T : Type}.
(** [JSON.parse] and [JSON.stringify] at the type of the stored value. *)
Variable JSON_parse : string → Exn T.
Variable JSON_stringify : T → string.

(** The initial state of the hook: [item ? JSON.parse(item) : initialValue]
    under a [catch] that gives [initialValue]. [localStorage] maps keys to
    the strings stored. *)
Definition useLocalStorage_init (key : string) (initialValue : T)
    (localStorage : gmap string string) : T :=
  match localStorage !! key with
  | Some item =>
      if negb (String.eqb item "") then
        match JSON_parse item with
        | Return v => v
        | Throw _ => initialValue
        end
      else initialValue
  | None => initialValue
  end.

(** The argument of the setter: a value, or a function of the old value. *)
Inductive SetStateAction : Type :=
  | NewValue (v : T)
  | Updater (f : T → T).

(** [setValue]: the state and the storage afterwards. *)
Definition setValue (key : string) (value : SetStateAction)
    (storedValue : T) (localStorage : gmap string string)
    : T * gmap string string :=
  let valueToStore :=
    match value with
    | NewValue v => v
    | Updater f => f storedValue
    end in
  (valueToStore, <[key := JSON_stringify valueToStore]> localStorage).

End useLocalStorage.

(** [JSON.parse] and [JSON.stringify] on booleans, for the flag kept under
    [health_app_auth]. *)
Definition parse_bool (s : string) : Exn bool :=
  if String.eqb s "true" then Return true
  else if String.eqb s "false" then Return false
  else Throw "SyntaxError".

Definition stringify_bool (b : bool) : string :=
  if b then "true" else "false".

(** The grid has a row for every label of [TIME_SLOTS] and no other. *)
Definition grid_complete (g : DailyData) : Prop :=
  dom g = list_to_set TIME_SLOTS.

(** A bundle as a file may hold it: its pattern has, besides the label of
    a slot, a key that is the name of a member of [Object.prototype]. *)
Definition strayBundle : UserDataBundle :=
  {| healthData := {[ "2024-06-01" := exampleDay ]};
     medications := ["Medicina A"; "Medicina B"];
     standardPattern := {[ "08:00" := ["Medicina B"];
                           "constructor" := ["Medicina B"] ]} |}.

(** The three cells hold truthy values. *)
Definition cells_truthy (b : RawBundle) : bool :=
  truthy (rawHealthData b) && truthy (rawMedications b)
  && truthy (rawStandardPattern b).

(** * Properties *)

(** ** The order of [sort] *)

Lemma ascii_compare_trans_lt a b c :
  Ascii.compare a b = Lt → Ascii.compare b c = Lt → Ascii.compare a c = Lt.
Proof.
  unfold Ascii.compare. rewrite !N.compare_lt_iff. lia.
Qed.

Lemma string_compare_refl s : String.compare s s = Eq.
Proof.
  induction s as [|a s IH]; simpl; [done|].
  unfold Ascii.compare. by rewrite N.compare_refl.
Qed.

Lemma string_compare_trans_lt s1 s2 s3 :
  String.compare s1 s2 = Lt → String.compare s2 s3 = Lt →
  String.compare s1 s3 = Lt.
Proof.
  revert s2 s3. induction s1 as [|a s1 IH]; intros [|b s2] [|c s3]; simpl;
    try done.
  destruct (Ascii.compare a b) eqn:Hab; try done;
    destruct (Ascii.compare b c) eqn:Hbc; try done; intros H1 H2.
  - apply Ascii.compare_eq_iff in Hab, Hbc. subst.
    unfold Ascii.compare. rewrite N.compare_refl. eauto.
  - apply Ascii.compare_eq_iff in Hab. subst. by rewrite Hbc.
  - apply Ascii.compare_eq_iff in Hbc. subst. by rewrite Hab.
  - by rewrite (ascii_compare_trans_lt a b c).
Qed.

Global Instance str_le_refl : Reflexive str_le.
Proof. intros s. unfold str_le, String.leb. by rewrite string_compare_refl. Qed.

Global Instance str_le_trans : Transitive str_le.
Proof.
  intros s1 s2 s3. unfold str_le, String.leb.
  destruct (String.compare s1 s2) eqn:H12; try done;
    destruct (String.compare s2 s3) eqn:H23; try done; intros _ _.
  - apply String.compare_eq_iff in H12, H23. subst.
    by rewrite string_compare_refl.
  - apply String.compare_eq_iff in H12. subst. by rewrite H23.
  - apply String.compare_eq_iff in H23. subst. by rewrite H12.
  - by rewrite (string_compare_trans_lt s1 s2 s3).
Qed.

Global Instance str_le_antisym : AntiSymm (=) str_le.
Proof. intros s1 s2. apply String.leb_antisym. Qed.

Global Instance str_le_total : Total str_le.
Proof. intros s1 s2. apply String.leb_total. Qed.

Lemma Array_sort_sorted l : Sorted str_le (Array_sort l).
Proof. apply (Sorted_merge_sort str_le). Qed.

Lemma Array_sort_perm l : Array_sort l ≡ₚ l.
Proof. apply (merge_sort_Permutation str_le). Qed.

Lemma Array_sort_elem_of l x : x ∈ Array_sort l ↔ x ∈ l.
Proof. by rewrite Array_sort_perm. Qed.

(** Sorting what is sorted changes nothing. *)
Lemma Array_sort_id l : Sorted str_le l → Array_sort l = l.
Proof.
  intros Hl. apply (Sorted_unique str_le);
    [apply Array_sort_sorted | done | apply Array_sort_perm].
Qed.

Lemma Array_sort_of_perm l1 l2 : l1 ≡ₚ l2 → Array_sort l1 = Array_sort l2.
Proof.
  intros Hp. apply (Sorted_unique str_le); try apply Array_sort_sorted.
  by rewrite !Array_sort_perm.
Qed.

(** ** The time slots *)

Example TIME_SLOTS_value :
  TIME_SLOTS =
  ["08:00"; "08:30"; "09:00"; "09:30"; "10:00"; "10:30"; "11:00"; "11:30";
   "12:00"; "12:30"; "13:00"; "13:30"; "14:00"; "14:30"; "15:00"; "15:30";
   "16:00"; "16:30"; "17:00"; "17:30"; "18:00"; "18:30"; "19:00"; "19:30";
   "20:00"; "20:30"; "21:00"; "21:30"; "22:00"; "22:30"; "23:00"].
Proof. vm_compute. reflexivity. Qed.

(** The loop ends on [h < 24], not on the bound of the recursion. *)
Lemma TIME_SLOTS_fuel fuel : (16 ≤ fuel)%nat → TIME_SLOTS_loop fuel 8 [] = TIME_SLOTS.
Proof.
  intros H. do 16 (destruct fuel as [|fuel]; [lia|]).
  destruct fuel; reflexivity.
Qed.

(** C1, as stated, fails: the list does not have 32 labels ending in 23:30;
    the guard [h < 23] leaves 23:30 out. *)
Lemma TIME_SLOTS_not_32 :
  ¬ (length TIME_SLOTS = 32%nat ∧ last TIME_SLOTS = Some "23:30").
Proof. vm_compute. intros [H _]. discriminate H. Qed.

(** C1, amended: the time slots are the half-hour steps from 08:00 to 23:00
    inclusive, 31 labels, the last of which is 23:00; 23:30 is not one. *)
Theorem TIME_SLOTS_half_hours :
  TIME_SLOTS = (λ i, label_of_minutes (8 * 60 + 30 * i)) <$> seq 0 31
  ∧ length TIME_SLOTS = 31%nat
  ∧ head TIME_SLOTS = Some "08:00"
  ∧ last TIME_SLOTS = Some "23:00"
  ∧ "23:30" ∉ TIME_SLOTS.
Proof.
  split; [vm_compute; reflexivity|].
  split; [vm_compute; reflexivity|].
  split; [vm_compute; reflexivity|].
  split; [vm_compute; reflexivity|].
  rewrite TIME_SLOTS_value. intros H.
  repeat (apply elem_of_cons in H as [H|H]; [discriminate H|]).
  by apply elem_of_nil in H.
Qed.

(** ** The cells under the store operations *)

Lemma data_saveDataToJsonbin {D} (st : Store D) :
  data (saveDataToJsonbin st) = data st.
Proof. unfold saveDataToJsonbin. by destruct (setTimeout _ _). Qed.

Lemma isAuthenticated_saveDataToJsonbin {D} (st : Store D) :
  isAuthenticated (saveDataToJsonbin st) = isAuthenticated st.
Proof. unfold saveDataToJsonbin. by destruct (setTimeout _ _). Qed.

Lemma requests_saveDataToJsonbin {D} (st : Store D) :
  requests (saveDataToJsonbin st) = requests st.
Proof. unfold saveDataToJsonbin. by destruct (setTimeout _ _). Qed.

(** ** Recording a day *)

Lemma slotHasData_filled slot : slotHasData slot = true ↔ slot_filled slot.
Proof.
  unfold slotHasData, slot_filled.
  destruct slot as [v meds c]; simpl.
  rewrite !orb_true_iff, negb_true_iff, String.eqb_neq, Nat.ltb_lt.
  split.
  - intros [[H|H]|H].
    + left. by destruct v.
    + right; left. destruct meds; simpl in H; [lia|done].
    + by right; right.
  - intros [H|[H|H]].
    + left; left. by destruct v.
    + left; right. destruct meds; simpl; [done|lia].
    + by right.
Qed.

Lemma hasData_spec (h : HealthData) day :
  hasData h day = true ↔
  ∃ dayData time slot,
    h !! day = Some dayData ∧ dayData !! time = Some slot ∧ slot_filled slot.
Proof.
  unfold hasData. destruct (h !! day) as [dayData|] eqn:Hday.
  - rewrite existsb_exists. split.
    + intros (slot & Hin & Hs).
      apply list_elem_of_In, list_elem_of_fmap in Hin as ([time slot'] & -> & Hin).
      apply elem_of_map_to_list in Hin.
      exists dayData, time, slot'. by rewrite <- slotHasData_filled.
    + intros (dayData' & time & slot & [= <-] & Hslot & Hs).
      exists slot. split; [|by apply slotHasData_filled].
      apply list_elem_of_In, list_elem_of_fmap. exists (time, slot).
      split; [done|]. by apply elem_of_map_to_list.
  - split; [done|]. by intros (? & ? & ? & ? & _).
Qed.

(** The example of the specification: a day with one filled slot is marked,
    a day without a record is not. *)
Example hasData_example :
  hasData (healthData (data (updateHealthData "2024-06-01" exampleDay readyStore)))
    "2024-06-01" = true
  ∧ hasData (healthData (data (updateHealthData "2024-06-01" exampleDay readyStore)))
      "2024-06-02" = false.
Proof. split; vm_compute; reflexivity. Qed.

(** C2: after [updateHealthData d r] the day [d] reads as [r] itself, and the
    calendar marks [d] exactly when some slot of [r] has a value, a
    medication or a comment. *)
Theorem updateHealthData_read (d : string) (r : DailyData)
    (st : Store UserDataBundle) :
  healthData (data (updateHealthData d r st)) !! d = Some r
  ∧ (hasData (healthData (data (updateHealthData d r st))) d = true ↔
     ∃ time slot, r !! time = Some slot ∧
       (Slot.value slot ≠ None ∨ Slot.medications slot ≠ []
        ∨ Slot.comments slot ≠ "")).
Proof.
  unfold updateHealthData. rewrite data_saveDataToJsonbin. simpl.
  split; [apply lookup_insert_eq|].
  rewrite hasData_spec, lookup_insert_eq. split.
  - intros (dayData & time & slot & [= <-] & Hslot & Hs). eauto.
  - intros (time & slot & Hslot & Hs). exists r, time, slot. eauto.
Qed.

(** ** Folds over the entries of an object *)

Section entries.
Context {A B : Type}.

(** A fold whose step only touches the key it visits is read key by key. *)
Lemma foldl_entries_lookup (f : gmap string B → string * A → gmap string B)
    (φ : string → A → option B → option B) :
  (∀ acc k v j,
     f acc (k, v) !! j = if decide (j = k) then φ k v (acc !! k) else acc !! j) →
  ∀ (l : list (string * A)) acc j,
    NoDup l.*1 →
    foldl f acc l !! j =
      match (list_to_map l : gmap string A) !! j with
      | Some v => φ j v (acc !! j)
      | None => acc !! j
      end.
Proof.
  intros Hf l. induction l as [|[k v] l IH]; intros acc j Hnd; simpl.
  { by rewrite lookup_empty. }
  apply NoDup_cons in Hnd as [Hk Hnd].
  rewrite IH by done. rewrite Hf.
  destruct (decide (j = k)) as [->|Hne].
  - rewrite lookup_insert_eq.
    by rewrite (not_elem_of_list_to_map_1 (M:=gmap string) l k).
  - by rewrite lookup_insert_ne.
Qed.

Lemma entries_reduce_lookup (f : gmap string B → string * A → gmap string B)
    (φ : string → A → option B → option B) init (o : gmap string A) j :
  (∀ acc k v j,
     f acc (k, v) !! j = if decide (j = k) then φ k v (acc !! k) else acc !! j) →
  entries_reduce f init o !! j =
    match o !! j with
    | Some v => φ j v (init !! j)
    | None => init !! j
    end.
Proof.
  intros Hf. unfold entries_reduce.
  rewrite (foldl_entries_lookup f φ Hf) by apply NoDup_fst_map_to_list.
  by rewrite list_to_map_to_list.
Qed.

Lemma lookup_assign (k : string) (w : B) (acc : gmap string B) j :
  assign k w acc !! j
  = if decide (j = k)
    then (if decide (k = "__proto__") then (λ _, w) <$> acc !! k else Some w)
    else acc !! j.
Proof.
  unfold assign. destruct (decide (k = "__proto__")) as [->|Hk].
  - destruct (acc !! "__proto__") as [old|] eqn:Hold.
    + destruct (decide (j = "__proto__")) as [->|Hj].
      * by rewrite lookup_insert_eq.
      * by rewrite lookup_insert_ne.
    + destruct (decide (j = "__proto__")) as [->|Hj]; [by rewrite Hold|done].
  - destruct (decide (j = k)) as [->|Hj].
    + by rewrite lookup_insert_eq.
    + by rewrite lookup_insert_ne.
Qed.

(** [acc[k] = g(v)] for every entry builds the object mapped by [g], less
    the entry under [__proto__]. *)
Lemma entries_reduce_assign (f : gmap string B → string * A → gmap string B)
    (g : A → B) (o : gmap string A) :
  (∀ acc k v, f acc (k, v) = assign k (g v) acc) →
  entries_reduce f ∅ o = assigned (g <$> o).
Proof.
  intros Hf. apply map_eq. intros j.
  rewrite (entries_reduce_lookup f
             (λ k v old, if decide (k = "__proto__") then (λ _, g v) <$> old
                         else Some (g v))).
  - unfold assigned. rewrite lookup_empty.
    destruct (decide (j = "__proto__")) as [->|Hj].
    + rewrite lookup_delete_eq. by destruct (o !! "__proto__").
    + by rewrite lookup_delete_ne, lookup_fmap.
  - intros acc k v i. by rewrite Hf, lookup_assign.
Qed.

(** The same with entries that are left out. *)
Lemma entries_reduce_assign_if (f : gmap string B → string * A → gmap string B)
    (g : A → option B) (o : gmap string A) :
  (∀ acc k v, f acc (k, v) = match g v with
                             | Some w => assign k w acc
                             | None => acc
                             end) →
  entries_reduce f ∅ o = assigned (omap g o).
Proof.
  intros Hf. apply map_eq. intros j.
  rewrite (entries_reduce_lookup f
             (λ k v old, match g v with
                         | Some w => if decide (k = "__proto__") then (λ _, w) <$> old
                                     else Some w
                         | None => old
                         end)).
  - unfold assigned. rewrite lookup_empty.
    destruct (decide (j = "__proto__")) as [->|Hj].
    + rewrite lookup_delete_eq.
      destruct (o !! "__proto__") as [v|]; [|done]. by destruct (g v).
    + rewrite lookup_delete_ne, lookup_omap by done.
      destruct (o !! j) as [v|]; [|done]. simpl. by destruct (g v).
  - intros acc k v i. rewrite Hf. destruct (g v) as [w|].
    + by rewrite lookup_assign.
    + by destruct (decide (i = k)) as [->|].
Qed.

End entries.

(** ** Renaming and deleting a medication *)

Lemma lookup_assigned {T} (o : gmap string T) k :
  assigned o !! k = if decide (k = "__proto__") then None else o !! k.
Proof.
  unfold assigned. destruct (decide (k = "__proto__")) as [->|Hk].
  - apply lookup_delete_eq.
  - by apply lookup_delete_ne.
Qed.

Lemma assigned_id {T} (o : gmap string T) :
  o !! "__proto__" = None → assigned o = o.
Proof. apply delete_id. Qed.

Lemma assigned_fmap_twice {A B C} (f : B → C) (g : A → B) (o : gmap string A) :
  assigned (f <$> assigned (g <$> o)) = assigned ((f ∘ g) <$> o).
Proof.
  unfold assigned. by rewrite fmap_delete, delete_delete_eq, <- map_fmap_compose.
Qed.

Lemma editMedication_data oldMed newMed st :
  data (editMedication oldMed newMed st) =
  {| healthData :=
       assigned ((λ daily : DailyData, assigned (renameSlot oldMed newMed <$> daily))
                 <$> healthData (data st));
     medications := Array_sort (rename oldMed newMed <$> medications (data st));
     standardPattern :=
       assigned (fmap (M:=list) (rename oldMed newMed) <$> standardPattern (data st)) |}.
Proof.
  unfold editMedication. rewrite data_saveDataToJsonbin. simpl. f_equal.
  - rewrite (entries_reduce_assign _
               (λ daily : DailyData, assigned (renameSlot oldMed newMed <$> daily)));
      [done|].
    intros acc date daily. f_equal.
    by rewrite (entries_reduce_assign _ (renameSlot oldMed newMed)).
  - by rewrite (entries_reduce_assign _ (fmap (rename oldMed newMed))).
Qed.

Lemma deleteMedication_data medToDelete st :
  data (deleteMedication medToDelete st) =
  {| healthData :=
       assigned ((λ daily : DailyData, assigned (withoutSlot medToDelete <$> daily))
                 <$> healthData (data st));
     medications := without medToDelete (medications (data st));
     standardPattern :=
       assigned (omap (pruned medToDelete) (standardPattern (data st))) |}.
Proof.
  unfold deleteMedication. rewrite data_saveDataToJsonbin. simpl. f_equal.
  - rewrite (entries_reduce_assign _
               (λ daily : DailyData, assigned (withoutSlot medToDelete <$> daily)));
      [done|].
    intros acc date daily. f_equal.
    by rewrite (entries_reduce_assign _ (withoutSlot medToDelete)).
  - apply entries_reduce_assign_if. intros acc time meds. unfold pruned.
    by destruct (0 <? length (without medToDelete meds))%nat.
Qed.

(** Without a key [__proto__] every entry is written back. *)
Lemma editMedication_data_plain oldMed newMed st :
  noProtoKey (data st) →
  data (editMedication oldMed newMed st) =
  {| healthData :=
       fmap (M:=gmap string) (fmap (M:=gmap string) (renameSlot oldMed newMed))
            (healthData (data st));
     medications := Array_sort (rename oldMed newMed <$> medications (data st));
     standardPattern :=
       fmap (M:=gmap string) (fmap (M:=list) (rename oldMed newMed))
            (standardPattern (data st)) |}.
Proof.
  intros (Hh & Hd & Hp). rewrite editMedication_data. f_equal.
  - rewrite assigned_id by by rewrite lookup_fmap, Hh.
    apply map_fmap_ext. intros day daily Hday. apply assigned_id.
    by rewrite lookup_fmap, (Hd day daily Hday).
  - apply assigned_id. by rewrite lookup_fmap, Hp.
Qed.

Lemma deleteMedication_data_plain medToDelete st :
  noProtoKey (data st) →
  data (deleteMedication medToDelete st) =
  {| healthData :=
       fmap (M:=gmap string) (fmap (M:=gmap string) (withoutSlot medToDelete))
            (healthData (data st));
     medications := without medToDelete (medications (data st));
     standardPattern := omap (pruned medToDelete) (standardPattern (data st)) |}.
Proof.
  intros (Hh & Hd & Hp). rewrite deleteMedication_data. f_equal.
  - rewrite assigned_id by by rewrite lookup_fmap, Hh.
    apply map_fmap_ext. intros day daily Hday. apply assigned_id.
    by rewrite lookup_fmap, (Hd day daily Hday).
  - apply assigned_id. by rewrite lookup_omap, Hp.
Qed.

(** What the two reduces build has no entry under [__proto__]. *)
Lemma noProtoKey_assigned (f : DailyData → DailyData) (cat : list string)
    (h : HealthData) (sp : StandardPattern) :
  (∀ daily, f daily !! "__proto__" = None) →
  noProtoKey (mkBundle (assigned (f <$> h)) cat (assigned sp)).
Proof.
  intros Hf. split_and!; cbn [healthData standardPattern].
  - by rewrite lookup_assigned.
  - intros day dayData. rewrite lookup_assigned, lookup_fmap.
    destruct (decide (day = "__proto__")); [done|].
    destruct (h !! day) as [daily|]; [|done]. intros [= <-]. apply Hf.
  - by rewrite lookup_assigned.
Qed.

Lemma noProtoKey_editMedication oldMed newMed st :
  noProtoKey (data (editMedication oldMed newMed st)).
Proof.
  rewrite editMedication_data.
  apply (noProtoKey_assigned
           (λ daily, assigned (renameSlot oldMed newMed <$> daily))).
  intros daily. by rewrite lookup_assigned.
Qed.

Lemma noProtoKey_deleteMedication medToDelete st :
  noProtoKey (data (deleteMedication medToDelete st)).
Proof.
  rewrite deleteMedication_data.
  apply (noProtoKey_assigned
           (λ daily, assigned (withoutSlot medToDelete <$> daily))).
  intros daily. by rewrite lookup_assigned.
Qed.

Lemma healthData_exampleStore :
  healthData (data exampleStore) = {[ "2024-06-01" := exampleDay ]}.
Proof. reflexivity. Qed.

Lemma plainKeys_exampleDay : plainKeys exampleDay.
Proof.
  intros name [slot Hslot]. unfold exampleDay in Hslot.
  apply lookup_singleton_Some in Hslot as [<- _]. reflexivity.
Qed.

Lemma noProtoKey_exampleStore : noProtoKey (data exampleStore).
Proof.
  split_and!; [reflexivity| |reflexivity].
  intros day dayData Hday. rewrite healthData_exampleStore in Hday.
  apply lookup_singleton_Some in Hday as [_ <-]. reflexivity.
Qed.

Lemma addMedication_data med st :
  data (addMedication med st) =
  if decide (med ∈ medications (data st)) then data st
  else {| healthData := healthData (data st);
          medications := Array_sort (medications (data st) ++ [med]);
          standardPattern := standardPattern (data st) |}.
Proof.
  unfold addMedication, includes.
  destruct (decide (med ∈ medications (data st))) as [Hin|Hin].
  - by rewrite bool_decide_eq_true_2.
  - rewrite bool_decide_eq_false_2 by done.
    cbn [negb]. by rewrite data_saveDataToJsonbin.
Qed.

Lemma not_elem_of_without m meds : m ∉ without m meds.
Proof. unfold without. rewrite list_elem_of_filter. tauto. Qed.

Lemma rename_back a b (l : list string) :
  b ∉ l → rename b a <$> (rename a b <$> l) = l.
Proof.
  induction l as [|x l IH]; intros Hb; [done|].
  apply not_elem_of_cons in Hb as [Hx Hb]. rewrite !fmap_cons, IH by done.
  f_equal. unfold rename.
  destruct (decide (x = a)) as [->|].
  - by rewrite decide_True.
  - by rewrite decide_False.
Qed.

Lemma not_occurs_catalog b d : ¬ occurs b d → b ∉ medications d.
Proof. unfold occurs, all_names. rewrite !elem_of_app. tauto. Qed.

Lemma not_occurs_slot b d day dayData time slot :
  ¬ occurs b d →
  healthData d !! day = Some dayData → dayData !! time = Some slot →
  b ∉ Slot.medications slot.
Proof.
  unfold occurs, all_names. rewrite !elem_of_app. intros Hb Hday Hslot Hin.
  apply Hb. right; left. apply list_elem_of_join.
  exists (day_names dayData). split.
  - apply list_elem_of_join. exists (Slot.medications slot). split; [done|].
    apply list_elem_of_fmap_2, list_elem_of_fmap. exists (time, slot).
    split; [done|]. by apply elem_of_map_to_list.
  - apply list_elem_of_fmap_2, list_elem_of_fmap. exists (day, dayData).
    split; [done|]. by apply elem_of_map_to_list.
Qed.

Lemma not_occurs_pattern b d time meds :
  ¬ occurs b d → standardPattern d !! time = Some meds → b ∉ meds.
Proof.
  unfold occurs, all_names. rewrite !elem_of_app. intros Hb Htime Hin.
  apply Hb. right; right. apply list_elem_of_join. exists meds.
  split; [done|]. apply list_elem_of_fmap. exists (time, meds).
  split; [done|]. by apply elem_of_map_to_list.
Qed.

Lemma fmap_id_on {A} (f : A → A) (m : gmap string A) :
  (∀ k v, m !! k = Some v → f v = v) → f <$> m = m.
Proof.
  intros Hf. rewrite <- (map_fmap_id m) at 2. by apply map_fmap_ext.
Qed.

(** C3, as stated, fails on states that the program can be in after an
    import: with the catalog out of order the second rename leaves it
    sorted, a name that only a day record holds is renamed along, and a day
    record stored under [__proto__] is not written back. *)
Lemma rename_roundtrip_fails :
  (let st := importBundle unsortedBundle readyStore in
   reachable st ∧ "A" ≠ "C" ∧ ¬ occurs "C" (data st) ∧
   medications (data (editMedication "C" "A" (editMedication "A" "C" st)))
     ≠ medications (data st))
  ∧
  (let st := importBundle staleBundle readyStore in
   reachable st ∧ "A" ≠ "B" ∧ ("B" ∉ medications (data st)) ∧
   healthData (data (editMedication "B" "A" (editMedication "A" "B" st)))
     ≠ healthData (data st))
  ∧
  (let st := importBundle protoBundle readyStore in
   reachable st ∧ "A" ≠ "B" ∧ ¬ occurs "B" (data st)
   ∧ Sorted str_le (medications (data st)) ∧
   healthData (data (editMedication "B" "A" (editMedication "A" "B" st)))
     ≠ healthData (data st)).
Proof.
  split_and!; cbv zeta.
  - split; [by exists [Login 0 APP_PASSWORD;
                       Call 0 (LoadUserDataBundle unsortedBundle)]|].
    split; [done|]. split.
    + apply (bool_decide_unpack _). vm_compute. exact I.
    + rewrite !editMedication_data. vm_compute. discriminate.
  - split; [by exists [Login 0 APP_PASSWORD;
                       Call 0 (LoadUserDataBundle staleBundle)]|].
    split; [done|]. split.
    + apply (bool_decide_unpack _). vm_compute. exact I.
    + rewrite !editMedication_data. intros Heq.
      apply (f_equal (λ h : HealthData,
               (h !! "2024-06-01") ≫= (λ day, day !! "08:00"))) in Heq.
      vm_compute in Heq. discriminate Heq.
  - split; [by exists [Login 0 APP_PASSWORD;
                       Call 0 (LoadUserDataBundle protoBundle)]|].
    split; [done|]. split; [|split].
    + apply (bool_decide_unpack _). vm_compute. exact I.
    + apply (bool_decide_unpack _). vm_compute. exact I.
    + rewrite !editMedication_data. intros Heq.
      apply (f_equal (λ h : HealthData,
               (h !! "__proto__") ≫= (λ day, day !! "08:00"))) in Heq.
      vm_compute in Heq. discriminate Heq.
Qed.

(** C3, amended: when the catalog is in sorted order, [b] is written
    nowhere in the cells (catalog, day records, standard pattern) and nothing
    is stored under the key [__proto__], renaming [a] to [b] and then [b] to
    [a] restores the catalog, every day record and the standard pattern. *)
Theorem rename_roundtrip (st : Store UserDataBundle) (a b : string) :
  Sorted str_le (medications (data st)) →
  ¬ occurs b (data st) →
  noProtoKey (data st) →
  data (editMedication b a (editMedication a b st)) = data st.
Proof.
  intros Hsorted Hb Hplain.
  rewrite (editMedication_data_plain b a) by apply noProtoKey_editMedication.
  rewrite (editMedication_data_plain a b) by done.
  cbn [healthData medications standardPattern].
  destruct (data st) as [h cat sp] eqn:Hd. simpl in *. f_equal.
  - rewrite <- map_fmap_compose. apply fmap_id_on. intros day dayData Hday.
    unfold compose. rewrite <- map_fmap_compose. apply fmap_id_on.
    intros time slot Hslot. unfold compose, renameSlot. destruct slot as [v meds c].
    simpl. f_equal. apply rename_back.
    by apply (not_occurs_slot b (mkBundle h cat sp) day dayData time
                (Slot.mk v meds c)).
  - rewrite (Array_sort_of_perm _ (rename b a <$> (rename a b <$> cat))).
    + rewrite rename_back; [by apply Array_sort_id|].
      by apply (not_occurs_catalog b (mkBundle h cat sp)).
    + by rewrite Array_sort_perm.
  - rewrite <- map_fmap_compose. apply fmap_id_on. intros time meds Htime.
    unfold compose. apply rename_back.
    by apply (not_occurs_pattern b (mkBundle h cat sp) time meds).
Qed.

Lemma rename_roundtrip_witness :
  Sorted str_le (medications (data exampleStore))
  ∧ ¬ occurs "Zzz" (data exampleStore)
  ∧ noProtoKey (data exampleStore)
  ∧ data (editMedication "Zzz" "Medicina A"
            (editMedication "Medicina A" "Zzz" exampleStore))
    = data exampleStore.
Proof.
  assert (Hs : Sorted str_le (medications (data exampleStore))).
  { apply (bool_decide_unpack _). vm_compute. exact I. }
  assert (Hb : ¬ occurs "Zzz" (data exampleStore)).
  { apply (bool_decide_unpack _). vm_compute. exact I. }
  split; [exact Hs|]. split; [exact Hb|].
  split; [exact noProtoKey_exampleStore|].
  exact (rename_roundtrip exampleStore "Medicina A" "Zzz" Hs Hb
           noProtoKey_exampleStore).
Defined.

(** ** The catalog: order and uniqueness *)

Lemma without_sorted m (l : list string) :
  Sorted str_le l → Sorted str_le (without m l).
Proof.
  intros Hl. apply Sorted_StronglySorted in Hl; [|apply _].
  apply StronglySorted_Sorted. unfold without.
  induction Hl as [|x l Hl IH Hx]; [constructor|].
  rewrite filter_cons. destruct (decide (x ≠ m)); [|done].
  constructor; [done|].
  apply Forall_forall. intros y Hy. apply list_elem_of_filter in Hy as [_ Hy].
  by apply (proj1 (Forall_forall _ _) Hx).
Qed.

Lemma without_NoDup m (l : list string) : NoDup l → NoDup (without m l).
Proof. apply NoDup_filter; apply _. Qed.

Lemma Array_sort_NoDup l : NoDup l → NoDup (Array_sort l).
Proof. by rewrite Array_sort_perm. Qed.

Lemma rename_fresh_id a b (l : list string) : a ∉ l → rename a b <$> l = l.
Proof.
  induction l as [|x l IH]; intros Ha; [done|].
  apply not_elem_of_cons in Ha as [Hx Ha]. rewrite fmap_cons, IH by done.
  unfold rename. by rewrite decide_False by done.
Qed.

(** Renaming onto a name that the list does not have keeps its entries
    apart. *)
Lemma rename_NoDup a b (l : list string) :
  NoDup l → b ∉ l → NoDup (rename a b <$> l).
Proof.
  induction l as [|x l IH]; intros Hnd Hb; [constructor|].
  apply NoDup_cons in Hnd as [Hx Hnd]. apply not_elem_of_cons in Hb as [Hbx Hb].
  rewrite fmap_cons. apply NoDup_cons. split; [|by apply IH].
  intros Hin. apply list_elem_of_fmap in Hin as (y & Hy & Hyl).
  unfold rename in Hy.
  destruct (decide (x = a)) as [->|Hxa], (decide (y = a)) as [->|Hya];
    subst; done.
Qed.

(** Renaming onto a name that the catalog already has leaves the name
    twice: [editMedication] has no test like the one of [addMedication]. *)
Lemma editMedication_collision :
  medications (data (editMedication "Medicina A" "Medicina B" readyStore))
  = ["Medicina B"; "Medicina B"].
Proof. vm_compute. reflexivity. Qed.

(** C4, as stated, fails: a state reached by an import may have its catalog
    out of order, and [deleteMedication], which only filters, leaves it so. *)
Lemma catalog_unsorted_after_delete :
  reachable (importBundle unsortedBundle readyStore)
  ∧ ¬ Sorted str_le
        (medications
           (data (deleteMedication "C" (importBundle unsortedBundle readyStore)))).
Proof.
  split; [by exists [Login 0 APP_PASSWORD;
                     Call 0 (LoadUserDataBundle unsortedBundle)]|].
  rewrite deleteMedication_data. apply (bool_decide_unpack _).
  vm_compute. exact I.
Qed.

(** C4, amended. Order: [editMedication] always leaves the catalog in
    sorted order, and so does [addMedication] of a name that is not present;
    [addMedication] of a name already present changes nothing, and
    [deleteMedication] keeps the order of what it keeps, so both leave a
    sorted catalog sorted. Uniqueness: from a catalog without duplicates,
    [addMedication] and [deleteMedication] give a catalog without
    duplicates, and so does [editMedication] when the new name or the old
    one is not in the catalog. *)
Theorem catalog_sorted_unique (st : Store UserDataBundle) (m a b : string) :
  Sorted str_le (medications (data (editMedication a b st)))
  ∧ (m ∉ medications (data st) →
     Sorted str_le (medications (data (addMedication m st))))
  ∧ (m ∈ medications (data st) → addMedication m st = st)
  ∧ (Sorted str_le (medications (data st)) →
     Sorted str_le (medications (data (addMedication m st)))
     ∧ Sorted str_le (medications (data (deleteMedication m st))))
  ∧ (NoDup (medications (data st)) →
     NoDup (medications (data (addMedication m st)))
     ∧ NoDup (medications (data (deleteMedication m st)))
     ∧ (b ∉ medications (data st) ∨ a ∉ medications (data st) →
        NoDup (medications (data (editMedication a b st))))).
Proof.
  split_and!.
  - rewrite editMedication_data. apply Array_sort_sorted.
  - intros Hm. rewrite addMedication_data. rewrite decide_False by done.
    apply Array_sort_sorted.
  - intros Hm. unfold addMedication, includes.
    by rewrite bool_decide_eq_true_2.
  - intros Hsorted. split.
    + rewrite addMedication_data. case_decide; [done|]. apply Array_sort_sorted.
    + rewrite deleteMedication_data. by apply without_sorted.
  - intros Hnodup. split_and!.
    + rewrite addMedication_data. case_decide as Hm; [done|]. simpl.
      apply Array_sort_NoDup, NoDup_app. split; [done|]. split.
      * intros x Hx ->%list_elem_of_singleton. done.
      * apply NoDup_singleton.
    + rewrite deleteMedication_data. by apply without_NoDup.
    + intros Hab. rewrite editMedication_data. cbn [medications].
      apply Array_sort_NoDup. destruct Hab as [Hb|Ha].
      * by apply rename_NoDup.
      * by rewrite rename_fresh_id.
Qed.

Lemma catalog_sorted_unique_witness :
  medications (data (editMedication "Medicina B" "Aspirin"
                       (importBundle unsortedBundle readyStore)))
  = ["A"; "B"]
  ∧ Sorted str_le
      (medications (data (editMedication "Medicina B" "Aspirin"
                            (importBundle unsortedBundle readyStore))))
  ∧ NoDup (medications (data (addMedication "Aspirin" readyStore))).
Proof.
  split; [vm_compute; reflexivity|].
  split.
  - exact (proj1 (catalog_sorted_unique
                    (importBundle unsortedBundle readyStore)
                    "Aspirin" "Medicina B" "Aspirin")).
  - assert (Hn : NoDup (medications (data readyStore))).
    { apply (bool_decide_unpack _). vm_compute. exact I. }
    destruct (catalog_sorted_unique readyStore "Aspirin" "Medicina A" "Zzz")
      as (_ & _ & _ & _ & Huniq).
    exact (proj1 (Huniq Hn)).
Defined.

(** ** Deleting a medication *)

Example deleteMedication_example :
  data (deleteMedication "Medicina B" exampleStore)
  = {| healthData := {[ "2024-06-01" := exampleDay ]};
       medications := ["Medicina A"];
       standardPattern := {[ "08:00" := ["Medicina A"] ]} |}.
Proof. rewrite deleteMedication_data. vm_compute. reflexivity. Qed.

Lemma elem_of_without x m (l : list string) :
  x ∈ without m l ↔ x ≠ m ∧ x ∈ l.
Proof. unfold without. by rewrite list_elem_of_filter. Qed.

(** The day records after [deleteMedication], slot by slot. *)
Lemma deleteMedication_slot m st day time :
  healthData (data (deleteMedication m st)) !! day ≫= (λ dayData, dayData !! time)
  = if decide (day = "__proto__") then None
    else if decide (time = "__proto__") then None
    else withoutSlot m
         <$> (healthData (data st) !! day ≫= (λ dayData, dayData !! time)).
Proof.
  rewrite deleteMedication_data. cbn [healthData].
  rewrite lookup_assigned. destruct (decide (day = "__proto__")); [done|].
  rewrite lookup_fmap. destruct (healthData (data st) !! day) as [dayData|].
  - simpl. rewrite lookup_assigned.
    destruct (decide (time = "__proto__")); [done|]. by rewrite lookup_fmap.
  - simpl. by destruct (decide (time = "__proto__")).
Qed.

(** C5: [deleteMedication m] takes [m] out of the catalog, out of every slot
    of every day record and out of every entry of the standard pattern, and
    an entry of the pattern left without medications is no longer in the
    pattern. It takes out nothing else: the other names stay in the catalog
    in their order; a day record stays, with the slots it had, each with its
    value, its comments and its other medications in their order; an entry
    of the pattern that keeps a medication stays, with its other medications
    in their order; and no day, slot or entry is created. What is stored
    under the key [__proto__] is set apart: the assignments of the two
    reduces do not write it back. *)
Theorem deleteMedication_removes (m : string) (st : Store UserDataBundle) :
  (m ∉ medications (data (deleteMedication m st)))
  ∧ (∀ day dayData time slot,
       healthData (data (deleteMedication m st)) !! day = Some dayData →
       dayData !! time = Some slot →
       m ∉ Slot.medications slot)
  ∧ (∀ time meds,
       standardPattern (data (deleteMedication m st)) !! time = Some meds →
       (m ∉ meds) ∧ meds ≠ [])
  ∧ (∀ time meds,
       standardPattern (data st) !! time = Some meds →
       filter (λ x, x ≠ m) meds = [] →
       standardPattern (data (deleteMedication m st)) !! time = None)
  ∧ medications (data (deleteMedication m st))
    = filter (λ x, x ≠ m) (medications (data st))
  ∧ (∀ day, day ≠ "__proto__" →
       is_Some (healthData (data (deleteMedication m st)) !! day)
       ↔ is_Some (healthData (data st) !! day))
  ∧ (∀ day time, day ≠ "__proto__" → time ≠ "__proto__" →
       healthData (data (deleteMedication m st)) !! day
         ≫= (λ dayData, dayData !! time)
       = (λ slot, Slot.mk (Slot.value slot)
                          (filter (λ x, x ≠ m) (Slot.medications slot))
                          (Slot.comments slot))
         <$> (healthData (data st) !! day ≫= (λ dayData, dayData !! time)))
  ∧ (∀ time, time ≠ "__proto__" →
       standardPattern (data (deleteMedication m st)) !! time
       = standardPattern (data st) !! time
           ≫= (λ meds, match filter (λ x, x ≠ m) meds with
                       | [] => None
                       | kept => Some kept
                       end)).
Proof.
  split_and!.
  - rewrite deleteMedication_data. apply not_elem_of_without.
  - intros day dayData time slot Hday Hslot.
    pose proof (deleteMedication_slot m st day time) as Hlook.
    rewrite Hday in Hlook. simpl in Hlook. rewrite Hslot in Hlook.
    destruct (decide (day = "__proto__")); [done|].
    destruct (decide (time = "__proto__")); [done|].
    destruct (healthData (data st) !! day ≫= (λ dayData, dayData !! time))
      as [slot0|]; [|done].
    injection Hlook as ->. apply not_elem_of_without.
  - rewrite deleteMedication_data. cbn [standardPattern].
    intros time meds Hmeds. rewrite lookup_assigned in Hmeds.
    destruct (decide (time = "__proto__")); [done|].
    rewrite lookup_omap in Hmeds.
    destruct (standardPattern (data st) !! time) as [meds0|]; [|done].
    simpl in Hmeds. unfold pruned in Hmeds.
    destruct (0 <? length (without m meds0))%nat eqn:Hlen; [|done].
    injection Hmeds as <-. split; [apply not_elem_of_without|].
    intros Heq. by rewrite Heq in Hlen.
  - rewrite deleteMedication_data. cbn [standardPattern].
    intros time meds Hmeds Hempty. rewrite lookup_assigned.
    destruct (decide (time = "__proto__")); [done|].
    rewrite lookup_omap, Hmeds. simpl. unfold pruned, without.
    by rewrite Hempty.
  - by rewrite deleteMedication_data.
  - rewrite deleteMedication_data. cbn [healthData]. intros day Hday.
    rewrite lookup_assigned, decide_False by done.
    by rewrite lookup_fmap, fmap_is_Some.
  - intros day time Hday Htime. rewrite deleteMedication_slot.
    by rewrite !decide_False by done.
  - rewrite deleteMedication_data. cbn [standardPattern]. intros time Htime.
    rewrite lookup_assigned, decide_False by done. rewrite lookup_omap.
    destruct (standardPattern (data st) !! time) as [meds|]; [|done].
    simpl. unfold pruned, without.
    by destruct (filter (λ x, x ≠ m) meds).
Qed.

(** ** Applying the standard pattern *)

Lemma Set_add_all_elem_of l acc x :
  x ∈ Set_add_all acc l ↔ x ∈ acc ∨ x ∈ l.
Proof.
  unfold Set_add_all. revert acc.
  induction l as [|y l IH]; intros acc; simpl.
  { rewrite elem_of_nil. tauto. }
  rewrite IH, elem_of_cons. unfold Set_add, includes.
  case_bool_decide as Hy.
  - split; [tauto|]. intros [H|[->|H]]; tauto.
  - rewrite elem_of_app, list_elem_of_singleton. tauto.
Qed.

Lemma Set_add_all_NoDup l acc : NoDup acc → NoDup (Set_add_all acc l).
Proof.
  unfold Set_add_all. revert acc.
  induction l as [|y l IH]; intros acc Hacc; simpl; [done|].
  apply IH. unfold Set_add, includes. case_bool_decide as Hy; [done|].
  apply NoDup_app. split; [done|]. split; [|apply NoDup_singleton].
  by intros x Hx ->%list_elem_of_singleton.
Qed.

Lemma Array_from_Set_elem_of l x : x ∈ Array_from_Set l ↔ x ∈ l.
Proof.
  unfold Array_from_Set. rewrite Set_add_all_elem_of, elem_of_nil. tauto.
Qed.

Lemma Array_from_Set_NoDup l : NoDup (Array_from_Set l).
Proof. apply Set_add_all_NoDup. constructor. Qed.

(** The two ways of building the merged set, of src/index.tsx and of the
    form component, give the same array. *)
Lemma Set_add_all_app l1 l2 :
  Set_add_all (Array_from_Set l1) l2 = Array_from_Set (l1 ++ l2).
Proof. unfold Array_from_Set, Set_add_all. by rewrite foldl_app. Qed.

Lemma assign_own {T} k (v : T) (o : gmap string T) :
  is_Some (o !! k) → assign k v o = <[k := v]> o.
Proof.
  intros [old Hold]. unfold assign. rewrite Hold. by destruct (decide _).
Qed.

(** The merged grid, slot by slot. *)
Lemma merged_lookup (sp : StandardPattern) (prev : DailyData) time :
  merged sp prev !! time =
  match sp !! time with
  | Some patternMeds => combined patternMeds <$> prev !! time
  | None => prev !! time
  end.
Proof.
  unfold merged. rewrite map_lookup_imap.
  destruct (prev !! time) as [slot|]; simpl; by destruct (sp !! time).
Qed.

Lemma merged_dom (sp : StandardPattern) (prev : DailyData) :
  dom (merged sp prev) = dom prev.
Proof.
  apply set_eq. intros time. rewrite !elem_of_dom, merged_lookup.
  destruct (sp !! time); [|done]. by rewrite fmap_is_Some.
Qed.

Lemma stray_same (prev prev' : DailyData) time :
  (is_Some (prev' !! time) ↔ is_Some (prev !! time)) →
  stray prev' time = stray prev time.
Proof.
  unfold stray. intros Hdom.
  destruct (prev !! time) as [slot|] eqn:H1, (prev' !! time) as [slot'|] eqn:H2;
    try done.
  - exfalso. apply (is_Some_None (A:=Slot.t)), Hdom. by eexists.
  - exfalso. apply (is_Some_None (A:=Slot.t)), Hdom. by eexists.
Qed.

Lemma existsb_pointwise {A} (f g : A → bool) (l : list A) :
  (∀ x, f x = g x) → existsb f l = existsb g l.
Proof.
  intros Hfg. induction l as [|x l IH]; [done|]. simpl. by rewrite Hfg, IH.
Qed.

Lemma applyStandardPattern_step_Throw l message :
  foldl applyStandardPattern_step (Throw message) l = Throw message.
Proof. induction l as [|[time pm] l IH]; [done|]. exact IH. Qed.

(** The [forEach] either meets a stray key and throws, or merges. *)
Lemma applyStandardPattern_fold (l : list (string * list string)) :
  ∀ acc : DailyData,
    NoDup l.*1 →
    foldl applyStandardPattern_step (Return acc) l
    = if existsb (λ entry, stray acc entry.1) l then Throw "TypeError"
      else Return (merged (list_to_map l) acc).
Proof.
  induction l as [|[time pm] l IH]; intros acc Hnd.
  { cbn [foldl existsb list_to_map foldr]. f_equal. apply map_eq. intros t.
    by rewrite merged_lookup, lookup_empty. }
  rewrite fmap_cons in Hnd. apply NoDup_cons in Hnd as [Htime Hnd].
  cbn [foldl existsb fst]. unfold applyStandardPattern_step at 2.
  cbn [Exn_bind]. unfold read, stray at 1.
  destruct (acc !! time) as [slot|] eqn:Hslot.
  - rewrite assign_own by by eexists. rewrite IH by done. cbn [orb].
    rewrite (existsb_pointwise _ (λ entry, stray acc entry.1)); last first.
    { intros entry. apply stray_same.
      destruct (decide (entry.1 = time)) as [->|Hne].
      - rewrite lookup_insert_eq, Hslot. split; by eexists.
      - by rewrite lookup_insert_ne. }
    destruct (existsb _ l); [done|]. f_equal. apply map_eq. intros t.
    rewrite !merged_lookup. cbn [list_to_map foldr uncurry].
    destruct (decide (t = time)) as [->|Hne].
    + rewrite !lookup_insert_eq.
      rewrite (not_elem_of_list_to_map_1 (M:=gmap string) l time) by done.
      by rewrite Hslot.
    + by rewrite !lookup_insert_ne.
  - destruct (inherited time) eqn:Hin.
    + by rewrite applyStandardPattern_step_Throw.
    + rewrite IH by done. cbn [orb]. destruct (existsb _ l); [done|].
      f_equal. apply map_eq. intros t.
      rewrite !merged_lookup. cbn [list_to_map foldr uncurry].
      destruct (decide (t = time)) as [->|Hne].
      * rewrite lookup_insert_eq, Hslot.
        by destruct (list_to_map l !! time).
      * by rewrite lookup_insert_ne.
Qed.

Lemma existsb_stray (sp : StandardPattern) (prev : DailyData) :
  existsb (λ entry, stray prev entry.1) (map_to_list sp) = false
  ↔ noStrayKey sp prev.
Proof.
  rewrite <- not_true_iff_false, existsb_exists. unfold noStrayKey. split.
  - intros Hno time [pm Hpm]. apply not_true_iff_false. intros Hstray.
    apply Hno. exists (time, pm). split; [|done].
    by apply list_elem_of_In, elem_of_map_to_list.
  - intros Hall ([time pm] & Hin & Hstray).
    apply list_elem_of_In, elem_of_map_to_list in Hin. simpl in Hstray.
    rewrite Hall in Hstray; [done|by eexists].
Qed.

(** The action, in full: it throws when the pattern has a stray key, and
    returns the merged grid when it has none. *)
Lemma applyStandardPattern_result (sp : StandardPattern) (prev : DailyData) :
  applyStandardPattern sp prev
  = if existsb (λ entry, stray prev entry.1) (map_to_list sp)
    then Throw "TypeError" else Return (merged sp prev).
Proof.
  unfold applyStandardPattern.
  rewrite applyStandardPattern_fold by apply NoDup_fst_map_to_list.
  by rewrite list_to_map_to_list.
Qed.

Lemma applyStandardPattern_Return (sp : StandardPattern) (prev : DailyData) :
  noStrayKey sp prev → applyStandardPattern sp prev = Return (merged sp prev).
Proof.
  intros Hno. rewrite applyStandardPattern_result.
  by rewrite (proj2 (existsb_stray sp prev) Hno).
Qed.

Lemma applyStandardPattern_Throw (sp : StandardPattern) (prev : DailyData) time :
  is_Some (sp !! time) → stray prev time = true →
  applyStandardPattern sp prev = Throw "TypeError".
Proof.
  intros Hsome Hstray. rewrite applyStandardPattern_result.
  destruct (existsb _ (map_to_list sp)) eqn:Hex; [done|].
  apply existsb_stray in Hex. rewrite (Hex time Hsome) in Hstray. done.
Qed.

(** On a pattern without stray key the form component builds the same
    grid. *)
Lemma applyStandardPattern_form_fold (l : list (string * list string)) :
  ∀ acc : DailyData,
    NoDup l.*1 →
    existsb (λ entry, stray acc entry.1) l = false →
    foldl applyStandardPattern_form_step (FullSlot <$> acc, None) l
    = (FullSlot <$> merged (list_to_map l) acc, None).
Proof.
  induction l as [|[time pm] l IH]; intros acc Hnd Hno.
  { cbn [foldl list_to_map foldr]. do 2 f_equal. apply map_eq. intros t.
    by rewrite merged_lookup, lookup_empty. }
  rewrite fmap_cons in Hnd. apply NoDup_cons in Hnd as [Htime Hnd].
  cbn [existsb fst] in Hno. apply orb_false_iff in Hno as [Hhere Hno].
  cbn [foldl]. unfold applyStandardPattern_form_step at 2.
  rewrite lookup_fmap. unfold stray in Hhere.
  destruct (acc !! time) as [slot|] eqn:Hslot; cbn [fmap option_fmap option_map].
  - cbn [FormSlot_with FormSlot_medications]. rewrite Set_add_all_app.
    change (FullSlot (Slot.mk (Slot.value slot)
                        (Array_from_Set (Slot.medications slot ++ pm))
                        (Slot.comments slot)))
      with (FullSlot (combined pm slot)).
    rewrite <- fmap_insert. rewrite IH; [|done|].
    + do 2 f_equal. apply map_eq. intros t.
      rewrite !merged_lookup. cbn [list_to_map foldr uncurry].
      destruct (decide (t = time)) as [->|Hne].
      * rewrite !lookup_insert_eq.
        rewrite (not_elem_of_list_to_map_1 (M:=gmap string) l time) by done.
        by rewrite Hslot.
      * by rewrite !lookup_insert_ne.
    + rewrite <- Hno. apply existsb_pointwise. intros entry. apply stray_same.
      destruct (decide (entry.1 = time)) as [->|Hne].
      * rewrite lookup_insert_eq, Hslot. split; by eexists.
      * by rewrite lookup_insert_ne.
  - destruct (decide (time = "__proto__")) as [->|Hproto]; [done|].
    rewrite Hhere. rewrite IH by done.
    do 2 f_equal. apply map_eq. intros t.
    rewrite !merged_lookup. cbn [list_to_map foldr uncurry].
    destruct (decide (t = time)) as [->|Hne].
    + rewrite lookup_insert_eq, Hslot. by destruct (list_to_map l !! time).
    + by rewrite lookup_insert_ne.
Qed.

Lemma applyStandardPattern_form_Return (sp : StandardPattern) (prev : DailyData) :
  noStrayKey sp prev →
  applyStandardPattern_form sp prev = FullSlot <$> merged sp prev.
Proof.
  intros Hno. unfold applyStandardPattern_form.
  rewrite applyStandardPattern_form_fold.
  - by rewrite list_to_map_to_list.
  - apply NoDup_fst_map_to_list.
  - by apply existsb_stray.
Qed.

(** C9 fails on the code at a pattern that has, besides the label of a slot
    of the grid, a key that the grid lacks and [Object.prototype] has. Such a
    pattern is in the cells after an import; the form shows the day with its
    slot at 08:00; [applyStandardPattern] of src/index.tsx throws, so that
    the slot does not get the union, which it gets from the pattern without
    that key. *)
Theorem applyStandardPattern_union_lost :
  let st := importBundle strayBundle readyStore in
  let grid := loadDay (healthData (data st)) "2024-06-01" in
  reachable st
  ∧ grid !! "08:00" = Some (Slot.mk (Some 7%Z) ["Medicina A"] "headache")
  ∧ standardPattern (data st) !! "08:00" = Some ["Medicina B"]
  ∧ applyStandardPattern (standardPattern (data st)) grid = Throw "TypeError"
  ∧ Exn_bind
      (applyStandardPattern (delete "constructor" (standardPattern (data st)))
         grid)
      (λ newData, Return (newData !! "08:00"))
    = Return (Some (Slot.mk (Some 7%Z) ["Medicina A"; "Medicina B"] "headache")).
Proof.
  cbv zeta. split_and!.
  - by exists [Login 0 APP_PASSWORD; Call 0 (LoadUserDataBundle strayBundle)].
  - vm_compute. reflexivity.
  - vm_compute. reflexivity.
  - vm_compute. reflexivity.
  - vm_compute. reflexivity.
Qed.

(** C10 fails on the code at a key of the pattern that the grid lacks and
    [Object.prototype] has: there [applyStandardPattern] of src/index.tsx
    throws, and the action of the form component creates a slot. *)
Theorem applyStandardPattern_stray_key :
  let st := importBundle strayBundle readyStore in
  let grid := loadDay (healthData (data st)) "2024-06-01" in
  reachable st
  ∧ standardPattern (data st) !! "constructor" = Some ["Medicina B"]
  ∧ grid !! "constructor" = None
  ∧ applyStandardPattern (standardPattern (data st)) grid = Throw "TypeError"
  ∧ applyStandardPattern_form (standardPattern (data st)) grid !! "constructor"
    = Some (MedicationsOnly ["Medicina B"]).
Proof.
  cbv zeta. split_and!.
  - by exists [Login 0 APP_PASSWORD; Call 0 (LoadUserDataBundle strayBundle)].
  - vm_compute. reflexivity.
  - vm_compute. reflexivity.
  - vm_compute. reflexivity.
  - vm_compute. reflexivity.
Qed.

(** ** Importing a bundle *)

Lemma truthy_get_object bundle name :
  truthy (get bundle name) = true → truthy (Some bundle) = true.
Proof. by destruct bundle. Qed.

(** A well-typed bundle always passes the test: [importBundle] is
    [loadUserDataBundle] on typed data. *)
Lemma loadUserDataBundle_typed (b : UserDataBundle) (st : Store UserDataBundle) :
  loadUserDataBundle (encodeBundle b) (rawStore st)
  = Return (rawStore (importBundle b st)).
Proof.
  unfold loadUserDataBundle, importBundle, saveDataToJsonbin, rawStore.
  cbn. by destruct (saveDataTimeout st).
Qed.

(** C6, as stated, fails: a file that has all three fields is still
    refused when one of them is [null] (or any other falsy value). *)
Lemma loadUserDataBundle_refuses_null_field :
  (∀ name, name ∈ bundleFields → is_Some (get nullFieldBundle name))
  ∧ loadUserDataBundle nullFieldBundle rawReadyStore
    = Throw "Invalid data structure in JSON file.".
Proof.
  split; [|reflexivity].
  intros name Hname. unfold bundleFields in Hname.
  repeat (apply elem_of_cons in Hname as [->|Hname]; [by eexists|]).
  by apply elem_of_nil in Hname.
Qed.

(** C6, amended: [loadUserDataBundle] throws, and leaves the store as it
    was, for every input in which one of the three fields is missing or
    falsy ([null], [false], [0], the empty string); for every input whose
    three fields are truthy, however deep or shallow, it puts them into the
    cells and starts the two-second save timer. *)
Theorem loadUserDataBundle_shape (bundle : JSON) (st : Store RawBundle) :
  (∀ name, name ∈ bundleFields → get bundle name = None →
     loadUserDataBundle bundle st = Throw "Invalid data structure in JSON file."
     ∧ store_after (loadUserDataBundle bundle st) st = st)
  ∧ (∀ name, name ∈ bundleFields → truthy (get bundle name) = false →
     loadUserDataBundle bundle st = Throw "Invalid data structure in JSON file."
     ∧ store_after (loadUserDataBundle bundle st) st = st)
  ∧ ((∀ name, name ∈ bundleFields → truthy (get bundle name) = true) →
     ∃ st' h,
       loadUserDataBundle bundle st = Return st'
       ∧ data st' = mkRaw (get bundle "healthData") (get bundle "medications")
                          (get bundle "standardPattern")
       ∧ saveDataTimeout st' = Some h
       ∧ (h, (clock (window st) + 2000)%Z) ∈ active (window st')
       ∧ requests st' = requests st).
Proof.
  assert (Hfalsy : ∀ name, name ∈ bundleFields →
            truthy (get bundle name) = false →
            loadUserDataBundle bundle st
              = Throw "Invalid data structure in JSON file."
            ∧ store_after (loadUserDataBundle bundle st) st = st).
  { intros name Hname Hf. unfold bundleFields in Hname.
    assert (loadUserDataBundle bundle st
            = Throw "Invalid data structure in JSON file.") as ->; [|done].
    unfold loadUserDataBundle.
    repeat (apply elem_of_cons in Hname as [->|Hname];
            [rewrite Hf, ?andb_false_r; reflexivity|]).
    by apply elem_of_nil in Hname. }
  split_and!.
  - intros name Hname Hnone. apply (Hfalsy name Hname). by rewrite Hnone.
  - exact Hfalsy.
  - intros Hall.
    assert (Hh : truthy (get bundle "healthData") = true).
    { apply Hall. by left. }
    assert (Hm : truthy (get bundle "medications") = true).
    { apply Hall. right. by left. }
    assert (Hp : truthy (get bundle "standardPattern") = true).
    { apply Hall. do 2 right. by left. }
    unfold loadUserDataBundle.
    rewrite (truthy_get_object _ _ Hh), Hh, Hm, Hp. cbn [andb].
    eexists _, (nextHandle (window st)). split; [reflexivity|].
    unfold saveDataToJsonbin, setData, setTimeout.
    destruct (saveDataTimeout st) as [h0|]; cbn;
      (split_and!; try done; apply elem_of_app; right; by left).
Qed.

Lemma loadUserDataBundle_shape_witness :
  (∀ name, name ∈ bundleFields → truthy (get deepBundle name) = true)
  ∧ ∃ st' h,
      loadUserDataBundle deepBundle rawReadyStore = Return st'
      ∧ saveDataTimeout st' = Some h
      ∧ (h, 2000%Z) ∈ active (window st').
Proof.
  assert (Hall : ∀ name, name ∈ bundleFields →
            truthy (get deepBundle name) = true).
  { intros name Hname. unfold bundleFields in Hname.
    repeat (apply elem_of_cons in Hname as [->|Hname]; [reflexivity|]).
    by apply elem_of_nil in Hname. }
  split; [exact Hall|].
  destruct (loadUserDataBundle_shape deepBundle rawReadyStore)
    as (_ & _ & Haccept).
  destruct (Haccept Hall) as (st' & h & Hret & _ & Hh & Hact & _).
  exists st', h. split; [exact Hret|]. split; [exact Hh|]. exact Hact.
Defined.

(** ** Fetching the document *)

(** C8, as stated, fails: on a status that is neither a success nor 404 the
    error is thrown inside the [try], caught by the function's own [catch],
    and the default comes back; the function does not fail. *)
Lemma loadDataFromBin_swallows_500 :
  ok (mkResponse 500 "Internal Server Error" (Return "")) = false
  ∧ snd (loadDataFromBin (λ _, Throw "SyntaxError")
           (Responded (mkResponse 500 "Internal Server Error" (Return "")))
           defaultUserDataBundle)
    = Return defaultUserDataBundle
  ∧ ¬ ∃ message,
        snd (loadDataFromBin (λ _, Throw "SyntaxError")
               (Responded (mkResponse 500 "Internal Server Error" (Return "")))
               defaultUserDataBundle)
        = Throw message.
Proof.
  split; [reflexivity|]. split; [reflexivity|]. intros [message H].
  discriminate H.
Qed.

(** C8, amended: on 404 the default bundle is returned; on any other status
    that is not a success the error with the status text is logged and the
    default bundle is returned; on a transport failure the error is logged
    and the default bundle is returned; the function never fails. This holds
    of [loadDataFromBin] and of [loadData]. *)
Theorem loadDataFromBin_outcomes {D} (JSON_parse : string → Exn D)
    (defaultData : D) :
  (∀ statusText body,
     snd (loadDataFromBin JSON_parse
            (Responded (mkResponse 404 statusText body)) defaultData)
       = Return defaultData
     ∧ snd (loadData JSON_parse
              (Responded (mkResponse 404 statusText body)) defaultData)
       = Return defaultData)
  ∧ (∀ response,
       ok response = false → status response ≠ 404%Z →
       loadDataFromBin JSON_parse (Responded response) defaultData
       = (["Error loading from jsonbin.io: "
             +:+ ("Failed to load: " +:+ statusText response)],
          Return defaultData)
       ∧ loadData JSON_parse (Responded response) defaultData
         = (["Error loading data from jsonbin.io, returning default. "
               +:+ ("Failed to load data from jsonbin.io: "
                    +:+ statusText response)],
            Return defaultData))
  ∧ (∀ message,
       loadDataFromBin JSON_parse (NetworkError message) defaultData
       = (["Error loading from jsonbin.io: " +:+ message], Return defaultData)
       ∧ loadData JSON_parse (NetworkError message) defaultData
         = (["Error loading data from jsonbin.io, returning default. "
               +:+ message],
            Return defaultData))
  ∧ (∀ outcome message,
       snd (loadDataFromBin JSON_parse outcome defaultData) ≠ Throw message
       ∧ snd (loadData JSON_parse outcome defaultData) ≠ Throw message).
Proof.
  split_and!.
  - done.
  - intros response Hok Hstatus.
    unfold loadDataFromBin, loadDataFromBin_try, loadData, loadData_try.
    rewrite Hok. cbn [negb].
    by rewrite (proj2 (Z.eqb_neq _ _) Hstatus).
  - done.
  - intros outcome message. unfold loadDataFromBin, loadData. split.
    + by destruct (loadDataFromBin_try JSON_parse outcome defaultData).
    + by destruct (loadData_try JSON_parse outcome defaultData) as [lines []].
Qed.

Lemma loadDataFromBin_outcomes_witness :
  loadDataFromBin (λ _ : string, Throw "SyntaxError")
    (Responded (mkResponse 503 "Service Unavailable" (Return "")))
    defaultUserDataBundle
  = (["Error loading from jsonbin.io: Failed to load: Service Unavailable"],
     Return defaultUserDataBundle).
Proof.
  destruct (loadDataFromBin_outcomes (λ _ : string, Throw "SyntaxError")
              defaultUserDataBundle) as (_ & Hother & _).
  apply (Hother (mkResponse 503 "Service Unavailable" (Return ""))).
  - reflexivity.
  - discriminate.
Defined.

(** On a success the document read is returned, or the default when the
    body is empty or is not JSON. *)
Lemma loadDataFromBin_success {D} (JSON_parse : string → Exn D)
    (defaultData : D) response responseText :
  ok response = true → text response = Return responseText →
  snd (loadDataFromBin JSON_parse (Responded response) defaultData)
  = if String.eqb responseText "" then Return defaultData
    else match JSON_parse responseText with
         | Return d => Return d
         | Throw _ => Return defaultData
         end.
Proof.
  intros Hok Htext. unfold loadDataFromBin, loadDataFromBin_try.
  rewrite Hok, Htext. cbn [negb].
  destruct (String.eqb responseText ""); [done|]. cbn [negb].
  by destruct (JSON_parse responseText).
Qed.

(** ** The save timer *)

Section timer.
Context {D : Type}.
Implicit Type st : Store D.

Lemma filter_handle_all (h : positive) (l : list (positive * Z)) :
  (∀ p, p ∈ l → p.1 = h) → filter (λ p, p.1 ≠ h) l = [].
Proof.
  induction l as [|p l IH]; intros Hl; [done|].
  rewrite filter_cons_False.
  - apply IH. intros q Hq. apply Hl. by right.
  - intros Hne. apply Hne, Hl. by left.
Qed.

Lemma clear_saved st h :
  timers_ok st → saveDataTimeout st = Some h →
  active (clearTimeout h (window st)) = [].
Proof.
  intros Hok Hh. simpl. apply filter_handle_all. intros [h' d] Hp. simpl.
  specialize (Hok h' d Hp). congruence.
Qed.

Lemma no_saved_no_active st :
  timers_ok st → saveDataTimeout st = None → active (window st) = [].
Proof.
  intros Hok Hnone. destruct (active (window st)) as [|[h d] l] eqn:Hact; [done|].
  assert (Hin : (h, d) ∈ active (window st)) by (rewrite Hact; by left).
  specialize (Hok h d Hin). congruence.
Qed.

(** After [saveDataToJsonbin] exactly one timer is pending: the new one, due
    two seconds from now; whatever was pending is cancelled. *)
Lemma saveDataToJsonbin_timer st :
  timers_ok st →
  active (window (saveDataToJsonbin st))
    = [(nextHandle (window st), (clock (window st) + 2000)%Z)]
  ∧ saveDataTimeout (saveDataToJsonbin st) = Some (nextHandle (window st))
  ∧ clock (window (saveDataToJsonbin st)) = clock (window st).
Proof.
  intros Hok. unfold saveDataToJsonbin, setTimeout.
  destruct (saveDataTimeout st) as [h|] eqn:Hh; cbn.
  - pose proof (clear_saved st h Hok Hh) as Hc. simpl in Hc. by rewrite Hc.
  - by rewrite (no_saved_no_active st Hok Hh).
Qed.

Lemma clock_saveDataToJsonbin st :
  clock (window (saveDataToJsonbin st)) = clock (window st).
Proof. unfold saveDataToJsonbin. by destruct (saveDataTimeout st). Qed.

Lemma timers_ok_saveDataToJsonbin st :
  timers_ok st → timers_ok (saveDataToJsonbin st).
Proof.
  intros Hok h d Hin.
  destruct (saveDataToJsonbin_timer st Hok) as (Hact & Hsaved & _).
  rewrite Hact in Hin. apply list_elem_of_singleton in Hin. by simplify_eq.
Qed.

Lemma timers_ok_same st1 st2 :
  window st1 = window st2 → saveDataTimeout st1 = saveDataTimeout st2 →
  timers_ok st1 → timers_ok st2.
Proof. unfold timers_ok. intros <- <-. done. Qed.

End timer.

(** ** Calls and the timer *)

Lemma call_schedules m st :
  schedules m st = true →
  ∃ st1, call m st = saveDataToJsonbin st1
         ∧ window st1 = window st
         ∧ saveDataTimeout st1 = saveDataTimeout st
         ∧ isAuthenticated st1 = isAuthenticated st
         ∧ requests st1 = requests st.
Proof.
  destruct m; simpl; intros Hs;
    try (eexists; split; [reflexivity|done]).
  unfold addMedication. rewrite Hs. eexists. split; [reflexivity|done].
Qed.

Lemma call_idle m st : schedules m st = false → call m st = st.
Proof.
  destruct m; simpl; try done. intros Hs. unfold addMedication. by rewrite Hs.
Qed.

Lemma call_data m st1 st2 :
  data st1 = data st2 → data (call m st1) = data (call m st2).
Proof.
  intros Hd. destruct m; cbn [call].
  - unfold updateHealthData. rewrite !data_saveDataToJsonbin. simpl.
    by rewrite Hd.
  - by rewrite !addMedication_data, Hd.
  - by rewrite !editMedication_data, Hd.
  - by rewrite !deleteMedication_data, Hd.
  - unfold updateStandardPattern. rewrite !data_saveDataToJsonbin. simpl.
    by rewrite Hd.
  - unfold importBundle. by rewrite !data_saveDataToJsonbin.
Qed.

Lemma schedules_data m st1 st2 :
  data st1 = data st2 → schedules m st1 = schedules m st2.
Proof. intros Hd. destruct m; simpl; try done. by rewrite Hd. Qed.

Lemma call_clock m st : clock (window (call m st)) = clock (window st).
Proof.
  destruct (schedules m st) eqn:Hs.
  - destruct (call_schedules m st Hs) as (st1 & -> & Hw & _).
    by rewrite clock_saveDataToJsonbin, Hw.
  - by rewrite call_idle.
Qed.

Lemma call_isAuthenticated m st :
  isAuthenticated (call m st) = isAuthenticated st.
Proof.
  destruct (schedules m st) eqn:Hs.
  - destruct (call_schedules m st Hs) as (st1 & -> & _ & _ & Ha & _).
    by rewrite isAuthenticated_saveDataToJsonbin.
  - by rewrite call_idle.
Qed.

Lemma call_requests m st : requests (call m st) = requests st.
Proof.
  destruct (schedules m st) eqn:Hs.
  - destruct (call_schedules m st Hs) as (st1 & -> & _ & _ & _ & Hr).
    by rewrite requests_saveDataToJsonbin.
  - by rewrite call_idle.
Qed.

Lemma call_timers_ok m st : timers_ok st → timers_ok (call m st).
Proof.
  intros Hok. destruct (schedules m st) eqn:Hs.
  - destruct (call_schedules m st Hs) as (st1 & -> & Hw & Hsaved & _).
    apply timers_ok_saveDataToJsonbin. by apply (timers_ok_same st st1).
  - by rewrite call_idle.
Qed.

(** A call that schedules leaves exactly its own timer pending. *)
Lemma call_timer m st :
  timers_ok st → schedules m st = true →
  ∃ h, active (window (call m st)) = [(h, (clock (window st) + 2000)%Z)]
       ∧ saveDataTimeout (call m st) = Some h.
Proof.
  intros Hok Hs. destruct (call_schedules m st Hs) as (st1 & -> & Hw & Hsaved & _).
  assert (Hok1 : timers_ok st1) by by apply (timers_ok_same st st1).
  destruct (saveDataToJsonbin_timer st1 Hok1) as (Hact & Hh & _).
  exists (nextHandle (window st1)). by rewrite Hact, Hh, Hw.
Qed.

(** ** Steps of the event loop *)

Lemma step_clock e st st1 :
  step e st = Some st1 →
  (clock (window st) ≤ time_of e)%Z ∧ clock (window st1) = time_of e.
Proof.
  unfold step. destruct (Z.leb_spec (clock (window st)) (time_of e)); [|done].
  intros Hstep. split; [done|].
  destruct e; simpl in *.
  - injection Hstep as <-. by rewrite call_clock.
  - injection Hstep as <-. unfold login. by destruct (decide _).
  - by injection Hstep as <-.
  - by injection Hstep as <-.
  - destruct (due _ _ _); [|done]. injection Hstep as <-.
    unfold saveCallback. by destruct (negb _).
  - by injection Hstep as <-.
Qed.

Lemma run_clock_mono trace st st' :
  run trace st = Some st' → (clock (window st) ≤ clock (window st'))%Z.
Proof.
  revert st. induction trace as [|e trace IH]; intros st; simpl.
  { by intros [= <-]. }
  destruct (step e st) as [st1|] eqn:Hstep; [|done]. intros Hrun.
  apply step_clock in Hstep as [Hle Heq]. apply IH in Hrun. lia.
Qed.

Lemma run_app trace1 trace2 st st' :
  run (trace1 ++ trace2) st = Some st' ↔
  ∃ st1, run trace1 st = Some st1 ∧ run trace2 st1 = Some st'.
Proof.
  revert st. induction trace1 as [|e trace1 IH]; intros st; simpl.
  - split; [eauto|]. by intros (st1 & [= <-] & H).
  - destruct (step e st) as [st1|]; [apply IH|].
    split; [done|]. by intros (? & ? & _).
Qed.

(** What a background event does: a PUT is answered, or the timer fires. *)
Lemma step_background e st st1 :
  background e = true → step e st = Some st1 →
  (fires e = false ∧ st1 = settle (tick (time_of e) st))
  ∨ (fires e = true
     ∧ ∃ h, due (time_of e) h (window st) = true
            ∧ st1 = saveCallback (expire h (tick (time_of e) st))).
Proof.
  unfold step. destruct (clock (window st) <=? time_of e)%Z; [|done].
  destruct e; try done; cbn [time_of].
  - intros _. destruct (due t h _) eqn:Hdue; [|done].
    intros [= <-]. right. split; [done|]. exists h. split; [exact Hdue|done].
  - intros _ [= <-]. by left.
Qed.

Lemma due_single t h' h d w :
  active w = [(h, d)] → due t h' w = true → h' = h ∧ (d ≤ t)%Z.
Proof.
  unfold due. intros ->. simpl. rewrite orb_false_r, andb_true_iff.
  intros [Hh Hd]. apply bool_decide_eq_true in Hh. apply Z.leb_le in Hd. done.
Qed.

Lemma due_none t h w : active w = [] → due t h w = false.
Proof. unfold due. by intros ->. Qed.

(** While the pending timer is not due, background events change neither the
    cells nor the timer nor the requests. *)
Lemma quiet_before_deadline env : ∀ st st' h d,
  Forall (λ e, background e = true) env →
  run env st = Some st' →
  active (window st) = [(h, d)] →
  (clock (window st') < d)%Z →
  data st' = data st ∧ requests st' = requests st
  ∧ active (window st') = [(h, d)]
  ∧ saveDataTimeout st' = saveDataTimeout st
  ∧ isAuthenticated st' = isAuthenticated st.
Proof.
  induction env as [|e env IH]; intros st st' h d Hbg Hrun Hact Hlt; simpl in Hrun.
  { by injection Hrun as <-. }
  apply Forall_cons in Hbg as [He Hbg].
  destruct (step e st) as [st1|] eqn:Hstep; [|done].
  pose proof (step_clock _ _ _ Hstep) as [_ Hclock].
  pose proof (run_clock_mono _ _ _ Hrun) as Hmono.
  destruct (step_background _ _ _ He Hstep) as [[_ ->]|(_ & h' & Hdue & _)].
  - destruct (IH _ _ h d Hbg Hrun Hact Hlt) as (? & ? & ? & ? & ?). done.
  - apply (due_single _ _ h d) in Hdue as [_ Hd]; [lia|done].
Qed.

(** With no timer pending, background events send nothing. *)
Lemma idle_sends_nothing env : ∀ st st',
  Forall (λ e, background e = true) env →
  run env st = Some st' →
  active (window st) = [] →
  requests st' = requests st ∧ active (window st') = [].
Proof.
  induction env as [|e env IH]; intros st st' Hbg Hrun Hact; simpl in Hrun.
  { by injection Hrun as <-. }
  apply Forall_cons in Hbg as [He Hbg].
  destruct (step e st) as [st1|] eqn:Hstep; [|done].
  destruct (step_background _ _ _ He Hstep) as [[_ ->]|(_ & h' & Hdue & _)].
  - by apply (IH _ _ Hbg Hrun).
  - by rewrite due_none in Hdue.
Qed.

(** With no timer pending, background events change neither the cells nor
    who is logged in. *)
Lemma idle_quiet env : ∀ st st',
  Forall (λ e, background e = true) env →
  run env st = Some st' →
  active (window st) = [] →
  data st' = data st ∧ requests st' = requests st
  ∧ active (window st') = []
  ∧ isAuthenticated st' = isAuthenticated st.
Proof.
  induction env as [|e env IH]; intros st st' Hbg Hrun Hact; simpl in Hrun.
  { by injection Hrun as <-. }
  apply Forall_cons in Hbg as [He Hbg].
  destruct (step e st) as [st1|] eqn:Hstep; [|done].
  destruct (step_background _ _ _ He Hstep) as [[_ ->]|(_ & h' & Hdue & _)].
  - by apply (IH _ _ Hbg Hrun).
  - by rewrite due_none in Hdue.
Qed.

(** With one timer pending and the user authenticated, background events
    send a PUT exactly when the timer fires, which it does at most once and
    not before its deadline; the PUT carries the cells as they are, and once
    it is sent no timer is left. *)
Lemma pending_sends_once env : ∀ st st' h d,
  Forall (λ e, background e = true) env →
  run env st = Some st' →
  active (window st) = [(h, d)] →
  isAuthenticated st = true →
  (Forall (λ e, fires e = false) env
   ∧ requests st' = requests st ∧ active (window st') = [(h, d)])
  ∨ (Exists (λ e, fires e = true) env
     ∧ ∃ t, (d ≤ t)%Z ∧ requests st' = requests st ++ [(t, data st)]
            ∧ active (window st') = []).
Proof.
  induction env as [|e env IH]; intros st st' h d Hbg Hrun Hact Hauth;
    simpl in Hrun.
  { injection Hrun as <-. left. split; [constructor|done]. }
  apply Forall_cons in Hbg as [He Hbg].
  destruct (step e st) as [st1|] eqn:Hstep; [|done].
  destruct (step_background _ _ _ He Hstep)
    as [[Hquiet ->]|(Hfire & h' & Hdue & ->)].
  - destruct (IH _ _ h d Hbg Hrun Hact Hauth)
      as [(Hno & Hreq & Hpend)|(Hsome & t & Ht & Hreq & Hidle)].
    + left. split; [by constructor|done].
    + right. split; [by apply Exists_cons_tl|]. by exists t.
  - apply (due_single _ _ h d) in Hdue as [-> Hd]; [|done].
    right. split; [by apply Exists_cons_hd|].
    exists (time_of e). split; [done|].
    apply (idle_sends_nothing env) in Hrun as [Hreq Hidle]; [|done|].
    + rewrite Hreq, Hidle. unfold saveCallback. simpl. by rewrite Hauth.
    + unfold saveCallback. simpl. rewrite Hauth. simpl. rewrite Hact. simpl.
      apply filter_handle_all. by intros p ->%list_elem_of_singleton.
Qed.

Lemma step_timers_ok e st st1 :
  timers_ok st → step e st = Some st1 → timers_ok st1.
Proof.
  intros Hok. unfold step. destruct (clock (window st) <=? time_of e)%Z; [|done].
  assert (Hok' : timers_ok (tick (time_of e) st)) by exact Hok.
  destruct e; cbn [time_of] in *.
  - intros [= <-]. by apply call_timers_ok.
  - intros [= <-]. unfold login. by destruct (decide _).
  - by intros [= <-].
  - by intros [= <-].
  - destruct (due _ _ _); [|done]. intros [= <-].
    assert (Hexp : timers_ok (expire h (tick t st))).
    { intros h' d Hin. simpl in Hin. apply list_elem_of_filter in Hin as [_ Hin].
      by apply (Hok h' d). }
    unfold saveCallback. by destruct (negb _).
  - by intros [= <-].
Qed.

Lemma run_timers_ok trace : ∀ st st',
  timers_ok st → run trace st = Some st' → timers_ok st'.
Proof.
  induction trace as [|e trace IH]; intros st st' Hok; simpl.
  { by intros [= <-]. }
  destruct (step e st) as [st1|] eqn:Hstep; [|done].
  apply IH. by apply (step_timers_ok e st).
Qed.

(** Every state of the program keeps the save timer as its only timer. *)
Lemma reachable_timers_ok st : reachable st → timers_ok st.
Proof.
  intros [trace Hrun]. apply (run_timers_ok trace initialStore); [|done].
  intros h d Hin. by apply elem_of_nil in Hin.
Qed.

(** Time starts at 0 and a save timer is due two seconds after it was
    started: in every state of the program the pending timer, if there is
    one, is the only one and is due at 2 s or later. *)
Lemma step_pending e st st1 :
  timers_ok st →
  (0 ≤ clock (window st))%Z →
  (active (window st) = []
   ∨ ∃ h d, active (window st) = [(h, d)] ∧ (2000 ≤ d)%Z) →
  step e st = Some st1 →
  active (window st1) = []
  ∨ ∃ h d, active (window st1) = [(h, d)] ∧ (2000 ≤ d)%Z.
Proof.
  intros Hok Hclock Hact. unfold step.
  destruct (Z.leb_spec (clock (window st)) (time_of e)) as [Hle|]; [|done].
  assert (Hok' : timers_ok (tick (time_of e) st)) by exact Hok.
  destruct e; cbn [time_of] in *.
  - intros [= <-]. destruct (schedules m (tick t st)) eqn:Hs.
    + destruct (call_timer m (tick t st) Hok' Hs) as (h & Hnew & _).
      right. exists h, (t + 2000)%Z. split; [exact Hnew|lia].
    + by rewrite call_idle.
  - intros [= <-]. unfold login. by destruct (decide _).
  - by intros [= <-].
  - by intros [= <-].
  - destruct (due _ _ _); [|done]. intros [= <-].
    assert (Hexp : active (window (expire h (tick t st))) = []
                   ∨ ∃ h' d, active (window (expire h (tick t st))) = [(h', d)]
                             ∧ (2000 ≤ d)%Z).
    { cbn [expire window clearTimeout active tick].
      destruct Hact as [->|(h' & d & -> & Hd)]; [by left|].
      rewrite filter_cons, filter_nil. destruct (decide _); [|by left].
      right. by exists h', d. }
    unfold saveCallback. by destruct (negb _).
  - by intros [= <-].
Qed.

Lemma run_pending trace : ∀ st st',
  timers_ok st →
  (0 ≤ clock (window st))%Z →
  (active (window st) = []
   ∨ ∃ h d, active (window st) = [(h, d)] ∧ (2000 ≤ d)%Z) →
  run trace st = Some st' →
  active (window st') = []
  ∨ ∃ h d, active (window st') = [(h, d)] ∧ (2000 ≤ d)%Z.
Proof.
  induction trace as [|e trace IH]; intros st st' Hok Hclock Hact; simpl.
  { by intros [= <-]. }
  destruct (step e st) as [st1|] eqn:Hstep; [|done].
  apply IH.
  - by apply (step_timers_ok e st).
  - apply step_clock in Hstep as [Hle Heq]. lia.
  - by apply (step_pending e st).
Qed.

Lemma reachable_pending st :
  reachable st →
  active (window st) = []
  ∨ ∃ h d, active (window st) = [(h, d)] ∧ (2000 ≤ d)%Z.
Proof.
  intros [trace Hrun]. apply (run_pending trace initialStore st); try done.
  - intros h d Hin. by apply elem_of_nil in Hin.
  - by left.
Qed.

(** The store right after the second of two calls one second apart: one
    timer is pending, due at three seconds, and nothing was sent. *)
Lemma after_two_calls st stB m1 m2 env1 :
  reachable st →
  isAuthenticated st = true →
  schedules m2 (call m1 st) = true →
  Forall (λ e, background e = true) env1 →
  run (Call 0 m1 :: env1 ++ [Call 1000 m2]) st = Some stB →
  ∃ h, active (window stB) = [(h, 3000%Z)]
       ∧ isAuthenticated stB = true
       ∧ requests stB = requests st
       ∧ data stB = data (call m2 (call m1 st))
       ∧ clock (window stB) = 1000%Z.
Proof.
  intros Hreach Hauth Hs2 Hbg1 Hrun. cbn [run] in Hrun.
  pose proof (reachable_timers_ok st Hreach) as Hok.
  pose proof (reachable_pending st Hreach) as Hpending.
  destruct (step (Call 0 m1) st) as [stA|] eqn:HA; [|done].
  unfold step in HA. cbn [time_of] in HA.
  destruct (clock (window st) <=? 0)%Z; [|done]. injection HA as <-.
  apply run_app in Hrun as (stA' & Hrun1 & Hrun2). cbn [run] in Hrun2.
  destruct (step (Call 1000 m2) stA') as [stB'|] eqn:HB; [|done].
  injection Hrun2 as <-.
  unfold step in HB. cbn [time_of] in HB.
  destruct (Z.leb_spec (clock (window stA')) 1000) as [Hle|]; [|done].
  injection HB as <-.
  assert (Hok0 : timers_ok (tick 0 st)) by exact Hok.
  (* the first call, and the time until the second *)
  assert (Hmid : data stA' = data (call m1 st)
                 ∧ requests stA' = requests st
                 ∧ isAuthenticated stA' = true
                 ∧ timers_ok (tick 1000 stA')).
  { destruct (schedules m1 st) eqn:Hm1.
    - assert (Hs1' : schedules m1 (tick 0 st) = true).
      { by rewrite (schedules_data m1 (tick 0 st) st). }
      destruct (call_timer m1 (tick 0 st) Hok0 Hs1') as (h1 & Hact1 & Hsaved1).
      cbn [tick window clock] in Hact1.
      destruct (quiet_before_deadline env1 _ _ h1 2000%Z Hbg1 Hrun1 Hact1)
        as (Hdata & Hreq & Hact & Hsaved & Hauth'); [lia|].
      split_and!.
      + rewrite Hdata. by apply call_data.
      + by rewrite Hreq, call_requests.
      + by rewrite Hauth', call_isAuthenticated.
      + intros h d Hin. cbn [tick window active] in Hin. rewrite Hact in Hin.
        apply list_elem_of_singleton in Hin. simplify_eq.
        cbn [tick saveDataTimeout]. by rewrite Hsaved.
    - assert (Hs1' : schedules m1 (tick 0 st) = false).
      { by rewrite (schedules_data m1 (tick 0 st) st). }
      rewrite (call_idle m1 (tick 0 st) Hs1') in Hrun1.
      rewrite (call_idle m1 st Hm1).
      destruct Hpending as [Hidle|(h & d & Hact0 & Hd)].
      + destruct (idle_quiet env1 _ _ Hbg1 Hrun1 Hidle)
          as (Hdata & Hreq & Hact & Hauth').
        split_and!; [done|done|by rewrite Hauth'|].
        intros h d Hin. cbn [tick window active] in Hin. rewrite Hact in Hin.
        by apply elem_of_nil in Hin.
      + destruct (quiet_before_deadline env1 _ _ h d Hbg1 Hrun1 Hact0)
          as (Hdata & Hreq & Hact & Hsaved & Hauth'); [lia|].
        split_and!; [done|done|by rewrite Hauth'|].
        intros h' d' Hin. cbn [tick window active] in Hin. rewrite Hact in Hin.
        apply list_elem_of_singleton in Hin. simplify_eq.
        cbn [tick saveDataTimeout]. rewrite Hsaved. apply (Hok h d).
        rewrite Hact0. by left. }
  destruct Hmid as (Hdata & Hreq & Hauth' & Hok1).
  (* the second call *)
  assert (Hdata1 : data (tick 1000 stA') = data (call m1 st)) by exact Hdata.
  assert (Hs2' : schedules m2 (tick 1000 stA') = true).
  { by rewrite (schedules_data m2 _ (call m1 st)). }
  destruct (call_timer m2 (tick 1000 stA') Hok1 Hs2') as (h2 & Hact2 & _).
  cbn [tick window clock] in Hact2.
  exists h2. split_and!.
  - exact Hact2.
  - by rewrite call_isAuthenticated.
  - by rewrite call_requests.
  - by apply call_data.
  - by rewrite call_clock.
Qed.



(** The timer of the second call can fire at any time from 3 s on, and then
    the PUT is sent. *)
Lemma debounce_fires (st : Store UserDataBundle) (m1 m2 : mutation) (t : Z) :
  reachable st →
  isAuthenticated st = true →
  schedules m2 (call m1 st) = true →
  (clock (window st) ≤ 0)%Z →
  (3000 ≤ t)%Z →
  ∃ h st',
    run [Call 0 m1; Call 1000 m2; Fires t h] st = Some st'
    ∧ requests st' = requests st ++ [(t, data (call m2 (call m1 st)))].
Proof.
  intros Hreach Hauth Hs2 Hclock Ht.
  destruct (run [Call 0 m1; Call 1000 m2] st) as [stB|] eqn:HrunB.
  - destruct (after_two_calls st stB m1 m2 [] Hreach Hauth Hs2
                (Forall_nil_2 _) HrunB)
      as (h & Hact & HauthB & HreqB & HdataB & HclockB).
    exists h. change [Call 0 m1; Call 1000 m2; Fires t h]
      with ([Call 0 m1; Call 1000 m2] ++ [Fires t h]).
    assert (Hstep : step (Fires t h) stB
                    = Some (saveCallback (expire h (tick t stB)))).
    { unfold step. cbn [time_of]. rewrite HclockB.
      rewrite (proj2 (Z.leb_le 1000 t)) by lia.
      unfold due. cbn [tick window active]. rewrite Hact. simpl.
      rewrite bool_decide_eq_true_2 by done.
      by rewrite (proj2 (Z.leb_le 3000 t)) by lia. }
    eexists. split.
    + apply run_app. exists stB. split; [done|]. cbn [run]. by rewrite Hstep.
    + unfold saveCallback. cbn [expire tick isAuthenticated]. rewrite HauthB.
      simpl. by rewrite HreqB, HdataB.
  - exfalso. cbn [run] in HrunB. unfold step in HrunB. cbn [time_of] in HrunB.
    rewrite (proj2 (Z.leb_le _ _) Hclock) in HrunB.
    rewrite call_clock in HrunB. cbn [tick window clock] in HrunB.
    simpl in HrunB. done.
Qed.


(** * Further properties of the store *)

(** ** Adding a medication *)

Lemma addMedication_catalog med st :
  data (addMedication med st)
  = {| healthData := healthData (data st);
       medications := catalog_add med (medications (data st));
       standardPattern := standardPattern (data st) |}.
Proof.
  rewrite addMedication_data. unfold catalog_add.
  case_decide; [|done]. by destruct (data st).
Qed.

Lemma catalog_add_elem_of med catalog x :
  x ∈ catalog_add med catalog ↔ x ∈ catalog ∨ x = med.
Proof.
  unfold catalog_add. case_decide as Hm.
  - split; [by left|]. by intros [?| ->].
  - by rewrite Array_sort_elem_of, elem_of_app, list_elem_of_singleton.
Qed.

(** X1: [addMedication] twice with the same name is [addMedication] once:
    the second call finds the name and neither changes a cell nor starts a
    timer. *)
Theorem addMedication_idempotent (m : string) (st : Store UserDataBundle) :
  addMedication m (addMedication m st) = addMedication m st.
Proof.
  assert (Hin : m ∈ medications (data (addMedication m st))).
  { rewrite addMedication_catalog. cbn [medications].
    apply catalog_add_elem_of. by right. }
  unfold addMedication at 1. unfold includes.
  by rewrite bool_decide_eq_true_2.
Qed.

Lemma catalog_add_in med catalog :
  med ∈ catalog → catalog_add med catalog = catalog.
Proof. intros Hin. unfold catalog_add. by rewrite decide_True. Qed.

Lemma catalog_add_notin med catalog :
  med ∉ catalog → catalog_add med catalog = Array_sort (catalog ++ [med]).
Proof. intros Hin. unfold catalog_add. by rewrite decide_False. Qed.

Lemma catalog_add_comm a b catalog :
  catalog_add a (catalog_add b catalog) = catalog_add b (catalog_add a catalog).
Proof.
  destruct (decide (a = b)) as [->|Hab]; [done|].
  destruct (decide (a ∈ catalog)) as [Ha|Ha], (decide (b ∈ catalog)) as [Hb|Hb].
  - by rewrite (catalog_add_in b catalog), !(catalog_add_in a catalog),
      (catalog_add_in b catalog).
  - rewrite (catalog_add_in a catalog) by done.
    apply catalog_add_in, catalog_add_elem_of. by left.
  - rewrite (catalog_add_in b catalog) by done. symmetry.
    apply catalog_add_in, catalog_add_elem_of. by left.
  - rewrite (catalog_add_notin b catalog), (catalog_add_notin a catalog) by done.
    rewrite !catalog_add_notin.
    + apply Array_sort_of_perm.
      rewrite !Array_sort_perm, <- !(assoc_L (++)).
      apply Permutation_app_head, Permutation_swap.
    + rewrite Array_sort_elem_of, elem_of_app, list_elem_of_singleton.
      by intros [?|?].
    + rewrite Array_sort_elem_of, elem_of_app, list_elem_of_singleton.
      by intros [?|?].
Qed.

(** X2: the catalog, and every other cell, after two [addMedication] calls
    does not depend on their order. *)
Theorem addMedication_comm (a b : string) (st : Store UserDataBundle) :
  data (addMedication a (addMedication b st))
  = data (addMedication b (addMedication a st)).
Proof.
  rewrite !addMedication_catalog. cbn [healthData medications standardPattern].
  by rewrite catalog_add_comm.
Qed.

(** ** Deleting a medication: how the calls compose *)

Lemma without_id m (l : list string) : m ∉ l → without m l = l.
Proof.
  unfold without. induction l as [|x l IH]; intros Hm; [done|].
  apply not_elem_of_cons in Hm as [Hx Hm].
  rewrite filter_cons_True by (intros ->; by apply Hx). by rewrite IH.
Qed.

Lemma without_comm a b (l : list string) :
  without a (without b l) = without b (without a l).
Proof.
  unfold without. rewrite !list_filter_filter. apply list_filter_iff.
  intros x. tauto.
Qed.

Lemma without_without m (l : list string) :
  without m (without m l) = without m l.
Proof. apply without_id, not_elem_of_without. Qed.

Lemma pruned_bind a b meds :
  pruned b meds ≫= pruned a
  = if (0 <? length (without a (without b meds)))%nat
    then Some (without a (without b meds)) else None.
Proof.
  unfold pruned.
  destruct (0 <? length (without b meds))%nat eqn:Hlen; [done|].
  apply Nat.ltb_ge in Hlen. destruct (without b meds); [done|simpl in Hlen; lia].
Qed.

Lemma assigned_omap_twice {A B C} (f : B → option C) (g : A → option B)
    (o : gmap string A) :
  assigned (omap f (assigned (omap g o))) = assigned (omap (λ x, g x ≫= f) o).
Proof.
  unfold assigned. rewrite omap_delete, delete_delete_eq. f_equal.
  apply map_eq. intros k. rewrite !lookup_omap. by destruct (o !! k).
Qed.

Lemma withoutSlot_comm a b slot :
  withoutSlot a (withoutSlot b slot) = withoutSlot b (withoutSlot a slot).
Proof. unfold withoutSlot. simpl. by rewrite without_comm. Qed.

(** X3: deleting two medications gives the same cells in either order. *)
Theorem deleteMedication_comm (a b : string) (st : Store UserDataBundle) :
  data (deleteMedication a (deleteMedication b st))
  = data (deleteMedication b (deleteMedication a st)).
Proof.
  rewrite !deleteMedication_data. cbn [healthData medications standardPattern].
  f_equal.
  - rewrite !assigned_fmap_twice. f_equal. apply map_fmap_ext.
    intros day dayData _. unfold compose. rewrite !assigned_fmap_twice.
    f_equal. apply map_fmap_ext. intros time slot _. apply withoutSlot_comm.
  - apply without_comm.
  - rewrite !assigned_omap_twice. f_equal. apply map_eq. intros time.
    rewrite !lookup_omap.
    destruct (standardPattern (data st) !! time) as [meds|]; [|done].
    cbn [mbind option_bind]. rewrite !pruned_bind. by rewrite without_comm.
Qed.

(** X4: deleting a medication twice is deleting it once. *)
Theorem deleteMedication_idempotent (m : string) (st : Store UserDataBundle) :
  data (deleteMedication m (deleteMedication m st))
  = data (deleteMedication m st).
Proof.
  rewrite !deleteMedication_data. cbn [healthData medications standardPattern].
  f_equal.
  - rewrite assigned_fmap_twice. f_equal. apply map_fmap_ext.
    intros day dayData _. unfold compose. rewrite assigned_fmap_twice.
    f_equal. apply map_fmap_ext. intros time slot _.
    unfold compose, withoutSlot. simpl. by rewrite without_without.
  - apply without_without.
  - rewrite assigned_omap_twice. f_equal. apply map_eq. intros time.
    rewrite !lookup_omap.
    destruct (standardPattern (data st) !! time) as [meds|]; [|done].
    cbn [mbind option_bind]. rewrite pruned_bind, without_without. done.
Qed.

(** X5: on a state whose catalog is in sorted order, in which the name is
    written nowhere, whose pattern has no empty entry and in which nothing is
    stored under the key [__proto__], adding a medication and deleting it
    again restores every cell. *)
Theorem add_delete_roundtrip (m : string) (st : Store UserDataBundle) :
  Sorted str_le (medications (data st)) →
  ¬ occurs m (data st) →
  no_empty (standardPattern (data st)) →
  noProtoKey (data st) →
  data (deleteMedication m (addMedication m st)) = data st.
Proof.
  intros Hsorted Hm Hne Hplain.
  rewrite deleteMedication_data_plain
    by (by rewrite addMedication_catalog).
  rewrite addMedication_catalog.
  cbn [healthData medications standardPattern].
  destruct (data st) as [h cat sp] eqn:Hd. cbn [healthData medications standardPattern] in *.
  f_equal.
  - apply fmap_id_on. intros day dayData Hday. apply fmap_id_on.
    intros time slot Hslot. destruct slot as [v meds c]. unfold withoutSlot.
    simpl. f_equal. apply without_id.
    by apply (not_occurs_slot m (mkBundle h cat sp) day dayData time
                (Slot.mk v meds c)).
  - assert (Hcat : m ∉ cat) by by apply (not_occurs_catalog m (mkBundle h cat sp)).
    rewrite catalog_add_notin by done.
    apply (Sorted_unique str_le); [by apply without_sorted, Array_sort_sorted|done|].
    unfold without. rewrite Array_sort_perm, filter_app.
    fold (without m cat). rewrite without_id by done.
    rewrite filter_cons_False by (intros Hx; by apply Hx).
    by rewrite filter_nil, app_nil_r.
  - apply map_eq. intros time. rewrite lookup_omap.
    destruct (sp !! time) as [meds|] eqn:Htime; [|done]. cbn [mbind option_bind].
    unfold pruned. rewrite without_id
      by by apply (not_occurs_pattern m (mkBundle h cat sp) time meds).
    specialize (Hne time meds Htime). by destruct meds.
Qed.

Lemma add_delete_roundtrip_witness :
  Sorted str_le (medications (data exampleStore))
  ∧ ¬ occurs "Aspirin" (data exampleStore)
  ∧ no_empty (standardPattern (data exampleStore))
  ∧ noProtoKey (data exampleStore)
  ∧ data (deleteMedication "Aspirin" (addMedication "Aspirin" exampleStore))
    = data exampleStore.
Proof.
  assert (Hs : Sorted str_le (medications (data exampleStore))).
  { apply (bool_decide_unpack _). vm_compute. exact I. }
  assert (Hm : ¬ occurs "Aspirin" (data exampleStore)).
  { apply (bool_decide_unpack _). vm_compute. exact I. }
  assert (Hne : no_empty (standardPattern (data exampleStore))).
  { intros time meds Hlook Hnil. subst meds.
    apply elem_of_map_to_list in Hlook. vm_compute in Hlook.
    repeat (apply elem_of_cons in Hlook as [Hlook|Hlook]; [discriminate Hlook|]).
    by apply elem_of_nil in Hlook. }
  split; [exact Hs|]. split; [exact Hm|]. split; [exact Hne|].
  split; [exact noProtoKey_exampleStore|].
  exact (add_delete_roundtrip "Aspirin" exampleStore Hs Hm Hne
           noProtoKey_exampleStore).
Defined.

(** ** Renaming a medication: what changes and what does not *)

Lemma occurs_inv m d :
  occurs m d →
  m ∈ medications d
  ∨ (∃ day dayData time slot,
       healthData d !! day = Some dayData ∧ dayData !! time = Some slot
       ∧ m ∈ Slot.medications slot)
  ∨ (∃ time meds, standardPattern d !! time = Some meds ∧ m ∈ meds).
Proof.
  unfold occurs, all_names. rewrite !elem_of_app.
  intros [Hc|[Hh|Hp]]; [by left| |].
  - right; left.
    apply list_elem_of_join in Hh as (names & Hm & Hnames).
    apply list_elem_of_fmap in Hnames as (dayData & -> & HdayData).
    apply list_elem_of_fmap in HdayData as ([day dayData'] & -> & Hday).
    apply elem_of_map_to_list in Hday.
    apply list_elem_of_join in Hm as (meds & Hm & Hmeds).
    apply list_elem_of_fmap in Hmeds as (slot & -> & Hslot).
    apply list_elem_of_fmap in Hslot as ([time slot'] & -> & Hslot).
    apply elem_of_map_to_list in Hslot.
    by exists day, dayData', time, slot'.
  - right; right.
    apply list_elem_of_join in Hp as (meds & Hm & Hmeds).
    apply list_elem_of_fmap in Hmeds as ([time meds'] & -> & Hmeds).
    apply elem_of_map_to_list in Hmeds. by exists time, meds'.
Qed.

Lemma not_elem_of_rename a b (l : list string) :
  a ≠ b → a ∉ rename a b <$> l.
Proof.
  intros Hab Hin. apply list_elem_of_fmap in Hin as (x & Hx & _).
  unfold rename in Hx. by destruct (decide (x = a)); subst.
Qed.

(** X6: after [editMedication a b] with [a] and [b] different, the old name
    is written nowhere: not in the catalog, in no slot of any day, in no
    entry of the pattern; and the new name is in the catalog if the old one
    was. *)
Theorem editMedication_old_name_gone (a b : string) (st : Store UserDataBundle) :
  a ≠ b →
  ¬ occurs a (data (editMedication a b st))
  ∧ (a ∈ medications (data st) →
     b ∈ medications (data (editMedication a b st))).
Proof.
  intros Hab. rewrite editMedication_data. split.
  - intros Hocc. apply occurs_inv in Hocc.
    cbn [healthData medications standardPattern] in Hocc.
    destruct Hocc as [Hc|[(day & dayData & time & slot & Hday & Hslot & Hin)
                         |(time & meds & Htime & Hin)]].
    + rewrite Array_sort_elem_of in Hc. exact (not_elem_of_rename a b _ Hab Hc).
    + rewrite lookup_assigned in Hday.
      destruct (decide (day = "__proto__")); [done|].
      rewrite lookup_fmap in Hday.
      destruct (healthData (data st) !! day) as [dayData0|]; [|done].
      injection Hday as <-. rewrite lookup_assigned in Hslot.
      destruct (decide (time = "__proto__")); [done|].
      rewrite lookup_fmap in Hslot.
      destruct (dayData0 !! time) as [slot0|]; [|done].
      injection Hslot as <-. exact (not_elem_of_rename a b _ Hab Hin).
    + rewrite lookup_assigned in Htime.
      destruct (decide (time = "__proto__")); [done|].
      rewrite lookup_fmap in Htime.
      destruct (standardPattern (data st) !! time) as [meds0|]; [|done].
      injection Htime as <-. exact (not_elem_of_rename a b _ Hab Hin).
  - intros Ha. cbn [medications]. apply Array_sort_elem_of, list_elem_of_fmap.
    exists a. split; [|done]. unfold rename. by rewrite decide_True.
Qed.

Lemma editMedication_old_name_gone_witness :
  "Medicina A" ≠ "Paracetamol"
  ∧ ¬ occurs "Medicina A"
        (data (editMedication "Medicina A" "Paracetamol" exampleStore))
  ∧ "Paracetamol"
    ∈ medications (data (editMedication "Medicina A" "Paracetamol" exampleStore)).
Proof.
  assert (Hab : "Medicina A" ≠ "Paracetamol") by discriminate.
  destruct (editMedication_old_name_gone "Medicina A" "Paracetamol"
              exampleStore Hab) as [Hgone Hnew].
  split; [exact Hab|]. split; [exact Hgone|]. apply Hnew.
  apply (bool_decide_unpack _). vm_compute. exact I.
Defined.

Lemma slotHasData_renameSlot a b slot :
  slotHasData (renameSlot a b slot) = slotHasData slot.
Proof. unfold slotHasData, renameSlot. simpl. by rewrite length_fmap. Qed.

Lemma hasData_fmap (f : Slot.t → Slot.t) (h : HealthData) day :
  (∀ slot, slotHasData (f slot) = slotHasData slot) →
  hasData (fmap (M:=gmap string) (fmap (M:=gmap string) f) h) day
  = hasData h day.
Proof.
  intros Hf. unfold hasData. rewrite lookup_fmap.
  destruct (h !! day) as [dayData|]; [|done]. simpl.
  rewrite map_to_list_fmap. generalize (map_to_list dayData). intros l.
  induction l as [|[time slot] l IH]; [done|].
  rewrite !fmap_cons. cbn [existsb]. rewrite IH. simpl. by rewrite Hf.
Qed.

(** X7: in a state with nothing stored under the key [__proto__],
    renaming a medication changes no calendar marker, creates and deletes no
    day and no pattern entry, and keeps the number of entries of the
    catalog. *)
Theorem editMedication_keeps_shape (a b : string) (st : Store UserDataBundle) :
  noProtoKey (data st) →
  (∀ day, hasData (healthData (data (editMedication a b st))) day
          = hasData (healthData (data st)) day)
  ∧ dom (healthData (data (editMedication a b st))) = dom (healthData (data st))
  ∧ dom (standardPattern (data (editMedication a b st)))
    = dom (standardPattern (data st))
  ∧ length (medications (data (editMedication a b st)))
    = length (medications (data st)).
Proof.
  intros Hplain. rewrite editMedication_data_plain by done.
  cbn [healthData medications standardPattern].
  split_and!.
  - intros day. apply hasData_fmap, slotHasData_renameSlot.
  - apply dom_fmap_L.
  - apply dom_fmap_L.
  - by rewrite Array_sort_perm, length_fmap.
Qed.

Lemma editMedication_keeps_shape_witness :
  noProtoKey (data exampleStore)
  ∧ hasData (healthData (data (editMedication "Medicina A" "Paracetamol"
                                 exampleStore))) "2024-06-01"
    = hasData (healthData (data exampleStore)) "2024-06-01".
Proof.
  split; [exact noProtoKey_exampleStore|].
  destruct (editMedication_keeps_shape "Medicina A" "Paracetamol" exampleStore
              noProtoKey_exampleStore) as (Hmarks & _).
  exact (Hmarks "2024-06-01").
Defined.

(** ** What is stored under [__proto__] *)

Lemma dom_assigned {T} (o : gmap string T) :
  dom (assigned o) = dom o ∖ {[ "__proto__" ]}.
Proof. unfold assigned. apply dom_delete_L. Qed.

(** X30: [editMedication] and [deleteMedication] write back every day
    record, every slot of a record and every entry of the pattern that they
    keep, except the one stored under the key [__proto__]: after either of
    them nothing is stored under that key, and the other keys are those that
    were there ([deleteMedication] drops from the pattern the entries it
    empties). *)
Theorem proto_key_not_written_back (a b m : string) (st : Store UserDataBundle) :
  noProtoKey (data (editMedication a b st))
  ∧ noProtoKey (data (deleteMedication m st))
  ∧ dom (healthData (data (editMedication a b st)))
    = dom (healthData (data st)) ∖ {[ "__proto__" ]}
  ∧ dom (healthData (data (deleteMedication m st)))
    = dom (healthData (data st)) ∖ {[ "__proto__" ]}
  ∧ dom (standardPattern (data (editMedication a b st)))
    = dom (standardPattern (data st)) ∖ {[ "__proto__" ]}
  ∧ (∀ day dayData dayData',
       healthData (data st) !! day = Some dayData →
       healthData (data (editMedication a b st)) !! day = Some dayData' →
       dom dayData' = dom dayData ∖ {[ "__proto__" ]})
  ∧ (∀ day dayData dayData',
       healthData (data st) !! day = Some dayData →
       healthData (data (deleteMedication m st)) !! day = Some dayData' →
       dom dayData' = dom dayData ∖ {[ "__proto__" ]}).
Proof.
  split_and!.
  - apply noProtoKey_editMedication.
  - apply noProtoKey_deleteMedication.
  - rewrite editMedication_data. cbn [healthData].
    by rewrite dom_assigned, dom_fmap_L.
  - rewrite deleteMedication_data. cbn [healthData].
    by rewrite dom_assigned, dom_fmap_L.
  - rewrite editMedication_data. cbn [standardPattern].
    by rewrite dom_assigned, dom_fmap_L.
  - rewrite editMedication_data. cbn [healthData].
    intros day dayData dayData' Hday. rewrite lookup_assigned.
    destruct (decide (day = "__proto__")); [done|].
    rewrite lookup_fmap, Hday. intros [= <-].
    by rewrite dom_assigned, dom_fmap_L.
  - rewrite deleteMedication_data. cbn [healthData].
    intros day dayData dayData' Hday. rewrite lookup_assigned.
    destruct (decide (day = "__proto__")); [done|].
    rewrite lookup_fmap, Hday. intros [= <-].
    by rewrite dom_assigned, dom_fmap_L.
Qed.

(** ** Recording a day: what it leaves alone *)

Lemma updateHealthData_data d r st :
  data (updateHealthData d r st)
  = {| healthData := <[d := r]> (healthData (data st));
       medications := medications (data st);
       standardPattern := standardPattern (data st) |}.
Proof. unfold updateHealthData. by rewrite data_saveDataToJsonbin. Qed.

(** X9: [updateHealthData d r] changes no other day, nor the catalog, nor
    the pattern; and of two records written for the same day the second is
    the one kept. *)
Theorem updateHealthData_frame (d : string) (r1 r2 : DailyData)
    (st : Store UserDataBundle) :
  (∀ d', d' ≠ d →
     healthData (data (updateHealthData d r1 st)) !! d'
     = healthData (data st) !! d')
  ∧ medications (data (updateHealthData d r1 st)) = medications (data st)
  ∧ standardPattern (data (updateHealthData d r1 st))
    = standardPattern (data st)
  ∧ data (updateHealthData d r2 (updateHealthData d r1 st))
    = data (updateHealthData d r2 st).
Proof.
  rewrite !updateHealthData_data. cbn [healthData medications standardPattern].
  split_and!; try done.
  - intros d' Hd. by rewrite lookup_insert_ne.
  - by rewrite insert_insert_eq.
Qed.

(** * Further properties of the save timer *)

(** While the user is not authenticated background events send nothing and
    change no cell. *)
Lemma unauthenticated_sends_nothing env : ∀ st st',
  isAuthenticated st = false →
  Forall (λ e, background e = true) env →
  run env st = Some st' →
  requests st' = requests st ∧ data st' = data st
  ∧ isAuthenticated st' = false.
Proof.
  induction env as [|e env IH]; intros st st' Hauth Hbg Hrun; simpl in Hrun.
  { by injection Hrun as <-. }
  apply Forall_cons in Hbg as [He Hbg].
  destruct (step e st) as [st1|] eqn:Hstep; [|done].
  destruct (step_background _ _ _ He Hstep)
    as [[_ ->]|(_ & h & _ & ->)].
  - exact (IH (settle (tick (time_of e) st)) st' Hauth Hbg Hrun).
  - unfold saveCallback in Hrun. cbn [expire tick isAuthenticated] in Hrun.
    rewrite Hauth in Hrun. cbn [negb] in Hrun.
    exact (IH (expire h (tick (time_of e) st)) st' Hauth Hbg Hrun).
Qed.

(** X10: [logout] puts the defaults back into the cells and does not cancel
    a pending save timer; when that timer fires afterwards nothing is sent:
    whatever timer and network events follow the logout, no PUT goes out. *)
Theorem logout_stops_saves (st st' : Store UserDataBundle) (env : list event) :
  Forall (λ e, background e = true) env →
  run env (logout st) = Some st' →
  requests st' = requests st
  ∧ data st' = defaultUserDataBundle
  ∧ active (window (logout st)) = active (window st).
Proof.
  intros Hbg Hrun.
  destruct (unauthenticated_sends_nothing env (logout st) st' eq_refl Hbg Hrun)
    as (Hreq & Hdata & _).
  by rewrite Hreq, Hdata.
Qed.

Lemma logout_stops_saves_witness :
  active (window (logout (addMedication "Aspirin" readyStore)))
    = [(1%positive, 2000%Z)]
  ∧ ∃ st',
      run [Fires 2000 1%positive; Settles 2100]
          (logout (addMedication "Aspirin" readyStore)) = Some st'
      ∧ requests st' = []
      ∧ data st' = defaultUserDataBundle.
Proof.
  split; [vm_compute; reflexivity|].
  destruct (run [Fires 2000 1%positive; Settles 2100]
              (logout (addMedication "Aspirin" readyStore)))
    as [st'|] eqn:Hrun; [|vm_compute in Hrun; discriminate Hrun].
  exists st'. split; [reflexivity|].
  assert (Hbg : Forall (λ e, background e = true)
                  [Fires 2000 1%positive; Settles 2100]).
  { repeat constructor. }
  destruct (logout_stops_saves (addMedication "Aspirin" readyStore) st' _
              Hbg Hrun) as (Hreq & Hdata & _).
  split; [exact Hreq | exact Hdata].
Defined.

Lemma call_single_timer m st :
  timers_ok st → (length (active (window st)) ≤ 1)%nat →
  (length (active (window (call m st))) ≤ 1)%nat.
Proof.
  intros Hok Hlen. destruct (schedules m st) eqn:Hs.
  - destruct (call_timer m st Hok Hs) as (h & -> & _). done.
  - by rewrite call_idle.
Qed.

Lemma step_single_timer e st st1 :
  timers_ok st → (length (active (window st)) ≤ 1)%nat →
  step e st = Some st1 →
  (length (active (window st1)) ≤ 1)%nat.
Proof.
  intros Hok Hlen. unfold step.
  destruct (clock (window st) <=? time_of e)%Z; [|done].
  assert (Hok' : timers_ok (tick (time_of e) st)) by exact Hok.
  destruct e; cbn [time_of] in *.
  - intros [= <-]. by apply call_single_timer.
  - intros [= <-]. unfold login. by destruct (decide _).
  - by intros [= <-].
  - by intros [= <-].
  - destruct (due _ _ _); [|done]. intros [= <-].
    assert (Hexp : (length (active (window (expire h (tick t st)))) ≤ 1)%nat).
    { simpl. etrans; [apply length_filter|done]. }
    unfold saveCallback. by destruct (negb _).
  - by intros [= <-].
Qed.

Lemma run_single_timer trace : ∀ st st',
  timers_ok st → (length (active (window st)) ≤ 1)%nat →
  run trace st = Some st' →
  timers_ok st' ∧ (length (active (window st')) ≤ 1)%nat.
Proof.
  induction trace as [|e trace IH]; intros st st' Hok Hlen; simpl.
  { by intros [= <-]. }
  destruct (step e st) as [st1|] eqn:Hstep; [|done].
  apply IH.
  - by apply (step_timers_ok e st).
  - by apply (step_single_timer e st).
Qed.

(** X11: whatever the user and the browser do, at most one save timer is
    pending at any time, and it is the one whose handle [saveDataTimeout]
    holds. *)
Theorem single_save_timer (st : Store UserDataBundle) :
  reachable st →
  (length (active (window st)) ≤ 1)%nat
  ∧ ∀ h d, (h, d) ∈ active (window st) → saveDataTimeout st = Some h.
Proof.
  intros [trace Hrun].
  assert (Hinit : timers_ok initialStore).
  { intros h d Hin. by apply elem_of_nil in Hin. }
  destruct (run_single_timer trace initialStore st Hinit (Nat.le_0_l 1) Hrun)
    as [Hok Hlen].
  split; [exact Hlen | exact Hok].
Qed.

Lemma single_save_timer_witness :
  reachable (deleteMedication "Medicina B" (tick 500 exampleStore))
  ∧ active (window (deleteMedication "Medicina B" (tick 500 exampleStore)))
    = [(3%positive, 2500%Z)].
Proof.
  assert (Hreach : reachable (deleteMedication "Medicina B" (tick 500 exampleStore))).
  { exists [Login 0 APP_PASSWORD;
            Call 0 (UpdateHealthData "2024-06-01" exampleDay);
            Call 0 (UpdateStandardPattern
                      {[ "08:00" := ["Medicina A"]; "21:00" := ["Medicina B"] ]});
            Call 500 (DeleteMedication "Medicina B")].
    reflexivity. }
  split; [exact Hreach|].
  destruct (single_save_timer _ Hreach) as [Hlen Hsaved].
  destruct (active (window (deleteMedication "Medicina B" (tick 500 exampleStore))))
    as [|[h d] rest] eqn:Hact; [vm_compute in Hact; discriminate Hact|].
  destruct rest; [|simpl in Hlen; lia].
  vm_compute in Hact. symmetry. exact Hact.
Defined.

(** X12: from any state of the program, timer and network events alone send
    at most one PUT, however many of them there are. *)
Theorem background_sends_at_most_one (st st' : Store UserDataBundle)
    (env : list event) :
  reachable st →
  Forall (λ e, background e = true) env →
  run env st = Some st' →
  ∃ sent, requests st' = requests st ++ sent ∧ (length sent ≤ 1)%nat.
Proof.
  intros [trace Htrace] Hbg Hrun.
  assert (Hinit : timers_ok initialStore).
  { intros h d Hin. by apply elem_of_nil in Hin. }
  destruct (run_single_timer trace initialStore st Hinit (Nat.le_0_l 1) Htrace)
    as [Hok Hlen].
  destruct (active (window st)) as [|[h d] rest] eqn:Hact.
  - destruct (idle_sends_nothing env st st' Hbg Hrun Hact) as [Hreq _].
    exists []. split; [by rewrite app_nil_r | simpl; lia].
  - destruct rest; [|simpl in Hlen; lia].
    destruct (isAuthenticated st) eqn:Hauth.
    + destruct (pending_sends_once env st st' h d Hbg Hrun Hact Hauth)
        as [(_ & Hreq & _)|(_ & t & _ & Hreq & _)].
      * exists []. split; [by rewrite app_nil_r | simpl; lia].
      * exists [(t, data st)]. split; [done | simpl; lia].
    + destruct (unauthenticated_sends_nothing env st st' Hauth Hbg Hrun)
        as (Hreq & _).
      exists []. split; [by rewrite app_nil_r | simpl; lia].
Qed.

Lemma background_sends_at_most_one_witness :
  ∃ st' sent,
    run [Fires 2600 3%positive; Settles 2700; Settles 2800]
        (deleteMedication "Medicina B" (tick 500 exampleStore)) = Some st'
    ∧ requests st'
      = requests (deleteMedication "Medicina B" (tick 500 exampleStore)) ++ sent
    ∧ (length sent ≤ 1)%nat.
Proof.
  destruct (run [Fires 2600 3%positive; Settles 2700; Settles 2800]
              (deleteMedication "Medicina B" (tick 500 exampleStore)))
    as [st'|] eqn:Hrun; [|vm_compute in Hrun; discriminate Hrun].
  assert (Hreach : reachable (deleteMedication "Medicina B" (tick 500 exampleStore))).
  { exists [Login 0 APP_PASSWORD;
            Call 0 (UpdateHealthData "2024-06-01" exampleDay);
            Call 0 (UpdateStandardPattern
                      {[ "08:00" := ["Medicina A"]; "21:00" := ["Medicina B"] ]});
            Call 500 (DeleteMedication "Medicina B")].
    reflexivity. }
  assert (Hbg : Forall (λ e, background e = true)
                  [Fires 2600 3%positive; Settles 2700; Settles 2800]).
  { repeat constructor. }
  destruct (background_sends_at_most_one _ st' _ Hreach Hbg Hrun)
    as (sent & Hreq & Hlen).
  exists st', sent. split; [reflexivity|]. split; [exact Hreq | exact Hlen].
Defined.

(** * Further properties of the remote client *)

(** X13: [saveDataToBin] succeeds exactly on a response with a success
    status; on any other status, 404 included, and on a transport failure it
    throws, after logging the very error it throws. *)
Theorem saveDataToBin_propagates (outcome : FetchOutcome) :
  (snd (saveDataToBin outcome) = Return ()
   ↔ ∃ response, outcome = Responded response ∧ ok response = true)
  ∧ (∀ response, outcome = Responded response → ok response = false →
       snd (saveDataToBin outcome)
       = Throw ("Failed to save: " +:+ statusText response))
  ∧ (∀ message, snd (saveDataToBin outcome) = Throw message →
       fst (saveDataToBin outcome) = ["Error saving to jsonbin.io: " +:+ message]).
Proof.
  unfold saveDataToBin, saveDataToBin_try. split_and!.
  - destruct outcome as [message|response]; simpl.
    + split; [done|]. by intros (? & ? & _).
    + destruct (ok response) eqn:Hok; simpl.
      * split; [|done]. intros _. by exists response.
      * split; [done|]. intros (r & [= <-] & Hr). congruence.
  - intros response -> Hok. by rewrite Hok.
  - intros message. destruct outcome as [m|response]; simpl.
    + by intros [= <-].
    + destruct (ok response); simpl; [done|]. by intros [= <-].
Qed.

(** X14: the two copies of the loader, [loadDataFromBin] of src/index.tsx
    and [loadData] of the service module, return the same bundle on every
    outcome of the request; they differ only in what they log. *)
Theorem loadData_agrees {D} (JSON_parse : string → Exn D)
    (outcome : FetchOutcome) (defaultData : D) :
  snd (loadData JSON_parse outcome defaultData)
  = snd (loadDataFromBin JSON_parse outcome defaultData).
Proof.
  unfold loadData, loadData_try, loadDataFromBin, loadDataFromBin_try.
  destruct outcome as [message|response]; [done|].
  destruct (ok response); cbn [negb].
  - destruct (text response) as [responseText|message]; [|done].
    destruct (String.eqb responseText ""); cbn [negb]; [done|].
    by destruct (JSON_parse responseText).
  - by destruct (status response =? 404)%Z.
Qed.

(** X15: on a success status the loader returns the document that the body
    holds; an empty body and a body that is not JSON give the default. *)
Theorem loadDataFromBin_body {D} (JSON_parse : string → Exn D)
    (defaultData : D) (response : Response) (responseText : string) :
  ok response = true →
  text response = Return responseText →
  (responseText = "" →
     snd (loadDataFromBin JSON_parse (Responded response) defaultData)
     = Return defaultData)
  ∧ (∀ d, responseText ≠ "" → JSON_parse responseText = Return d →
       loadDataFromBin JSON_parse (Responded response) defaultData
       = ([], Return d))
  ∧ (∀ message, responseText ≠ "" → JSON_parse responseText = Throw message →
       loadDataFromBin JSON_parse (Responded response) defaultData
       = (["Error loading from jsonbin.io: " +:+ message], Return defaultData)).
Proof.
  intros Hok Htext. unfold loadDataFromBin, loadDataFromBin_try.
  rewrite Hok, Htext. cbn [negb]. split_and!.
  - by intros ->.
  - intros d Hne Hparse. apply String.eqb_neq in Hne.
    by rewrite Hne, Hparse.
  - intros message Hne Hparse. apply String.eqb_neq in Hne.
    by rewrite Hne, Hparse.
Qed.

Lemma loadDataFromBin_body_witness :
  loadDataFromBin (λ _ : string, Return unsortedBundle)
    (Responded (mkResponse 200 "OK" (Return "{...}"))) defaultUserDataBundle
  = ([], Return unsortedBundle)
  ∧ snd (loadDataFromBin (λ _ : string, Return unsortedBundle)
           (Responded (mkResponse 200 "OK" (Return ""))) defaultUserDataBundle)
    = Return defaultUserDataBundle.
Proof.
  split.
  - destruct (loadDataFromBin_body (λ _ : string, Return unsortedBundle)
                defaultUserDataBundle (mkResponse 200 "OK" (Return "{...}"))
                "{...}" eq_refl eq_refl) as (_ & Hdoc & _).
    apply Hdoc; [discriminate|reflexivity].
  - reflexivity.
Defined.

(** * Further properties of the day grid *)

Lemma foldl_insert_lookup {A} (v : A) (l : list string) :
  ∀ (acc : gmap string A) t,
    foldl (λ (acc : gmap string A) k, <[k := v]> acc) acc l !! t
    = if includes l t then Some v else acc !! t.
Proof.
  unfold includes.
  induction l as [|k l IH]; intros acc t; cbn [foldl].
  { rewrite bool_decide_eq_false_2; [done|]. apply not_elem_of_nil. }
  rewrite IH. destruct (decide (t ∈ l)) as [Hl|Hl].
  - rewrite !bool_decide_eq_true_2; [done|by right|done].
  - rewrite (bool_decide_eq_false_2 (t ∈ l)) by done.
    destruct (decide (t = k)) as [->|Hk].
    + rewrite lookup_insert_eq. rewrite bool_decide_eq_true_2; [done|]. by left.
    + rewrite lookup_insert_ne by done. rewrite bool_decide_eq_false_2; [done|].
      by intros [?|?]%elem_of_cons.
Qed.

Lemma includes_true l x : includes l x = true ↔ x ∈ l.
Proof. unfold includes. apply bool_decide_eq_true. Qed.

Lemma includes_false l x : includes l x = false ↔ x ∉ l.
Proof. unfold includes. apply bool_decide_eq_false. Qed.

Lemma createInitialData_lookup t :
  createInitialData !! t
  = if includes TIME_SLOTS t then Some defaultTimeSlotData else None.
Proof.
  unfold createInitialData.
  rewrite (foldl_insert_lookup
             (Slot.mk (Slot.value defaultTimeSlotData) []
                      (Slot.comments defaultTimeSlotData)) TIME_SLOTS ∅ t).
  rewrite lookup_empty. reflexivity.
Qed.

(** No label of the grid is a member of [Object.prototype]. *)
Lemma TIME_SLOTS_not_inherited t : t ∈ TIME_SLOTS → inherited t = false.
Proof.
  rewrite TIME_SLOTS_value. intros Ht.
  repeat (apply elem_of_cons in Ht as [->|Ht]; [vm_compute; reflexivity|]).
  by apply elem_of_nil in Ht.
Qed.

(** A property that the grid has is overwritten by the recorded slot, if
    there is one, and kept otherwise. *)
Lemma loadDay_fold_own (l : list (string * Slot.t)) :
  ∀ (state : DailyData * option Slot.t) j,
    NoDup l.*1 →
    is_Some (state.1 !! j) →
    (foldl loadDay_step state l).1 !! j
    = match (list_to_map l : gmap string Slot.t) !! j with
      | Some slot => Some slot
      | None => state.1 !! j
      end.
Proof.
  induction l as [|[time slot] l IH]; intros [fullData proto] j Hnd Hj.
  { cbn [foldl list_to_map foldr fst]. by rewrite lookup_empty. }
  rewrite fmap_cons in Hnd. apply NoDup_cons in Hnd as [Htime Hnd].
  cbn [foldl]. cbn [list_to_map foldr uncurry fst] in *.
  assert (Hstep : ∃ state',
            loadDay_step (fullData, proto) (time, slot) = state'
            ∧ state'.1 !! j = (if decide (j = time) then Some slot
                               else fullData !! j)).
  { eexists. split; [reflexivity|]. unfold loadDay_step.
    destruct (fullData !! time) as [old|] eqn:Hold.
    - cbn [fst]. destruct (decide (j = time)) as [->|Hne].
      + by rewrite lookup_insert_eq.
      + by rewrite lookup_insert_ne.
    - assert (Hne : j ≠ time).
      { intros ->. rewrite Hold in Hj. by destruct Hj. }
      destruct (decide (j = time)) as [?|_]; [done|].
      destruct (decide (time = "__proto__")); [done|].
      destruct (inherited time || _); cbn [fst]; [|done].
      by rewrite lookup_insert_ne. }
  destruct Hstep as (state' & -> & Hlook).
  rewrite IH; [|done|].
  - rewrite Hlook. destruct (decide (j = time)) as [->|Hne].
    + rewrite lookup_insert_eq.
      by rewrite (not_elem_of_list_to_map_1 (M:=gmap string) l time).
    + rewrite lookup_insert_ne by done. done.
  - rewrite Hlook. destruct (decide (j = time)); [by eexists|done].
Qed.

(** As long as no recorded key is a member of [Object.prototype], the grid
    gets no new property. *)
Lemma loadDay_fold_absent (l : list (string * Slot.t)) :
  ∀ (fullData : DailyData) j,
    (∀ entry, entry ∈ l → inherited entry.1 = false) →
    fullData !! j = None →
    (foldl loadDay_step (fullData, None) l).1 !! j = None.
Proof.
  induction l as [|[time slot] l IH]; intros fullData j Hplain Hj; [done|].
  cbn [foldl]. unfold loadDay_step at 2.
  assert (Htime : inherited time = false).
  { apply (Hplain (time, slot)). by left. }
  assert (Hrest : ∀ entry, entry ∈ l → inherited entry.1 = false).
  { intros entry Hin. apply Hplain. by right. }
  destruct (fullData !! time) as [old|] eqn:Hold.
  - apply IH; [done|]. rewrite lookup_insert_ne; [done|].
    intros ->. by rewrite Hj in Hold.
  - destruct (decide (time = "__proto__")) as [->|Hproto]; [done|].
    rewrite Htime. cbn [orb]. by apply IH.
Qed.

(** A slot recorded under a member of [Object.prototype] other than
    [__proto__] is copied into the grid. *)
Lemma loadDay_fold_inherited (l : list (string * Slot.t)) time slot :
  inherited time = true → time ≠ "__proto__" →
  ∀ state : DailyData * option Slot.t,
    NoDup l.*1 →
    (time, slot) ∈ l →
    state.1 !! time = None →
    (foldl loadDay_step state l).1 !! time = Some slot.
Proof.
  intros Hin Hproto.
  induction l as [|[time' slot'] l IH]; intros [fullData proto] Hnd Hl Htime.
  { by apply elem_of_nil in Hl. }
  rewrite fmap_cons in Hnd. apply NoDup_cons in Hnd as [Hfresh Hnd].
  cbn [foldl fst] in *. apply elem_of_cons in Hl as [[= <- <-]|Hl].
  - unfold loadDay_step at 2. rewrite Htime.
    rewrite decide_False by done. rewrite Hin. cbn [orb].
    rewrite loadDay_fold_own; [|done|].
    + rewrite (not_elem_of_list_to_map_1 (M:=gmap string) l time) by done.
      apply lookup_insert_eq.
    + cbn [fst]. rewrite lookup_insert_eq. by eexists.
  - assert (Hne : time ≠ time').
    { intros <-. apply Hfresh. apply list_elem_of_fmap. by exists (time, slot). }
    apply IH; [done|done|]. unfold loadDay_step.
    destruct (fullData !! time') as [old|].
    + cbn [fst]. by rewrite lookup_insert_ne.
    + destruct (decide (time' = "__proto__")); [done|].
      destruct (inherited time' || _); cbn [fst]; [|done].
      by rewrite lookup_insert_ne.
Qed.

(** The rows of the grid shown for a day. *)
Lemma loadDay_row (h : HealthData) d t :
  t ∈ TIME_SLOTS →
  loadDay h d !! t
  = Some (default defaultTimeSlotData (h !! d ≫= (λ day, day !! t))).
Proof.
  intros Ht. apply includes_true in Ht.
  unfold loadDay. destruct (h !! d) as [existingData|]; simpl.
  - rewrite loadDay_fold_own.
    + rewrite list_to_map_to_list. cbn [fst].
      rewrite createInitialData_lookup, Ht. by destruct (existingData !! t).
    + apply NoDup_fst_map_to_list.
    + cbn [fst]. rewrite createInitialData_lookup, Ht. by eexists.
  - by rewrite createInitialData_lookup, Ht.
Qed.

Lemma loadDay_no_other_row (h : HealthData) d t :
  (∀ dayData, h !! d = Some dayData → plainKeys dayData) →
  t ∉ TIME_SLOTS → loadDay h d !! t = None.
Proof.
  intros Hplain Ht. apply includes_false in Ht.
  unfold loadDay. destruct (h !! d) as [existingData|] eqn:Hd.
  - apply loadDay_fold_absent.
    + intros [time slot] Hin. apply elem_of_map_to_list in Hin.
      apply (Hplain existingData eq_refl). by eexists.
    + by rewrite createInitialData_lookup, Ht.
  - by rewrite createInitialData_lookup, Ht.
Qed.

Lemma grid_complete_lookup (g : DailyData) :
  grid_complete g ↔ ∀ t, is_Some (g !! t) ↔ t ∈ TIME_SLOTS.
Proof.
  unfold grid_complete. rewrite set_eq. apply forall_proper. intros t.
  by rewrite elem_of_dom, elem_of_list_to_set.
Qed.

Lemma createInitialData_complete : grid_complete createInitialData.
Proof.
  apply grid_complete_lookup. intros t. rewrite createInitialData_lookup.
  destruct (includes TIME_SLOTS t) eqn:Ht.
  - apply includes_true in Ht. split; [done|]. by eexists.
  - apply includes_false in Ht. split; [by intros [? ?]|done].
Qed.

Lemma grid_complete_plainKeys (g : DailyData) : grid_complete g → plainKeys g.
Proof.
  intros Hg name Hname. apply TIME_SLOTS_not_inherited.
  by apply (proj1 (grid_complete_lookup g) Hg).
Qed.

(** X16: the grid shown for a day has a row for every label of
    [TIME_SLOTS]: a recorded slot under such a label is shown as recorded,
    and a label without a recorded slot shows the empty slot. When no slot of
    the record is stored under a member of [Object.prototype], the grid has
    no other property, and a slot recorded under any other key is not shown.
    A slot recorded under a member of [Object.prototype] other than
    [__proto__] is copied into the grid. *)
Theorem loadDay_grid (h : HealthData) (d : string) :
  (∀ dayData time slot,
     time ∈ TIME_SLOTS → h !! d = Some dayData → dayData !! time = Some slot →
     loadDay h d !! time = Some slot)
  ∧ (∀ time,
       time ∈ TIME_SLOTS → h !! d ≫= (λ day, day !! time) = None →
       loadDay h d !! time = Some defaultTimeSlotData)
  ∧ ((∀ dayData, h !! d = Some dayData → plainKeys dayData) →
     grid_complete (loadDay h d)
     ∧ ∀ time, time ∉ TIME_SLOTS → loadDay h d !! time = None)
  ∧ (∀ dayData time slot,
       h !! d = Some dayData → dayData !! time = Some slot →
       inherited time = true → time ≠ "__proto__" →
       loadDay h d !! time = Some slot).
Proof.
  split_and!.
  - intros dayData time slot Ht Hd Hslot.
    rewrite loadDay_row, Hd by done. simpl. by rewrite Hslot.
  - intros time Ht Hnone. by rewrite loadDay_row, Hnone.
  - intros Hplain. split; [|intros time; by apply loadDay_no_other_row].
    apply grid_complete_lookup. intros t.
    destruct (decide (t ∈ dom (createInitialData))) as [Ht|Ht].
    + apply elem_of_dom, (proj1 (grid_complete_lookup _)
                            createInitialData_complete) in Ht.
      rewrite loadDay_row by done. split; [done|]. by eexists.
    + assert (Hno : t ∉ TIME_SLOTS).
      { intros Hin. apply Ht, elem_of_dom.
        by apply (proj1 (grid_complete_lookup _) createInitialData_complete). }
      rewrite loadDay_no_other_row by done. split; [by intros [? ?]|done].
  - intros dayData time slot Hd Hslot Hin Hproto. unfold loadDay. rewrite Hd.
    apply loadDay_fold_inherited; try done.
    + apply NoDup_fst_map_to_list.
    + by apply elem_of_map_to_list.
    + cbn [fst]. rewrite createInitialData_lookup.
      destruct (includes TIME_SLOTS time) eqn:Ht; [|done].
      apply includes_true, TIME_SLOTS_not_inherited in Ht. congruence.
Qed.

(** X17: every edit of the form keeps the grid complete: on a complete grid
    [handleValueChange] and [handleMedicationChange] at a label of
    [TIME_SLOTS] find their slot, change that slot only, in the one field
    they are given, and leave the grid complete. [applyStandardPattern]
    returns a complete grid when no key of the pattern is a member of
    [Object.prototype], and throws when one is. *)
Theorem grid_stays_complete (g : DailyData) (time : string) (f : slotField)
    (selectedMeds : list string) (sp : StandardPattern) :
  grid_complete g →
  time ∈ TIME_SLOTS →
  (∃ slot g',
     g !! time = Some slot
     ∧ handleValueChange time f g = Some g'
     ∧ grid_complete g'
     ∧ g' !! time = Some (setField f slot)
     ∧ Slot.medications (setField f slot) = Slot.medications slot
     ∧ ∀ t, t ≠ time → g' !! t = g !! t)
  ∧ (∃ slot g',
       g !! time = Some slot
       ∧ handleMedicationChange time selectedMeds g = Some g'
       ∧ grid_complete g'
       ∧ g' !! time
         = Some (Slot.mk (Slot.value slot) selectedMeds (Slot.comments slot))
       ∧ ∀ t, t ≠ time → g' !! t = g !! t)
  ∧ (plainKeys sp →
     ∃ g', applyStandardPattern sp g = Return g' ∧ grid_complete g')
  ∧ (∀ g', applyStandardPattern sp g = Return g' → grid_complete g')
  ∧ (∀ t, is_Some (sp !! t) → inherited t = true →
       applyStandardPattern sp g = Throw "TypeError").
Proof.
  intros Hg Ht.
  assert (Hslot : is_Some (g !! time)).
  { by apply (proj1 (grid_complete_lookup g) Hg). }
  destruct Hslot as [slot Hslot].
  assert (Hins : ∀ slot', grid_complete (<[time := slot']> g)).
  { intros slot'. unfold grid_complete.
    rewrite dom_insert_lookup_L; [exact Hg|by eexists]. }
  assert (Hmerged : grid_complete (merged sp g)).
  { unfold grid_complete. by rewrite merged_dom. }
  split_and!.
  - exists slot, (<[time := setField f slot]> g). unfold handleValueChange.
    rewrite Hslot. split_and!.
    + reflexivity.
    + reflexivity.
    + apply Hins.
    + apply lookup_insert_eq.
    + by destruct f.
    + intros t Hne. by rewrite lookup_insert_ne.
  - exists slot, (<[time := Slot.mk (Slot.value slot) selectedMeds
                                    (Slot.comments slot)]> g).
    unfold handleMedicationChange. rewrite Hslot. split_and!.
    + reflexivity.
    + reflexivity.
    + apply Hins.
    + apply lookup_insert_eq.
    + intros t Hne. by rewrite lookup_insert_ne.
  - intros Hplain. exists (merged sp g). split; [|done].
    apply applyStandardPattern_Return. intros t Hsome. unfold stray.
    destruct (g !! t); [done|]. by apply Hplain.
  - intros g'. rewrite applyStandardPattern_result.
    destruct (existsb _ _); [done|]. by intros [= <-].
  - intros t Hsome Hin. apply (applyStandardPattern_Throw sp g t Hsome).
    unfold stray. destruct (g !! t) as [slot'|] eqn:Hgt; [|done].
    assert (Hlabel : t ∈ TIME_SLOTS).
    { apply (proj1 (grid_complete_lookup g) Hg). by eexists. }
    apply TIME_SLOTS_not_inherited in Hlabel. congruence.
Qed.

Lemma grid_stays_complete_witness :
  grid_complete createInitialData
  ∧ "08:30" ∈ TIME_SLOTS
  ∧ ∃ g', handleValueChange "08:30" (FieldValue (Some 4%Z)) createInitialData
          = Some g'
          ∧ grid_complete g'
          ∧ g' !! "08:30" = Some (Slot.mk (Some 4%Z) [] "").
Proof.
  assert (Hg : grid_complete createInitialData).
  { exact createInitialData_complete. }
  assert (Ht : "08:30" ∈ TIME_SLOTS).
  { apply includes_true. vm_compute. reflexivity. }
  split; [exact Hg|]. split; [exact Ht|].
  destruct (grid_stays_complete createInitialData "08:30"
              (FieldValue (Some 4%Z)) [] ∅ Hg Ht)
    as ((slot & g' & Hslot & Hedit & Hg' & Hnew & _) & _).
  exists g'. split; [exact Hedit|]. split; [exact Hg'|].
  rewrite Hnew. vm_compute in Hslot. by injection Hslot as <-.
Defined.

(** X18: a complete grid that is saved and shown again is the same grid. *)
Theorem save_load_roundtrip (g : DailyData) (d : string)
    (st : Store UserDataBundle) :
  grid_complete g →
  loadDay (healthData (data (handleSave d g st))) d = g.
Proof.
  intros Hg. apply map_eq. intros t.
  unfold handleSave. rewrite updateHealthData_data. cbn [healthData].
  pose proof (proj1 (grid_complete_lookup g) Hg t) as Ht.
  destruct (decide (is_Some (g !! t))) as [Hsome|Hnone].
  - rewrite loadDay_row by by apply Ht.
    rewrite lookup_insert_eq. simpl. destruct Hsome as [slot Hslot].
    by rewrite Hslot.
  - rewrite loadDay_no_other_row.
    + symmetry. by apply eq_None_not_Some.
    + intros dayData. rewrite lookup_insert_eq. intros [= <-].
      by apply grid_complete_plainKeys.
    + by rewrite <- Ht.
Qed.

Lemma save_load_roundtrip_witness :
  grid_complete (<["08:00" := Slot.mk (Some 5%Z) ["Medicina A"] ""]>
                   createInitialData)
  ∧ loadDay
      (healthData
         (data (handleSave "2024-06-01"
                  (<["08:00" := Slot.mk (Some 5%Z) ["Medicina A"] ""]>
                     createInitialData) readyStore)))
      "2024-06-01"
    = <["08:00" := Slot.mk (Some 5%Z) ["Medicina A"] ""]> createInitialData.
Proof.
  assert (Hg : grid_complete (<["08:00" := Slot.mk (Some 5%Z) ["Medicina A"] ""]>
                                createInitialData)).
  { unfold grid_complete. rewrite dom_insert_lookup_L.
    - exact createInitialData_complete.
    - rewrite createInitialData_lookup. by eexists. }
  split; [exact Hg|].
  exact (save_load_roundtrip _ "2024-06-01" readyStore Hg).
Defined.

(** X19: a day whose record has no slot under a member of
    [Object.prototype], shown in the form and saved as shown, keeps its
    calendar marker exactly when a slot under a label of [TIME_SLOTS] has a
    value, a medication or a comment: what was recorded under any other
    label, such as 23:30, is gone from the saved record. *)
Theorem reopen_save_marker (d : string) (st : Store UserDataBundle) :
  (∀ dayData, healthData (data st) !! d = Some dayData → plainKeys dayData) →
  (hasData
     (healthData
        (data (handleSave d (loadDay (healthData (data st)) d) st))) d = true
   ↔ ∃ dayData time slot,
       healthData (data st) !! d = Some dayData
       ∧ dayData !! time = Some slot
       ∧ time ∈ TIME_SLOTS
       ∧ slot_filled slot)
  ∧ (∀ dayData' time,
       healthData
         (data (handleSave d (loadDay (healthData (data st)) d) st)) !! d
       = Some dayData' →
       time ∉ TIME_SLOTS → dayData' !! time = None).
Proof.
  intros Hplain.
  unfold handleSave. rewrite updateHealthData_data. cbn [healthData]. split.
  - rewrite hasData_spec. split.
    + intros (g & time & slot & Hg & Hslot & Hfilled).
      rewrite lookup_insert_eq in Hg. injection Hg as <-.
      destruct (decide (time ∈ dom createInitialData)) as [Hin|Hin].
      * apply elem_of_dom, (proj1 (grid_complete_lookup _)
                              createInitialData_complete) in Hin.
        rewrite loadDay_row in Hslot by done. injection Hslot as <-.
        destruct (healthData (data st) !! d) as [dayData|] eqn:Hd; simpl in *.
        -- destruct (dayData !! time) as [slot|] eqn:Hs; simpl in *.
           ++ by exists dayData, time, slot.
           ++ exfalso. unfold slot_filled in Hfilled. simpl in Hfilled.
              by destruct Hfilled as [?|[?|?]].
        -- exfalso. unfold slot_filled in Hfilled. simpl in Hfilled.
           by destruct Hfilled as [?|[?|?]].
      * rewrite loadDay_no_other_row in Hslot; [done|done|].
        intros Ht. apply Hin, elem_of_dom.
        by apply (proj1 (grid_complete_lookup _) createInitialData_complete).
    + intros (dayData & time & slot & Hd & Hslot & Hin & Hfilled).
      exists (loadDay (healthData (data st)) d), time, slot.
      split; [apply lookup_insert_eq|]. split; [|done].
      rewrite loadDay_row, Hd by done. simpl. by rewrite Hslot.
  - intros dayData' time Hd Ht. rewrite lookup_insert_eq in Hd.
    injection Hd as <-. by apply loadDay_no_other_row.
Qed.

Lemma reopen_save_marker_witness :
  (∀ dayData, healthData (data exampleStore) !! "2024-06-01" = Some dayData →
              plainKeys dayData)
  ∧ hasData
      (healthData
         (data (handleSave "2024-06-01"
                  (loadDay (healthData (data exampleStore)) "2024-06-01")
                  exampleStore))) "2024-06-01" = true.
Proof.
  assert (Hplain : ∀ dayData,
            healthData (data exampleStore) !! "2024-06-01" = Some dayData →
            plainKeys dayData).
  { intros dayData Hd. rewrite healthData_exampleStore in Hd.
    apply lookup_singleton_Some in Hd as [_ <-]. exact plainKeys_exampleDay. }
  split; [exact Hplain|].
  apply (proj1 (reopen_save_marker "2024-06-01" exampleStore Hplain)).
  exists exampleDay, "08:00", (Slot.mk (Some 7%Z) ["Medicina A"] "headache").
  split; [reflexivity|]. split; [reflexivity|].
  split; [apply includes_true; vm_compute; reflexivity|].
  left. discriminate.
Defined.

(** ** Applying the pattern: what it merges and what it passes over *)

(** X31: on a pattern without a key that the grid lacks and
    [Object.prototype] has, the action returns, in src/index.tsx and in the
    form component alike, the grid in which every slot has the union of its
    medications and the pattern's for its label, without duplicates among
    them, with every medication the slot had, and with the slot's value and
    comments; a slot whose label the pattern lacks is unchanged. *)
Theorem applyStandardPattern_union (sp : StandardPattern) (prev : DailyData) :
  noStrayKey sp prev →
  ∃ newData,
    applyStandardPattern sp prev = Return newData
    ∧ applyStandardPattern_form sp prev = FullSlot <$> newData
    ∧ ∀ time slot, prev !! time = Some slot →
        ∃ slot',
          newData !! time = Some slot'
          ∧ Slot.value slot' = Slot.value slot
          ∧ Slot.comments slot' = Slot.comments slot
          ∧ (∀ m, m ∈ Slot.medications slot' ↔
                  m ∈ Slot.medications slot ∨ m ∈ default [] (sp !! time))
          ∧ (NoDup (Slot.medications slot) → NoDup (Slot.medications slot'))
          ∧ (sp !! time = None → slot' = slot).
Proof.
  intros Hno. exists (merged sp prev). split_and!.
  - by apply applyStandardPattern_Return.
  - by apply applyStandardPattern_form_Return.
  - intros time slot Hslot. rewrite merged_lookup, Hslot.
    destruct (sp !! time) as [pm|]; simpl.
    + exists (combined pm slot). split_and!; try done; simpl.
      * intros m. rewrite Array_from_Set_elem_of, elem_of_app. tauto.
      * intros _. apply Array_from_Set_NoDup.
    + exists slot. split_and!; try done.
      intros m. rewrite elem_of_nil. tauto.
Qed.

Lemma applyStandardPattern_union_witness :
  noStrayKey {[ "08:00" := ["Medicina A"; "Medicina B"] ]} exampleDay
  ∧ ∃ newData slot',
      applyStandardPattern {[ "08:00" := ["Medicina A"; "Medicina B"] ]}
        exampleDay = Return newData
      ∧ newData !! "08:00" = Some slot'
      ∧ Slot.value slot' = Some 7%Z
      ∧ Slot.comments slot' = "headache".
Proof.
  assert (Hno : noStrayKey {[ "08:00" := ["Medicina A"; "Medicina B"] ]}
                  exampleDay).
  { intros time [pm Hpm]. apply lookup_singleton_Some in Hpm as [<- _].
    reflexivity. }
  split; [exact Hno|].
  destruct (applyStandardPattern_union _ exampleDay Hno)
    as (newData & Hret & _ & Hslots).
  destruct (Hslots "08:00" (Slot.mk (Some 7%Z) ["Medicina A"] "headache")
              eq_refl) as (slot' & Hnew & Hvalue & Hcomments & _).
  exists newData, slot'. split; [exact Hret|]. split; [exact Hnew|].
  split; [exact Hvalue | exact Hcomments].
Defined.

(** X32: on a pattern without a key that the grid lacks and
    [Object.prototype] has, [applyStandardPattern] passes over the keys of
    the pattern that the grid lacks: the grid it returns has no slot there,
    and the slots it has are those it had. A key of the pattern that the grid
    lacks and [Object.prototype] has makes the action throw. *)
Theorem applyStandardPattern_ignores (sp : StandardPattern) (prev : DailyData) :
  (noStrayKey sp prev →
   ∃ newData,
     applyStandardPattern sp prev = Return newData
     ∧ dom newData = dom prev
     ∧ ∀ t, prev !! t = None → newData !! t = None)
  ∧ (∀ t, is_Some (sp !! t) → prev !! t = None → inherited t = true →
       applyStandardPattern sp prev = Throw "TypeError").
Proof.
  split.
  - intros Hno. exists (merged sp prev). split_and!.
    + by apply applyStandardPattern_Return.
    + apply merged_dom.
    + intros t Ht. rewrite merged_lookup, Ht. by destruct (sp !! t).
  - intros t Hsome Hnone Hin. apply (applyStandardPattern_Throw sp prev t Hsome).
    unfold stray. by rewrite Hnone.
Qed.

(** ** Applying the pattern again *)

Lemma Set_add_all_included l acc :
  (∀ x, x ∈ l → x ∈ acc) → Set_add_all acc l = acc.
Proof.
  unfold Set_add_all. induction l as [|y l IH]; intros Hl; [done|].
  cbn [foldl]. unfold Set_add at 2. unfold includes.
  rewrite bool_decide_eq_true_2 by (apply Hl; by left).
  apply IH. intros x Hx. apply Hl. by right.
Qed.

Lemma Set_add_all_fresh l : ∀ acc,
  NoDup (acc ++ l) → Set_add_all acc l = acc ++ l.
Proof.
  unfold Set_add_all. induction l as [|y l IH]; intros acc Hnd.
  { by rewrite app_nil_r. }
  cbn [foldl]. unfold Set_add at 2. unfold includes.
  apply NoDup_app in Hnd as (Hacc & Hdisj & Hl).
  rewrite bool_decide_eq_false_2.
  - rewrite IH; [by rewrite <- (assoc_L (++))|].
    rewrite <- (assoc_L (++)). apply NoDup_app. split; [done|]. split; [|done].
    exact Hdisj.
  - intros Hy. apply (Hdisj y Hy). by left.
Qed.

Lemma Array_from_Set_id l : NoDup l → Array_from_Set l = l.
Proof. intros Hl. unfold Array_from_Set. by rewrite Set_add_all_fresh. Qed.

Lemma combined_combined pm slot :
  combined pm (combined pm slot) = combined pm slot.
Proof.
  unfold combined. cbn [Slot.value Slot.medications Slot.comments]. f_equal.
  rewrite <- Set_add_all_app.
  rewrite (Array_from_Set_id (Array_from_Set _)) by apply Array_from_Set_NoDup.
  apply Set_add_all_included. intros x Hx.
  apply Array_from_Set_elem_of, elem_of_app. by right.
Qed.

Lemma merged_merged (sp : StandardPattern) (g : DailyData) :
  merged sp (merged sp g) = merged sp g.
Proof.
  apply map_eq. intros t. rewrite !merged_lookup.
  destruct (sp !! t) as [pm|]; [|done].
  destruct (g !! t) as [slot|]; [|done]. simpl. by rewrite combined_combined.
Qed.

(** X20: applying the standard pattern twice gives what applying it once
    gives, a throw included, and applying an empty pattern changes
    nothing. *)
Theorem applyStandardPattern_idempotent (sp : StandardPattern) (g : DailyData) :
  Exn_bind (applyStandardPattern sp g) (applyStandardPattern sp)
  = applyStandardPattern sp g
  ∧ applyStandardPattern ∅ g = Return g.
Proof.
  split.
  - rewrite (applyStandardPattern_result sp g).
    destruct (existsb _ (map_to_list sp)) eqn:Hstray; [done|].
    cbn [Exn_bind]. rewrite applyStandardPattern_result.
    rewrite (existsb_pointwise _ (λ entry, stray g entry.1)).
    + by rewrite Hstray, merged_merged.
    + intros entry. apply stray_same. rewrite <- !elem_of_dom.
      by rewrite merged_dom.
  - unfold applyStandardPattern. by rewrite map_to_list_empty.
Qed.

(** * Further properties of the pattern editor *)

(** What [meds.length > 0 ? keep : drop] and the assignment make of an
    entry. *)
Lemma cleanedPattern_lookup (p : StandardPattern) time :
  cleanedPattern p !! time
  = if decide (time = "__proto__") then None
    else p !! time ≫= λ meds, if (0 <? length meds)%nat then Some meds else None.
Proof.
  unfold cleanedPattern.
  rewrite (entries_reduce_assign_if _
             (λ meds, if (0 <? length meds)%nat then Some meds else None)).
  - rewrite lookup_assigned. destruct (decide _); [done|].
    by rewrite lookup_omap.
  - intros acc k meds. by destruct (0 <? length meds)%nat.
Qed.

Lemma cleanedPattern_no_empty (p : StandardPattern) : no_empty (cleanedPattern p).
Proof.
  intros time meds Hlook. rewrite cleanedPattern_lookup in Hlook.
  destruct (decide _); [done|].
  destruct (p !! time) as [meds0|]; [|done]. simpl in Hlook.
  destruct meds0; [done|]. simpl in Hlook. by injection Hlook as <-.
Qed.

(** X21: the pattern that the editor saves has no entry without
    medications and has every entry with medications as it was edited,
    except under the key [__proto__], where it has none; an entry whose
    selection was cleared is not saved; no entry is created or changed; and
    cleaning a pattern that has no empty entry and none under [__proto__]
    changes nothing. *)
Theorem cleanedPattern_spec (p : StandardPattern) :
  no_empty (cleanedPattern p)
  ∧ (∀ time meds, time ≠ "__proto__" → p !! time = Some meds → meds ≠ [] →
       cleanedPattern p !! time = Some meds)
  ∧ (∀ time, cleanedPattern (patternSelect time [] p) !! time = None)
  ∧ (∀ time meds, cleanedPattern p !! time = Some meds → p !! time = Some meds)
  ∧ cleanedPattern p !! "__proto__" = None
  ∧ (no_empty p → p !! "__proto__" = None → cleanedPattern p = p)
  ∧ cleanedPattern (cleanedPattern p) = cleanedPattern p.
Proof.
  assert (Hid : ∀ q : StandardPattern,
            no_empty q → q !! "__proto__" = None → cleanedPattern q = q).
  { intros q Hq Hproto. apply map_eq. intros time. rewrite cleanedPattern_lookup.
    destruct (decide (time = "__proto__")) as [->|]; [done|].
    destruct (q !! time) as [meds|] eqn:Htime; [|done]. simpl.
    specialize (Hq time meds Htime). by destruct meds. }
  assert (Hproto : ∀ q : StandardPattern, cleanedPattern q !! "__proto__" = None).
  { intros q. by rewrite cleanedPattern_lookup. }
  split_and!.
  - apply cleanedPattern_no_empty.
  - intros time meds Htime Hlook Hne.
    rewrite cleanedPattern_lookup, decide_False, Hlook by done. simpl.
    by destruct meds.
  - intros time. unfold patternSelect. rewrite cleanedPattern_lookup.
    destruct (decide _); [done|]. by rewrite lookup_insert_eq.
  - intros time meds. rewrite cleanedPattern_lookup.
    destruct (decide _); [done|].
    destruct (p !! time) as [meds0|]; [|done]. simpl.
    destruct (0 <? length meds0)%nat; [|done]. by intros [= <-].
  - apply Hproto.
  - apply Hid.
  - apply Hid; [apply cleanedPattern_no_empty | apply Hproto].
Qed.

Lemma no_empty_assigned (p : StandardPattern) :
  no_empty p → no_empty (assigned p).
Proof.
  intros Hp time meds. rewrite lookup_assigned.
  destruct (decide _); [done|]. apply Hp.
Qed.

Lemma rename_no_empty a b (p : StandardPattern) :
  no_empty p → no_empty (fmap (M:=gmap string) (fmap (M:=list) (rename a b)) p).
Proof.
  intros Hp time meds Hlook. rewrite lookup_fmap in Hlook.
  destruct (p !! time) as [meds0|] eqn:Htime; [|done].
  injection Hlook as <-. specialize (Hp time meds0 Htime). by destruct meds0.
Qed.

(** X22: once saved through the editor the stored pattern never has an
    entry without medications: [savePattern] and [deleteMedication] store
    none, and [editMedication], [addMedication] and [updateHealthData] keep
    a pattern that has none. *)
Theorem pattern_never_empty (st : Store UserDataBundle) (p : StandardPattern)
    (m a b d : string) (r : DailyData) :
  no_empty (standardPattern (data (savePattern p st)))
  ∧ no_empty (standardPattern (data (deleteMedication m st)))
  ∧ (no_empty (standardPattern (data st)) →
     no_empty (standardPattern (data (editMedication a b st)))
     ∧ no_empty (standardPattern (data (addMedication m st)))
     ∧ no_empty (standardPattern (data (updateHealthData d r st)))).
Proof.
  split_and!.
  - unfold savePattern, updateStandardPattern. rewrite data_saveDataToJsonbin.
    apply cleanedPattern_no_empty.
  - rewrite deleteMedication_data. cbn [standardPattern].
    apply no_empty_assigned.
    intros time meds Hlook. rewrite lookup_omap in Hlook.
    destruct (standardPattern (data st) !! time) as [meds0|]; [|done].
    simpl in Hlook. unfold pruned in Hlook.
    destruct (0 <? length (without m meds0))%nat eqn:Hlen; [|done].
    injection Hlook as <-. intros Heq. by rewrite Heq in Hlen.
  - intros Hst. split_and!.
    + rewrite editMedication_data. cbn [standardPattern].
      by apply no_empty_assigned, rename_no_empty.
    + by rewrite addMedication_catalog.
    + by rewrite updateHealthData_data.
Qed.

(** * Further properties of the medication list *)

Lemma trimEnd_idempotent s : trimEnd (trimEnd s) = trimEnd s.
Proof.
  induction s as [|c rest IH]; [done|]. cbn [trimEnd].
  destruct (trimEnd rest) as [|c' rest'] eqn:Hrest.
  - destruct (isWhiteSpace c) eqn:Hc; [done|]. cbn [trimEnd]. by rewrite Hc.
  - cbn [trimEnd]. cbn [trimEnd] in IH.
    destruct (trimEnd rest') as [|c'' rest'']; by rewrite IH.
Qed.

Lemma trimStart_stops s :
  trimStart s = ""
  ∨ ∃ c rest, trimStart s = String c rest ∧ isWhiteSpace c = false.
Proof.
  induction s as [|c rest IH]; [by left|]. cbn [trimStart].
  destruct (isWhiteSpace c) eqn:Hc; [done|]. right. by exists c, rest.
Qed.

Lemma trimEnd_keeps_head c rest :
  isWhiteSpace c = false → ∃ rest', trimEnd (String c rest) = String c rest'.
Proof.
  intros Hc. cbn [trimEnd]. destruct (trimEnd rest) as [|c' rest'].
  - rewrite Hc. by eexists.
  - by eexists.
Qed.

(** [trim] of what is trimmed changes nothing. *)
Lemma trim_idempotent s : trim (trim s) = trim s.
Proof.
  unfold trim. destruct (trimStart_stops s) as [->|(c & rest & -> & Hc)]; [done|].
  destruct (trimEnd_keeps_head c rest Hc) as [rest' Hrest].
  rewrite Hrest. cbn [trimStart]. rewrite Hc, <- Hrest.
  apply trimEnd_idempotent.
Qed.

Lemma handleAdd_catalog newMed st :
  data (handleAdd newMed st)
  = if String.eqb (trim newMed) "" then data st
    else data (addMedication (trim newMed) st).
Proof.
  unfold handleAdd. destruct (String.eqb (trim newMed) "") eqn:He; [done|].
  cbn [negb andb].
  destruct (includes (medications (data st)) (trim newMed)) eqn:Hin; [|done].
  cbn [negb]. unfold addMedication. by rewrite Hin.
Qed.

(** X23: [handleAdd] ignores white space around the name: a blank input
    changes nothing at all, and an input gives the store that its trimmed
    form gives; what it adds is the trimmed name, which is in the catalog
    afterwards. *)
Theorem handleAdd_trims (newMed : string) (st : Store UserDataBundle) :
  (trim newMed = "" → handleAdd newMed st = st)
  ∧ handleAdd newMed st = handleAdd (trim newMed) st
  ∧ (trim newMed ≠ "" → trim newMed ∈ medications (data (handleAdd newMed st))).
Proof.
  split_and!.
  - intros Hblank. unfold handleAdd. by rewrite Hblank.
  - unfold handleAdd. by rewrite trim_idempotent.
  - intros Hne. rewrite handleAdd_catalog.
    apply String.eqb_neq in Hne. rewrite Hne.
    rewrite addMedication_catalog. cbn [medications].
    apply catalog_add_elem_of. by right.
Qed.

(** X24: the empty name never gets into the catalog through the list
    editor: from a catalog without it, [handleAdd], [handleEdit] and
    [handleDelete] give a catalog without it, whatever is typed. *)
Theorem catalog_never_blank (st : Store UserDataBundle)
    (newMed med editText : string) :
  "" ∉ medications (data st) →
  ("" ∉ medications (data (handleAdd newMed st)))
  ∧ ("" ∉ medications (data (handleEdit med editText st)))
  ∧ ("" ∉ medications (data (handleDelete med st))).
Proof.
  intros Hst. split_and!.
  - rewrite handleAdd_catalog.
    destruct (String.eqb (trim newMed) "") eqn:He; [done|].
    apply String.eqb_neq in He.
    rewrite addMedication_catalog. cbn [medications].
    rewrite catalog_add_elem_of. by intros [?|?].
  - unfold handleEdit.
    destruct (String.eqb (trim editText) "") eqn:He; [done|].
    apply String.eqb_neq in He. cbn [negb andb].
    destruct (negb (String.eqb (trim editText) med)); [|done].
    rewrite editMedication_data. cbn [medications].
    rewrite Array_sort_elem_of, list_elem_of_fmap.
    intros (x & Hx & Hin). unfold rename in Hx.
    destruct (decide (x = med)); [by subst|]. by subst.
  - unfold handleDelete. rewrite deleteMedication_data. cbn [medications].
    rewrite elem_of_without. by intros [_ ?].
Qed.

Lemma catalog_never_blank_witness :
  ("" ∉ medications (data readyStore))
  ∧ ("" ∉ medications (data (handleAdd "   " readyStore)))
  ∧ ("" ∉ medications (data (handleEdit "Medicina A" " " readyStore))).
Proof.
  assert (Hst : "" ∉ medications (data readyStore)).
  { apply (bool_decide_unpack _). vm_compute. exact I. }
  destruct (catalog_never_blank readyStore "   " "Medicina A" " " Hst)
    as (Hadd & Hedit & _).
  split; [exact Hst|]. split; [exact Hadd | exact Hedit].
Defined.

(** * Further properties of loading, display and storage *)

(** X25: whatever document the server holds, [loadInitialUserData] leaves
    no cell falsy when none was, starts no save timer and sends nothing; a
    document in which none of the three fields is truthy (an empty object, a
    number, a string) puts the defaults into the cells, and on [null] the
    cells stay as they were. *)
Theorem loadInitialUserData_defaults (document : JSON) (st : Store RawBundle) :
  (cells_truthy (data st) = true →
   cells_truthy (data (snd (loadInitialUserData_raw document st))) = true)
  ∧ window (snd (loadInitialUserData_raw document st)) = window st
  ∧ saveDataTimeout (snd (loadInitialUserData_raw document st))
    = saveDataTimeout st
  ∧ requests (snd (loadInitialUserData_raw document st)) = requests st
  ∧ (document ≠ JNull →
     (∀ name, name ∈ bundleFields → truthy (get document name) = false) →
     data (snd (loadInitialUserData_raw document st))
     = rawOf defaultUserDataBundle)
  ∧ (document = JNull → snd (loadInitialUserData_raw document st) = st).
Proof.
  assert (Hor : ∀ x dflt, truthy (Some dflt) = true →
            truthy (orDefault x dflt) = true).
  { intros x dflt Hd. unfold orDefault. by destruct (truthy x) eqn:Hx. }
  split_and!.
  - intros Hst. unfold loadInitialUserData_raw.
    destruct document; try done; cbn [snd setData data]; unfold cells_truthy;
      cbn [rawHealthData rawMedications rawStandardPattern];
      by rewrite !Hor.
  - by destruct document.
  - by destruct document.
  - by destruct document.
  - intros Hnull Hnone.
    assert (Hh : truthy (get document "healthData") = false).
    { apply Hnone. by left. }
    assert (Hm : truthy (get document "medications") = false).
    { apply Hnone. right. by left. }
    assert (Hp : truthy (get document "standardPattern") = false).
    { apply Hnone. do 2 right. by left. }
    unfold loadInitialUserData_raw, orDefault.
    destruct document; try done; cbn [snd setData data];
      by rewrite ?Hh, ?Hm, ?Hp.
  - by intros ->.
Qed.





(** X27: the calendar's first column is Monday: the number of empty cells
    before the first day of a month is the number of days from Monday to
    its weekday, less than seven, and none exactly when it is a Monday. *)
Theorem startingDayIndex_monday_first (getDay : nat) :
  (getDay < 7)%nat →
  (startingDayIndex getDay < 7)%nat
  ∧ (startingDayIndex getDay + 1) mod 7 = getDay
  ∧ (startingDayIndex getDay = 0%nat ↔ getDay = 1%nat).
Proof.
  intros Hd. unfold startingDayIndex.
  do 7 (destruct getDay as [|getDay];
          [cbn; split_and!; [lia | reflexivity | split; lia]|]).
  lia.
Qed.

Lemma startingDayIndex_monday_first_witness :
  startingDayIndex 0 = 6%nat ∧ (startingDayIndex 0 + 1) mod 7 = 0%nat.
Proof.
  destruct (startingDayIndex_monday_first 0 ltac:(lia)) as (_ & Hinv & _).
  split; [reflexivity | exact Hinv].
Defined.

(** X28: a value written through the hook is the value a later session
    starts with, when [JSON.parse] reads back what [JSON.stringify] wrote
    and that is not the empty string; the other keys are untouched; and a
    key that is missing, or whose item is not JSON, gives the initial
    value. *)
Theorem useLocalStorage_persists {T} (JSON_parse : string → Exn T)
    (JSON_stringify : T → string) (key : string) (v old initialValue : T)
    (localStorage : gmap string string) :
  JSON_parse (JSON_stringify v) = Return v →
  JSON_stringify v ≠ "" →
  fst (setValue JSON_stringify key (NewValue v) old localStorage) = v
  ∧ useLocalStorage_init JSON_parse key initialValue
      (snd (setValue JSON_stringify key (NewValue v) old localStorage)) = v
  ∧ (∀ key' i, key' ≠ key →
       useLocalStorage_init JSON_parse key' i
         (snd (setValue JSON_stringify key (NewValue v) old localStorage))
       = useLocalStorage_init JSON_parse key' i localStorage)
  ∧ (localStorage !! key = None →
       useLocalStorage_init JSON_parse key initialValue localStorage
       = initialValue)
  ∧ (∀ item message, localStorage !! key = Some item →
       JSON_parse item = Throw message →
       useLocalStorage_init JSON_parse key initialValue localStorage
       = initialValue).
Proof.
  intros Hparse Hne. unfold setValue, useLocalStorage_init. cbn [fst snd].
  split_and!.
  - done.
  - rewrite lookup_insert_eq. apply String.eqb_neq in Hne.
    by rewrite Hne, Hparse.
  - intros key' i Hkey. by rewrite lookup_insert_ne.
  - by intros ->.
  - intros item message -> Hthrow. rewrite Hthrow. by destruct (negb _).
Qed.

Lemma useLocalStorage_persists_witness :
  useLocalStorage_init parse_bool "health_app_auth" false
    (snd (setValue stringify_bool "health_app_auth" (NewValue true) false ∅))
  = true.
Proof.
  destruct (useLocalStorage_persists parse_bool stringify_bool
              "health_app_auth" true false false ∅ eq_refl ltac:(discriminate))
    as (_ & Hread & _).
  exact Hread.
Defined.
